(** * oc_latch: the generated simulation callbacks of the latch model

    A shallow embedding of the C callbacks that OpenModelica generated for
    the model [oc_latch] (files [oc_latch.c], [oc_latch_03lsy.c],
    [oc_latch_05evt.c], [oc_latch_06inz.c], [oc_latch_08bnd.c],
    [oc_latch_09alg.c], [oc_latch_12jac.c]).  Every callback receives the
    simulation context [DATA *data] and mutates it in place; here a callback
    is a function from the world before the call to the outcome of the call:
    a normal return or a thrown diagnostic, each with the world it leaves. *)

From Stdlib Require Import ZArith List String Bool Lia.
From Stdlib Require Import Reals Lra.
From Stdlib Require Import Floats Uint63.
From Stdlib Require Import FunctionalExtensionality.
Import ListNotations.

Set Warnings "-inexact-float".
Close Scope R_scope.
Open Scope string_scope.

(** ** Arrays

    The runtime hands the callbacks C arrays whose bounds are fixed by
    [oc_latch_setupDataStruc]; every index in the generated code is a
    constant inside them.  An array is its content at every index. *)

Definition array (T : Type) : Type := nat -> T.

Definition upd {T : Type} (a : array T) (i : nat) (v : T) : array T :=
  fun j => if Nat.eqb j i then v else a j.

(** ** [modelica_real]

    The generated code computes on [modelica_real] (C [double]) with
    [+ - * /], unary minus, the comparisons behind the runtime macros
    [Less], [LessEq], [GreaterEq], and a handful of decimal literals.  The
    embedding is written once over these operations; they are instantiated
    with IEEE binary64 ([float]) to run the callbacks, and with the real
    numbers to state what the equations compute up to rounding. *)

Inductive literal : Type :=
| Lit_0        (* 0.0 *)
| Lit_m0       (* -0.0 *)
| Lit_0_1      (* 0.1 *)
| Lit_0_5      (* 0.5 *)
| Lit_0_9      (* 0.9 *)
| Lit_0_95     (* 0.95 *)
| Lit_0_96     (* 0.96 *)
| Lit_1        (* 1.0 *)
| Lit_2        (* 2.0 *)
| Lit_1em15    (* 1e-15 *)
| Lit_1e60     (* 9.999999999999999e+59 *).

Class Arith (real : Type) : Type := {
  rlit : literal -> real;
  rofZ : Z -> real;               (* int to double *)
  radd : real -> real -> real;
  rsub : real -> real -> real;
  rmul : real -> real -> real;
  rdiv : real -> real -> real;
  ropp : real -> real;
  rltb : real -> real -> bool;    (* a < b *)
  rleb : real -> real -> bool;    (* a <= b *)
  reqb : real -> real -> bool     (* a == b *)
}.

Declare Scope real_scope.
Delimit Scope real_scope with r.
Notation "a + b" := (radd a b) : real_scope.
Notation "a - b" := (rsub a b) : real_scope.
Notation "a * b" := (rmul a b) : real_scope.
Notation "a / b" := (rdiv a b) : real_scope.
Notation "- a" := (ropp a) : real_scope.

(** The runtime's relation macros ([Less(a,b)] is [(a) < (b)], and so on). *)
Definition Less {real} `{Arith real} (a b : real) : bool := rltb a b.
Definition LessEq {real} `{Arith real} (a b : real) : bool := rleb a b.
Definition GreaterEq {real} `{Arith real} (a b : real) : bool := rleb b a.

(** IEEE binary64. *)
Definition float_lit (l : literal) : float :=
  match l with
  | Lit_0 => 0%float
  | Lit_m0 => (-0)%float
  | Lit_0_1 => 0.1%float
  | Lit_0_5 => 0.5%float
  | Lit_0_9 => 0.9%float
  | Lit_0_95 => 0.95%float
  | Lit_0_96 => 0.96%float
  | Lit_1 => 1%float
  | Lit_2 => 2%float
  | Lit_1em15 => 1e-15%float
  | Lit_1e60 => 9.999999999999999e+59%float
  end.

Definition float_ofZ (z : Z) : float :=
  match z with
  | Z0 => 0%float
  | Zpos _ => PrimFloat.of_uint63 (Uint63.of_Z z)
  | Zneg p => PrimFloat.opp (PrimFloat.of_uint63 (Uint63.of_Z (Zpos p)))
  end.

#[export] Instance float_arith : Arith float := {|
  rlit := float_lit;
  rofZ := float_ofZ;
  radd := PrimFloat.add;
  rsub := PrimFloat.sub;
  rmul := PrimFloat.mul;
  rdiv := PrimFloat.div;
  ropp := PrimFloat.opp;
  rltb := PrimFloat.ltb;
  rleb := PrimFloat.leb;
  reqb := PrimFloat.eqb
|}.

(** The real numbers: the same operations without rounding. *)
Definition R_lit (l : literal) : R :=
  match l with
  | Lit_0 => 0%R
  | Lit_m0 => (- 0)%R
  | Lit_0_1 => (1 / 10)%R
  | Lit_0_5 => (5 / 10)%R
  | Lit_0_9 => (9 / 10)%R
  | Lit_0_95 => (95 / 100)%R
  | Lit_0_96 => (96 / 100)%R
  | Lit_1 => 1%R
  | Lit_2 => 2%R
  | Lit_1em15 => (1 / 10 ^ 15)%R
  | Lit_1e60 => (9999999999999999 * 10 ^ 44)%R
  end.

Definition Rltb (a b : R) : bool := if Rlt_dec a b then true else false.
Definition Rleb (a b : R) : bool := if Rle_dec a b then true else false.
Definition Reqb (a b : R) : bool := if Req_dec_T a b then true else false.

#[export] Instance R_arith : Arith R := {|
  rlit := R_lit;
  rofZ := IZR;
  radd := Rplus;
  rsub := Rminus;
  rmul := Rmult;
  rdiv := Rdiv;
  ropp := Ropp;
  rltb := Rltb;
  rleb := Rleb;
  reqb := Reqb
|}.

(** ** The simulation context

    [DATA] as the callbacks use it: the current ring-buffer entry
    [localData[0]], the previous one [localData[1]], and [simulationInfo]
    with the pre-values, the parameters, the relation state and the mode
    flags.  [modelica_complex] (an external object) is a handle. *)

Record SIMULATION_DATA {real : Type} : Type := {
  timeValue : real;
  realVars : array real;
  booleanVars : array bool
}.
Arguments SIMULATION_DATA : clear implicits.

Record CALL_STATISTICS : Type := {
  functionODE : Z;
  functionAlgebraics : Z;
  functionZeroCrossingsEquations : Z;
  functionZeroCrossings : Z
}.

Record SIMULATION_INFO {real : Type} : Type := {
  realVarsPre : array real;
  booleanVarsPre : array bool;
  realParameter : array real;
  integerParameter : array Z;
  booleanParameter : array bool;
  relations : array bool;
  relationsPre : array bool;
  storedRelations : array bool;
  extObjs : array Z;
  initial_ : bool;               (* what the runtime's initial() reports *)
  discreteCall : bool;
  solveContinuous : bool;
  needToIterate : bool;
  noThrowAsserts : bool;
  noThrowDivZero : bool;
  needToReThrow : bool;
  callStatistics : CALL_STATISTICS
}.
Arguments SIMULATION_INFO : clear implicits.

(** [modelData]: only the [time_unvarying] marks of the variable and
    parameter descriptions are assigned by the generated code. *)
Record MODEL_DATA : Type := {
  realVarsData_time_unvarying : array bool;
  realParameterData_time_unvarying : array bool;
  integerParameterData_time_unvarying : array bool;
  booleanParameterData_time_unvarying : array bool
}.

Record DATA {real : Type} : Type := {
  localData0 : SIMULATION_DATA real;    (* data->localData[0] *)
  localData1 : SIMULATION_DATA real;    (* data->localData[1] *)
  simulationInfo : SIMULATION_INFO real;
  modelData : MODEL_DATA
}.
Arguments DATA : clear implicits.

Record threadData_t : Type := {
  lastEquationSolved : Z
}.

(** The side buffers of one analytic Jacobian. *)
Record ANALYTIC_JACOBIAN {real : Type} : Type := {
  seedVars : array real;
  tmpVars : array real;
  resultVars : array real
}.
Arguments ANALYTIC_JACOBIAN : clear implicits.

(** ** Logging and diagnostics

    A log entry is one call of the runtime's logging interface, with the
    arguments the generated code passes (format strings as they are
    spelled in the C source).  A diagnostic is what a throwing runtime
    function is given before it unwinds to the caller of the pass. *)

Inductive LOG_STREAM : Type := LOG_ASSERT | LOG_DT | LOG_INIT.

Inductive fmt_arg {real : Type} : Type :=
| ArgReal (r : real)
| ArgString (s : string).
Arguments fmt_arg : clear implicits.

Record FILE_INFO : Type := {
  filename : string;
  lineStart : Z;
  colStart : Z;
  lineEnd : Z;
  colEnd : Z;
  readonly : Z
}.

Inductive LogEvent {real : Type} : Type :=
| infoStreamPrint (stream : LOG_STREAM) (indentNext : Z)
    (format : string) (args : list (fmt_arg real))
| infoStreamPrintWithEquationIndexes (stream : LOG_STREAM) (indentNext : Z)
    (indexes : list Z) (format : string) (args : list (fmt_arg real))
| messageClose (stream : LOG_STREAM)
| omc_assert_warning (info : FILE_INFO)
    (format : string) (args : list (fmt_arg real))
| omc_assert_warning_withEquationIndexes (info : FILE_INFO)
    (indexes : list Z) (format : string) (args : list (fmt_arg real)).
Arguments LogEvent : clear implicits.

Inductive Diag {real : Type} : Type :=
| throwStreamPrintWithEquationIndexes (indexes : list Z)
    (format : string) (args : list (fmt_arg real))
| omc_assert_withEquationIndexes (info : FILE_INFO) (indexes : list Z)
    (format : string) (args : list (fmt_arg real))
| runtime_error (what : string).      (* raised inside the runtime or a library *)
Arguments Diag : clear implicits.

(** ** The world of a callback

    Besides [data] and [threadData]: the Jacobian a column function is
    handed, the function-local [static int] latches of the assertion
    equations (indexed by equation), the runtime's table of active log
    streams, and the log written so far (latest entry last). *)

Record World {real : Type} : Type := {
  data : DATA real;
  threadData : threadData_t;
  jacobian : ANALYTIC_JACOBIAN real;
  warned : array bool;
  useStream : LOG_STREAM -> bool;
  log : list (LogEvent real)
}.
Arguments World : clear implicits.

Inductive result {real : Type} (A : Type) : Type :=
| Ok (a : A) (w : World real)
| Throw (d : Diag real) (w : World real).
Arguments result : clear implicits.
Arguments Ok {real A} a w.
Arguments Throw {real A} d w.

Definition M (real A : Type) : Type := World real -> result real A.

Definition ret {real A} (a : A) : M real A := fun w => Ok a w.

Definition bind {real A B} (m : M real A) (k : A -> M real B) : M real B :=
  fun w => match m w with
           | Ok a w' => k a w'
           | Throw d w' => Throw d w'
           end.

Definition throw {real A} (d : Diag real) : M real A := fun w => Throw d w.

Notation "x <- m ;; k" := (bind m (fun x => k))
  (at level 61, m at next level, right associativity).
Notation "m ;; k" := (bind m (fun _ => k))
  (at level 61, right associativity).

(** The world an outcome leaves behind. *)
Definition final {real A} (r : result real A) : World real :=
  match r with Ok _ w => w | Throw _ w => w end.

(** ** Field updates

    One function per field the generated code assigns: the record with that
    field replaced and every other field as it was. *)

Definition set_realVars {real} (v : array real) (x : SIMULATION_DATA real) : SIMULATION_DATA real :=
  @Build_SIMULATION_DATA real (timeValue x) (v) (booleanVars x).

Definition set_booleanVars {real} (v : array bool) (x : SIMULATION_DATA real) : SIMULATION_DATA real :=
  @Build_SIMULATION_DATA real (timeValue x) (realVars x) (v).

Definition set_functionODE (v : Z) (x : CALL_STATISTICS) : CALL_STATISTICS :=
  Build_CALL_STATISTICS (v) (functionAlgebraics x) (functionZeroCrossingsEquations x) (functionZeroCrossings x).

Definition set_functionAlgebraics (v : Z) (x : CALL_STATISTICS) : CALL_STATISTICS :=
  Build_CALL_STATISTICS (functionODE x) (v) (functionZeroCrossingsEquations x) (functionZeroCrossings x).

Definition set_functionZeroCrossingsEquations (v : Z) (x : CALL_STATISTICS) : CALL_STATISTICS :=
  Build_CALL_STATISTICS (functionODE x) (functionAlgebraics x) (v) (functionZeroCrossings x).

Definition set_functionZeroCrossings (v : Z) (x : CALL_STATISTICS) : CALL_STATISTICS :=
  Build_CALL_STATISTICS (functionODE x) (functionAlgebraics x) (functionZeroCrossingsEquations x) (v).

Definition set_realVarsPre {real} (v : array real) (x : SIMULATION_INFO real) : SIMULATION_INFO real :=
  @Build_SIMULATION_INFO real (v) (booleanVarsPre x) (realParameter x) (integerParameter x) (booleanParameter x) (relations x) (relationsPre x) (storedRelations x) (extObjs x) (initial_ x) (discreteCall x) (solveContinuous x) (needToIterate x) (noThrowAsserts x) (noThrowDivZero x) (needToReThrow x) (callStatistics x).

Definition set_booleanVarsPre {real} (v : array bool) (x : SIMULATION_INFO real) : SIMULATION_INFO real :=
  @Build_SIMULATION_INFO real (realVarsPre x) (v) (realParameter x) (integerParameter x) (booleanParameter x) (relations x) (relationsPre x) (storedRelations x) (extObjs x) (initial_ x) (discreteCall x) (solveContinuous x) (needToIterate x) (noThrowAsserts x) (noThrowDivZero x) (needToReThrow x) (callStatistics x).

Definition set_realParameter {real} (v : array real) (x : SIMULATION_INFO real) : SIMULATION_INFO real :=
  @Build_SIMULATION_INFO real (realVarsPre x) (booleanVarsPre x) (v) (integerParameter x) (booleanParameter x) (relations x) (relationsPre x) (storedRelations x) (extObjs x) (initial_ x) (discreteCall x) (solveContinuous x) (needToIterate x) (noThrowAsserts x) (noThrowDivZero x) (needToReThrow x) (callStatistics x).

Definition set_integerParameter {real} (v : array Z) (x : SIMULATION_INFO real) : SIMULATION_INFO real :=
  @Build_SIMULATION_INFO real (realVarsPre x) (booleanVarsPre x) (realParameter x) (v) (booleanParameter x) (relations x) (relationsPre x) (storedRelations x) (extObjs x) (initial_ x) (discreteCall x) (solveContinuous x) (needToIterate x) (noThrowAsserts x) (noThrowDivZero x) (needToReThrow x) (callStatistics x).

Definition set_booleanParameter {real} (v : array bool) (x : SIMULATION_INFO real) : SIMULATION_INFO real :=
  @Build_SIMULATION_INFO real (realVarsPre x) (booleanVarsPre x) (realParameter x) (integerParameter x) (v) (relations x) (relationsPre x) (storedRelations x) (extObjs x) (initial_ x) (discreteCall x) (solveContinuous x) (needToIterate x) (noThrowAsserts x) (noThrowDivZero x) (needToReThrow x) (callStatistics x).

Definition set_relations {real} (v : array bool) (x : SIMULATION_INFO real) : SIMULATION_INFO real :=
  @Build_SIMULATION_INFO real (realVarsPre x) (booleanVarsPre x) (realParameter x) (integerParameter x) (booleanParameter x) (v) (relationsPre x) (storedRelations x) (extObjs x) (initial_ x) (discreteCall x) (solveContinuous x) (needToIterate x) (noThrowAsserts x) (noThrowDivZero x) (needToReThrow x) (callStatistics x).

Definition set_extObjs {real} (v : array Z) (x : SIMULATION_INFO real) : SIMULATION_INFO real :=
  @Build_SIMULATION_INFO real (realVarsPre x) (booleanVarsPre x) (realParameter x) (integerParameter x) (booleanParameter x) (relations x) (relationsPre x) (storedRelations x) (v) (initial_ x) (discreteCall x) (solveContinuous x) (needToIterate x) (noThrowAsserts x) (noThrowDivZero x) (needToReThrow x) (callStatistics x).

Definition set_discreteCall {real} (v : bool) (x : SIMULATION_INFO real) : SIMULATION_INFO real :=
  @Build_SIMULATION_INFO real (realVarsPre x) (booleanVarsPre x) (realParameter x) (integerParameter x) (booleanParameter x) (relations x) (relationsPre x) (storedRelations x) (extObjs x) (initial_ x) (v) (solveContinuous x) (needToIterate x) (noThrowAsserts x) (noThrowDivZero x) (needToReThrow x) (callStatistics x).

Definition set_needToIterate {real} (v : bool) (x : SIMULATION_INFO real) : SIMULATION_INFO real :=
  @Build_SIMULATION_INFO real (realVarsPre x) (booleanVarsPre x) (realParameter x) (integerParameter x) (booleanParameter x) (relations x) (relationsPre x) (storedRelations x) (extObjs x) (initial_ x) (discreteCall x) (solveContinuous x) (v) (noThrowAsserts x) (noThrowDivZero x) (needToReThrow x) (callStatistics x).

Definition set_needToReThrow {real} (v : bool) (x : SIMULATION_INFO real) : SIMULATION_INFO real :=
  @Build_SIMULATION_INFO real (realVarsPre x) (booleanVarsPre x) (realParameter x) (integerParameter x) (booleanParameter x) (relations x) (relationsPre x) (storedRelations x) (extObjs x) (initial_ x) (discreteCall x) (solveContinuous x) (needToIterate x) (noThrowAsserts x) (noThrowDivZero x) (v) (callStatistics x).

Definition set_callStatistics {real} (v : CALL_STATISTICS) (x : SIMULATION_INFO real) : SIMULATION_INFO real :=
  @Build_SIMULATION_INFO real (realVarsPre x) (booleanVarsPre x) (realParameter x) (integerParameter x) (booleanParameter x) (relations x) (relationsPre x) (storedRelations x) (extObjs x) (initial_ x) (discreteCall x) (solveContinuous x) (needToIterate x) (noThrowAsserts x) (noThrowDivZero x) (needToReThrow x) (v).

Definition set_localData0 {real} (v : SIMULATION_DATA real) (x : DATA real) : DATA real :=
  @Build_DATA real (v) (localData1 x) (simulationInfo x) (modelData x).

Definition set_simulationInfo {real} (v : SIMULATION_INFO real) (x : DATA real) : DATA real :=
  @Build_DATA real (localData0 x) (localData1 x) (v) (modelData x).

Definition set_modelData {real} (v : MODEL_DATA) (x : DATA real) : DATA real :=
  @Build_DATA real (localData0 x) (localData1 x) (simulationInfo x) (v).

Definition set_realVarsData_time_unvarying (v : array bool) (x : MODEL_DATA) : MODEL_DATA :=
  Build_MODEL_DATA (v) (realParameterData_time_unvarying x) (integerParameterData_time_unvarying x) (booleanParameterData_time_unvarying x).

Definition set_realParameterData_time_unvarying (v : array bool) (x : MODEL_DATA) : MODEL_DATA :=
  Build_MODEL_DATA (realVarsData_time_unvarying x) (v) (integerParameterData_time_unvarying x) (booleanParameterData_time_unvarying x).

Definition set_integerParameterData_time_unvarying (v : array bool) (x : MODEL_DATA) : MODEL_DATA :=
  Build_MODEL_DATA (realVarsData_time_unvarying x) (realParameterData_time_unvarying x) (v) (booleanParameterData_time_unvarying x).

Definition set_booleanParameterData_time_unvarying (v : array bool) (x : MODEL_DATA) : MODEL_DATA :=
  Build_MODEL_DATA (realVarsData_time_unvarying x) (realParameterData_time_unvarying x) (integerParameterData_time_unvarying x) (v).

Definition set_tmpVars {real} (v : array real) (x : ANALYTIC_JACOBIAN real) : ANALYTIC_JACOBIAN real :=
  @Build_ANALYTIC_JACOBIAN real (seedVars x) (v) (resultVars x).

Definition set_resultVars {real} (v : array real) (x : ANALYTIC_JACOBIAN real) : ANALYTIC_JACOBIAN real :=
  @Build_ANALYTIC_JACOBIAN real (seedVars x) (tmpVars x) (v).

Definition set_data {real} (v : DATA real) (x : World real) : World real :=
  @Build_World real (v) (threadData x) (jacobian x) (warned x) (useStream x) (log x).

Definition set_threadData {real} (v : threadData_t) (x : World real) : World real :=
  @Build_World real (data x) (v) (jacobian x) (warned x) (useStream x) (log x).

Definition set_jacobian {real} (v : ANALYTIC_JACOBIAN real) (x : World real) : World real :=
  @Build_World real (data x) (threadData x) (v) (warned x) (useStream x) (log x).

Definition set_warned {real} (v : array bool) (x : World real) : World real :=
  @Build_World real (data x) (threadData x) (jacobian x) (v) (useStream x) (log x).

Definition set_log {real} (v : list (LogEvent real)) (x : World real) : World real :=
  @Build_World real (data x) (threadData x) (jacobian x) (warned x) (useStream x) (v).

(** ** Reading and writing the variable store

    The C expressions of the generated code, against a world [w]:
    [rv w i] is [data->localData[0]->realVars[i]], [rp w i] is
    [data->simulationInfo->realParameter[i]], and so on; [assign_rv i v]
    is the assignment [data->localData[0]->realVars[i] = v]. *)

Section Store.
Context {real : Type}.
Implicit Types w : World real.

Definition sinfo w : SIMULATION_INFO real := simulationInfo (data w).
Definition time w : real := timeValue (localData0 (data w)).
Definition rv w (i : nat) : real := realVars (localData0 (data w)) i.
Definition bv w (i : nat) : bool := booleanVars (localData0 (data w)) i.
Definition rv_old w (i : nat) : real := realVars (localData1 (data w)) i.
Definition rvPre w (i : nat) : real := realVarsPre (sinfo w) i.
Definition bvPre w (i : nat) : bool := booleanVarsPre (sinfo w) i.
Definition rp w (i : nat) : real := realParameter (sinfo w) i.
Definition ip w (i : nat) : Z := integerParameter (sinfo w) i.
Definition bp w (i : nat) : bool := booleanParameter (sinfo w) i.

Definition on_localData0 (f : SIMULATION_DATA real -> SIMULATION_DATA real) w : World real :=
  set_data (set_localData0 (f (localData0 (data w))) (data w)) w.
Definition on_sinfo (f : SIMULATION_INFO real -> SIMULATION_INFO real) w : World real :=
  set_data (set_simulationInfo (f (sinfo w)) (data w)) w.
Definition on_jacobian (f : ANALYTIC_JACOBIAN real -> ANALYTIC_JACOBIAN real) w : World real :=
  set_jacobian (f (jacobian w)) w.

Definition assign_rv (i : nat) (v : real) : M real unit :=
  fun w => Ok tt (on_localData0 (fun d => set_realVars (upd (realVars d) i v) d) w).
Definition assign_bv (i : nat) (v : bool) : M real unit :=
  fun w => Ok tt (on_localData0 (fun d => set_booleanVars (upd (booleanVars d) i v) d) w).
Definition assign_rvPre (i : nat) (v : real) : M real unit :=
  fun w => Ok tt (on_sinfo (fun s => set_realVarsPre (upd (realVarsPre s) i v) s) w).
Definition assign_bvPre (i : nat) (v : bool) : M real unit :=
  fun w => Ok tt (on_sinfo (fun s => set_booleanVarsPre (upd (booleanVarsPre s) i v) s) w).
Definition assign_rp (i : nat) (v : real) : M real unit :=
  fun w => Ok tt (on_sinfo (fun s => set_realParameter (upd (realParameter s) i v) s) w).
Definition assign_ip (i : nat) (v : Z) : M real unit :=
  fun w => Ok tt (on_sinfo (fun s => set_integerParameter (upd (integerParameter s) i v) s) w).
Definition assign_bp (i : nat) (v : bool) : M real unit :=
  fun w => Ok tt (on_sinfo (fun s => set_booleanParameter (upd (booleanParameter s) i v) s) w).
Definition assign_relation (i : nat) (v : bool) : M real unit :=
  fun w => Ok tt (on_sinfo (fun s => set_relations (upd (relations s) i v) s) w).
Definition assign_extObj (i : nat) (v : Z) : M real unit :=
  fun w => Ok tt (on_sinfo (fun s => set_extObjs (upd (extObjs s) i v) s) w).
Definition assign_needToReThrow (v : bool) : M real unit :=
  fun w => Ok tt (on_sinfo (set_needToReThrow v) w).
Definition assign_needToIterate (v : bool) : M real unit :=
  fun w => Ok tt (on_sinfo (set_needToIterate v) w).
Definition assign_discreteCall (v : bool) : M real unit :=
  fun w => Ok tt (on_sinfo (set_discreteCall v) w).
Definition assign_lastEquationSolved (v : Z) : M real unit :=
  fun w => Ok tt (set_threadData {| lastEquationSolved := v |} w).
Definition assign_tmpVars (i : nat) (v : real) : M real unit :=
  fun w => Ok tt (on_jacobian (fun j => set_tmpVars (upd (tmpVars j) i v) j) w).
Definition assign_resultVars (i : nat) (v : real) : M real unit :=
  fun w => Ok tt (on_jacobian (fun j => set_resultVars (upd (resultVars j) i v) j) w).
Definition assign_warned (i : nat) (v : bool) : M real unit :=
  fun w => Ok tt (set_warned (upd (warned w) i v) w).
Definition on_modelData (f : MODEL_DATA -> MODEL_DATA) w : World real :=
  set_data (set_modelData (f (modelData (data w))) (data w)) w.
Definition mark_realVar_time_unvarying (i : nat) : M real unit :=
  fun w => Ok tt (on_modelData (fun m =>
    set_realVarsData_time_unvarying (upd (realVarsData_time_unvarying m) i true) m) w).
Definition mark_realParameter_time_unvarying (i : nat) : M real unit :=
  fun w => Ok tt (on_modelData (fun m =>
    set_realParameterData_time_unvarying (upd (realParameterData_time_unvarying m) i true) m) w).
Definition mark_integerParameter_time_unvarying (i : nat) : M real unit :=
  fun w => Ok tt (on_modelData (fun m =>
    set_integerParameterData_time_unvarying (upd (integerParameterData_time_unvarying m) i true) m) w).
Definition mark_booleanParameter_time_unvarying (i : nat) : M real unit :=
  fun w => Ok tt (on_modelData (fun m =>
    set_booleanParameterData_time_unvarying (upd (booleanParameterData_time_unvarying m) i true) m) w).

(** A call of the logging interface. *)
Definition emit (e : LogEvent real) : M real unit :=
  fun w => Ok tt (set_log (log w ++ [e]) w).

(** [ACTIVE_STREAM(stream)]. *)
Definition ACTIVE_STREAM w (s : LOG_STREAM) : bool := useStream w s.

End Store.

(** ** The runtime the callbacks are linked against

    The generated code calls into the simulation runtime and the external
    table library; neither is part of the repository.  Their functions are
    the fields of [Runtime], typed by what each one is handed and what it
    hands back; the callbacks are embedded for every runtime. *)

Inductive ext_result (A : Type) : Type :=
| ExtRet (a : A)
| ExtThrow (what : string).
Arguments ExtRet {A} a.
Arguments ExtThrow {A} what.

(** The operator pairs passed to [relationhysteresis]:
    [(GreaterEq, GreaterEqZC)] and [(LessEq, LessEqZC)]. *)
Inductive relop : Type := RelGreaterEq | RelLessEq.

Class Runtime (real : Type) {AR : Arith real} : Type := {
  (* the zero-divisor handler behind DIVISION(a, b, msg) *)
  division_error : real -> real -> string -> ext_result real;
  (* the zero-divisor handler behind DIVISION_SIM(a, b, msg, equation):
     noThrowDivZero, initial(), timeValue, a, b, msg, equation indexes *)
  division_error_sim :
    bool -> bool -> real -> real -> real -> string -> list Z -> ext_result real;
  (* comparisons with hysteresis, the third argument is the stored direction *)
  GreaterEqZC : real -> real -> bool -> bool;
  LessEqZC : real -> real -> bool -> bool;
  (* relationhysteresis, from the mode flags (initial, discreteCall,
     solveContinuous), relationsPre, storedRelations, both expressions, the
     relation index and the operators: the result, and what it stores in
     relations[index] when it stores *)
  relationhysteresis_rt :
    bool -> bool -> bool -> array bool -> array bool ->
    real -> real -> nat -> relop -> bool * option bool;
  (* the numerical strategy of solve_linear_system, from the system number,
     the residual as a function of the trial value, the Jacobian entry and
     the start value: return code, solution and the trial values it
     evaluated the residual callback at, in order *)
  linear_solver :
    nat -> (real -> option real) -> option real -> real -> Z * real * list real;
  (* the external table library *)
  omc_Modelica_Blocks_Tables_Internal_getNextTimeEvent :
    Z -> real -> ext_result real;
  omc_Modelica_Blocks_Tables_Internal_getTimeTableValueNoDer :
    Z -> Z -> real -> real -> real -> ext_result real;
  omc_Modelica_Blocks_Tables_Internal_getTimeTableTmax : Z -> ext_result real;
  omc_Modelica_Blocks_Tables_Internal_getTimeTableTmin : Z -> ext_result real;
  omc_Modelica_Blocks_Types_ExternalCombiTimeTable_constructor :
    string -> string -> list real -> real -> list Z -> Z -> Z -> real -> Z -> bool ->
    ext_result Z;
  (* String(x, format) *)
  modelica_real_to_modelica_string_format : real -> string -> string;
  modelica_integer_to_modelica_string_format : Z -> string -> string
}.

Section Callbacks.
Context {real : Type} {AR : Arith real} {RT : Runtime real}.
Implicit Types w : World real.
Local Open Scope real_scope.


(** An external call made from a callback: its value, or its error thrown
    through the callback. *)
Definition call {A} (r : ext_result A) : M real A :=
  fun w => match r with
           | ExtRet a => Ok a w
           | ExtThrow what => Throw (runtime_error what) w
           end.

(** [initial()]. *)
Definition initial w : bool := initial_ (sinfo w).

(** [DIVISION(a, b, msg)]: the quotient, unless the divisor is zero. *)
Definition DIVISION (a b : real) (msg : string) : M real real :=
  if reqb b (rlit Lit_0) then call (division_error a b msg) else ret (a / b).

(** [DIVISION_SIM(a, b, msg, equationIndexes)]. *)
Definition DIVISION_SIM (a b : real) (msg : string) (equationIndexes : list Z) : M real real :=
  fun w =>
    if reqb b (rlit Lit_0)
    then call (division_error_sim (noThrowDivZero (sinfo w)) (initial w) (time w)
                 a b msg equationIndexes) w
    else Ok (a / b) w.

(** [relationhysteresis(data, &res, exp1, exp2, index, op, opZC)]. *)
Definition relationhysteresis (exp1 exp2 : real) (index : nat) (op : relop) : M real bool :=
  fun w =>
    let s := sinfo w in
    let '(res, stored) :=
      relationhysteresis_rt (initial_ s) (discreteCall s) (solveContinuous s)
        (relationsPre s) (storedRelations s) exp1 exp2 index op in
    match stored with
    | Some b => (assign_relation index b ;; ret res) w
    | None => Ok res w
    end.

(** *** Linear systems ([oc_latch_03lsy.c]) *)

(* equation index: 115, R1.v = R1.R_actual * R2.i *)
Definition oc_latch_eqFunction_115 : M real unit :=
  fun w => assign_rv 2 (rv w 1 * rv w 5) w.

(* equation index: 116, R2.v = R2.R_actual * R2.i *)
Definition oc_latch_eqFunction_116 : M real unit :=
  fun w => assign_rv 6 (rv w 4 * rv w 5) w.

Definition residualFunc121 (xloc res : array real) : M real (array real) :=
  assign_rv 5 (xloc 0%nat) ;;
  oc_latch_eqFunction_115 ;;
  oc_latch_eqFunction_116 ;;
  fun w => Ok (upd res 0 (rp w 29 + (- rv w 6) - rv w 2)) w.

(* equation index: 92, resistor3.i = resistor2.v / resistor2.R_actual *)
Definition oc_latch_eqFunction_92 : M real unit :=
  fun w => (q <- DIVISION_SIM (rv w 49) (rv w 48) "resistor2.R_actual" [1; 92]%Z ;;
            assign_rv 52 q) w.

(* equation index: 93, resistor3.v = resistor3.R_actual * resistor3.i *)
Definition oc_latch_eqFunction_93 : M real unit :=
  fun w => assign_rv 53 (rv w 51 * rv w 52) w.

Definition residualFunc98 (xloc res : array real) : M real (array real) :=
  assign_rv 49 (xloc 0%nat) ;;
  oc_latch_eqFunction_92 ;;
  oc_latch_eqFunction_93 ;;
  fun w => Ok (upd res 0 (rp w 29 + (- rv w 53) - rv w 49)) w.

(* equation index: 27, resistor3.i = resistor3.v / resistor3.R_actual *)
Definition oc_latch_eqFunction_27 : M real unit :=
  fun w => (q <- DIVISION_SIM (rv w 53) (rv w 51) "resistor3.R_actual" [1; 27]%Z ;;
            assign_rv 52 q) w.

(* equation index: 28, resistor2.v = resistor2.R_actual * resistor3.i *)
Definition oc_latch_eqFunction_28 : M real unit :=
  fun w => assign_rv 49 (rv w 48 * rv w 52) w.

Definition residualFunc33 (xloc res : array real) : M real (array real) :=
  assign_rv 53 (xloc 0%nat) ;;
  oc_latch_eqFunction_27 ;;
  oc_latch_eqFunction_28 ;;
  fun w => Ok (upd res 0 (rp w 29 + (- rv w 53) - rv w 49)) w.

(* equation index: 17, R2.i = R2.v / R2.R_actual *)
Definition oc_latch_eqFunction_17 : M real unit :=
  fun w => (q <- DIVISION_SIM (rv w 6) (rv w 4) "R2.R_actual" [1; 17]%Z ;;
            assign_rv 5 q) w.

(* equation index: 18, R1.v = R1.R_actual * R2.i *)
Definition oc_latch_eqFunction_18 : M real unit :=
  fun w => assign_rv 2 (rv w 1 * rv w 5) w.

Definition residualFunc23 (xloc res : array real) : M real (array real) :=
  assign_rv 6 (xloc 0%nat) ;;
  oc_latch_eqFunction_17 ;;
  oc_latch_eqFunction_18 ;;
  fun w => Ok (upd res 0 (rp w 29 + (- rv w 6) - rv w 2)) w.

(** *** Jacobian columns ([oc_latch_12jac.c])

    [jacobian] is the [jacobian] field of the world; [parentJacobian] is
    never used. *)

Definition seed w (i : nat) : real := seedVars (jacobian w) i.
Definition tmp w (i : nat) : real := tmpVars (jacobian w) i.

(* equation index: 20 *)
Definition oc_latch_eqFunction_20 : M real unit :=
  fun w => (q <- DIVISION (seed w 0) (rv w 4) "R2.R_actual" ;; assign_tmpVars 0 q) w.
(* equation index: 21 *)
Definition oc_latch_eqFunction_21 : M real unit :=
  fun w => assign_tmpVars 1 (rv w 1 * tmp w 0) w.
(* equation index: 22 *)
Definition oc_latch_eqFunction_22 : M real unit :=
  fun w => assign_resultVars 0 ((- seed w 0) - tmp w 1) w.

Definition oc_latch_functionJacLSJac0_column : M real Z :=
  oc_latch_eqFunction_20 ;; oc_latch_eqFunction_21 ;; oc_latch_eqFunction_22 ;; ret 0%Z.

(* equation index: 30 *)
Definition oc_latch_eqFunction_30 : M real unit :=
  fun w => (q <- DIVISION (seed w 0) (rv w 51) "resistor3.R_actual" ;; assign_tmpVars 0 q) w.
(* equation index: 31 *)
Definition oc_latch_eqFunction_31 : M real unit :=
  fun w => assign_tmpVars 1 (rv w 48 * tmp w 0) w.
(* equation index: 32 *)
Definition oc_latch_eqFunction_32 : M real unit :=
  fun w => assign_resultVars 0 ((- seed w 0) - tmp w 1) w.

Definition oc_latch_functionJacLSJac1_column : M real Z :=
  oc_latch_eqFunction_30 ;; oc_latch_eqFunction_31 ;; oc_latch_eqFunction_32 ;; ret 0%Z.

(* equation index: 95 *)
Definition oc_latch_eqFunction_95 : M real unit :=
  fun w => (q <- DIVISION (seed w 0) (rv w 48) "resistor2.R_actual" ;; assign_tmpVars 0 q) w.
(* equation index: 96 *)
Definition oc_latch_eqFunction_96 : M real unit :=
  fun w => assign_tmpVars 1 (rv w 51 * tmp w 0) w.
(* equation index: 97 *)
Definition oc_latch_eqFunction_97 : M real unit :=
  fun w => assign_resultVars 0 ((- tmp w 1) - seed w 0) w.

Definition oc_latch_functionJacLSJac2_column : M real Z :=
  oc_latch_eqFunction_95 ;; oc_latch_eqFunction_96 ;; oc_latch_eqFunction_97 ;; ret 0%Z.

(* equation index: 118 *)
Definition oc_latch_eqFunction_118 : M real unit :=
  fun w => assign_tmpVars 0 (rv w 1 * seed w 0) w.
(* equation index: 119 *)
Definition oc_latch_eqFunction_119 : M real unit :=
  fun w => assign_tmpVars 1 (rv w 4 * seed w 0) w.
(* equation index: 120 *)
Definition oc_latch_eqFunction_120 : M real unit :=
  fun w => assign_resultVars 0 ((- tmp w 1) - tmp w 0) w.

Definition oc_latch_functionJacLSJac3_column : M real Z :=
  oc_latch_eqFunction_118 ;; oc_latch_eqFunction_119 ;; oc_latch_eqFunction_120 ;; ret 0%Z.

(** [oc_latch_initialLinearSystem]: the callbacks it registers for the
    linear system [i] ([linearSystemData[i]]). *)
Record LINEAR_SYSTEM_DATA : Type := {
  equationIndex : Z;
  size : Z;
  nnz : Z;
  method : Z;
  residualFunc : array real -> array real -> M real (array real);
  analyticalJacobianColumn : M real Z;
  jacobianIndex : Z
}.

Definition oc_latch_initialLinearSystem (i : nat) : LINEAR_SYSTEM_DATA :=
  match i with
  | 3%nat => {| equationIndex := 121; size := 1; nnz := 0; method := 1;
                residualFunc := residualFunc121;
                analyticalJacobianColumn := oc_latch_functionJacLSJac3_column;
                jacobianIndex := 3 |}
  | 2%nat => {| equationIndex := 98; size := 1; nnz := 0; method := 1;
                residualFunc := residualFunc98;
                analyticalJacobianColumn := oc_latch_functionJacLSJac2_column;
                jacobianIndex := 2 |}
  | 1%nat => {| equationIndex := 33; size := 1; nnz := 0; method := 1;
                residualFunc := residualFunc33;
                analyticalJacobianColumn := oc_latch_functionJacLSJac1_column;
                jacobianIndex := 1 |}
  | _ => {| equationIndex := 23; size := 1; nnz := 0; method := 1;
            residualFunc := residualFunc23;
            analyticalJacobianColumn := oc_latch_functionJacLSJac0_column;
            jacobianIndex := 0 |}
  end.

(** *** The solver adapter *)

(** The residual of a system at a trial value, seen from world [w]. *)
Definition residual_at (f : array real -> array real -> M real (array real))
    w (x : real) : option real :=
  match f (fun _ => x) (fun _ => rlit Lit_0) w with
  | Ok res _ => Some (res 0%nat)
  | Throw _ _ => None
  end.

(** The Jacobian entry of a system: its column for the unit seed. *)
Definition unit_seed (j : ANALYTIC_JACOBIAN real) : ANALYTIC_JACOBIAN real :=
  {| seedVars := upd (seedVars j) 0 (rlit Lit_1);
     tmpVars := tmpVars j;
     resultVars := resultVars j |}.

Definition jacobian_entry (column : M real Z) w : option real :=
  match column (on_jacobian unit_seed w) with
  | Ok _ w' => Some (resultVars (jacobian w') 0%nat)
  | Throw _ _ => None
  end.

Fixpoint evaluate_trials (f : array real -> array real -> M real (array real))
    (trials : list real) : M real unit :=
  match trials with
  | [] => ret tt
  | x :: rest => f (fun _ => x) (fun _ => rlit Lit_0) ;; evaluate_trials f rest
  end.

(** Modelled from the spec: [solve_linear_system] belongs to the external
    solver library, which is not in the repository.  It is "given
    dimension, residual callback, and optional analytic Jacobian callback"
    and "returns solution vector or a failure code" (spec 4.2, 6): it
    reaches the variable store only by calling the residual callback
    registered for the system, once per trial value, and its numbers come
    from the runtime's [linear_solver]. *)
Definition solve_linear_system (sysNumber : nat) (aux_x : real) : M real (Z * real) :=
  fun w =>
    let ls := oc_latch_initialLinearSystem sysNumber in
    let '(retValue, x, trials) :=
      linear_solver sysNumber (residual_at (residualFunc ls) w)
        (jacobian_entry (analyticalJacobianColumn ls) w) aux_x in
    (evaluate_trials (residualFunc ls) trials ;; ret (retValue, x)) w.

(** The body shared by the four [type: LINEAR] equations: [var] is the
    torn unknown, [sysNumber] the system handed to the solver. *)
Definition solving_format (equation : string) : string :=
  "Solving linear system " ++ equation ++
  " (STRICT TEARING SET if tearing enabled) at time = %18.10e".
Definition failed_format (equation : string) : string :=
  "Solving linear system " ++ equation ++
  " failed at time=%.15g.\nFor more information please use -lv LOG_LS.".

Definition linear_equation (index : Z) (equation : string) (sysNumber var : nat) : M real unit :=
  fun w =>
    let aux_x := rv_old w var in
    ((fun w => if ACTIVE_STREAM w LOG_DT
               then (emit (infoStreamPrint LOG_DT 1 (solving_format equation)
                             [ArgReal (time w)]) ;;
                     emit (messageClose LOG_DT)) w
               else Ok tt w) ;;
     r <- solve_linear_system sysNumber aux_x ;;
     let '(retValue, aux_x) := r in
     (fun w => if (retValue >? 0)%Z
               then Throw (throwStreamPrintWithEquationIndexes [1; index]%Z
                             (failed_format equation) [ArgReal (time w)]) w
               else Ok tt w) ;;
     assign_rv var aux_x) w.

(* equation index: 23, type: LINEAR, <var>R2.v</var> ([oc_latch_06inz.c]) *)
Definition oc_latch_eqFunction_23 : M real unit := linear_equation 23 "23" 0 6.
(* equation index: 33, type: LINEAR, <var>resistor3.v</var> ([oc_latch_06inz.c]) *)
Definition oc_latch_eqFunction_33 : M real unit := linear_equation 33 "33" 1 53.
(* equation index: 98, type: LINEAR, <var>resistor2.v</var> *)
Definition oc_latch_eqFunction_98 : M real unit := linear_equation 98 "98" 2 49.
(* equation index: 121, type: LINEAR, <var>R2.i</var> *)
Definition oc_latch_eqFunction_121 : M real unit := linear_equation 121 "121" 3 5.

(** *** The equations of [oc_latch.c] *)

(* equation index: 89, $whenCondition1 = time >= pre(combiTimeTable.nextTimeEvent) *)
Definition oc_latch_eqFunction_89 : M real unit :=
  fun w => (tmp0 <- relationhysteresis (time w) (rvPre w 56) 6 RelGreaterEq ;;
            assign_bv 0 tmp0) w.

(* equation index: 90, reset = time >= 0.95 and time <= 0.96 *)
Definition oc_latch_eqFunction_90 : M real unit :=
  fun w => (tmp1 <- relationhysteresis (time w) (rlit Lit_0_95) 4 RelGreaterEq ;;
            tmp2 <- relationhysteresis (time w) (rlit Lit_0_96) 5 RelLessEq ;;
            assign_bv 11 (tmp1 && tmp2)) w.

(* equation index: 91, enable = time <= 0.1 or time >= 0.9 *)
Definition oc_latch_eqFunction_91 : M real unit :=
  fun w => (tmp3 <- relationhysteresis (time w) (rlit Lit_0_1) 2 RelLessEq ;;
            tmp4 <- relationhysteresis (time w) (rlit Lit_0_9) 3 RelGreaterEq ;;
            assign_bv 2 (tmp3 || tmp4)) w.

(* equation index: 99, resistor2.LossPower = resistor2.v * resistor3.i *)
Definition oc_latch_eqFunction_99 : M real unit :=
  fun w => assign_rv 47 (rv w 49 * rv w 52) w.

(* equation index: 100, resistor3.LossPower = resistor3.v * resistor3.i *)
Definition oc_latch_eqFunction_100 : M real unit :=
  fun w => assign_rv 50 (rv w 53 * rv w 52) w.

(* equation index: 101, pre11.y = pre(pre11.u) *)
Definition oc_latch_eqFunction_101 : M real unit :=
  fun w => assign_bv 10 (bvPre w 9) w.

(* equation index: 102, nor1.u1 = pre(pre1.u) *)
Definition oc_latch_eqFunction_102 : M real unit :=
  fun w => assign_bv 5 (bvPre w 8) w.

(* equation index: 103, SW = not (nor1.u1 or pre11.y) *)
Definition oc_latch_eqFunction_103 : M real unit :=
  fun w => assign_bv 1 (negb (bv w 5 || bv w 10)) w.

(* equation index: 104, pre1.u = not (SW or enable) *)
Definition oc_latch_eqFunction_104 : M real unit :=
  fun w => assign_bv 8 (negb (bv w 1 || bv w 2)) w.

(* equation index: 105, combiTimeTable.timeScaled = time *)
Definition oc_latch_eqFunction_105 : M real unit :=
  fun w => assign_rv 9 (time w) w.

(** The edge test of a when-clause on [$whenCondition1]. *)
Definition whenCondition1_edge w : bool := bv w 0 && negb (bvPre w 0).

(* equation index: 106, type: WHEN
   when {$whenCondition1} then
     combiTimeTable.nextTimeEventScaled = getNextTimeEvent(combiTimeTable.tableID, combiTimeTable.timeScaled);
   end when; *)
Definition oc_latch_eqFunction_106 : M real unit :=
  fun w =>
    if bv w 0 && negb (bvPre w 0)
    then (v <- call (omc_Modelica_Blocks_Tables_Internal_getNextTimeEvent
                       (extObjs (sinfo w) 0%nat) (rv w 9)) ;;
          assign_rv 57 v) w
    else Ok tt w.

(* equation index: 107, combiTimeTable.y[1] = getTimeTableValueNoDer(...) *)
Definition oc_latch_eqFunction_107 : M real unit :=
  fun w => (v <- call (omc_Modelica_Blocks_Tables_Internal_getTimeTableValueNoDer
                         (extObjs (sinfo w) 0%nat) 1 (rv w 9) (rv w 57) (rvPre w 57)) ;;
            assign_rv 10 v) w.

(* equation index: 108, type: WHEN
   when {$whenCondition1} then
     combiTimeTable.nextTimeEvent = if combiTimeTable.nextTimeEventScaled < 9.999999999999999e+59
       then combiTimeTable.nextTimeEventScaled else 9.999999999999999e+59;
   end when; *)
Definition oc_latch_eqFunction_108 : M real unit :=
  fun w =>
    if bv w 0 && negb (bvPre w 0)
    then let tmp5 := Less (rv w 57) (rlit Lit_1e60) in
         assign_rv 56 (if tmp5 then rv w 57 else rlit Lit_1e60) w
    else Ok tt w.

(* equation index: 109, opAmp1.vin = combiTimeTable.y[1] - resistor3.v *)
Definition oc_latch_eqFunction_109 : M real unit :=
  fun w => assign_rv 34 (rv w 10 - rv w 53) w.

(* equation index: 110, potentialSensor1.phi = 0.5 * constantVoltage.V + opAmp1.absSlope * opAmp1.vin
     / (1.0 + opAmp1.absSlope * smooth(0, if opAmp1.f * opAmp1.vin < 0.0 then (-opAmp1.f) * opAmp1.vin else opAmp1.f * opAmp1.vin)) *)
Definition oc_latch_eqFunction_110 : M real unit :=
  fun w =>
    let tmp6 := Less (rv w 31 * rv w 34) (rlit Lit_0) in
    (q <- DIVISION_SIM (rv w 34)
           (rlit Lit_1 + rv w 30 * (if tmp6 then (- rv w 31) * rv w 34 else rv w 31 * rv w 34))
           "1.0 + opAmp1.absSlope * smooth(0, if opAmp1.f * opAmp1.vin < 0.0 then (-opAmp1.f) * opAmp1.vin else opAmp1.f * opAmp1.vin)"
           [1; 110]%Z ;;
     assign_rv 38 (rlit Lit_0_5 * rp w 29 + rv w 30 * q)) w.

(* equation index: 111, resistor1.v = constantVoltage.V - potentialSensor1.phi *)
Definition oc_latch_eqFunction_111 : M real unit :=
  fun w => assign_rv 46 (rp w 29 - rv w 38) w.

(* equation index: 112, resistor1.i = resistor1.v / resistor1.R_actual *)
Definition oc_latch_eqFunction_112 : M real unit :=
  fun w => (q <- DIVISION_SIM (rv w 46) (rv w 44) "resistor1.R_actual" [1; 112]%Z ;;
            assign_rv 45 q) w.

(* equation index: 113, resistor1.LossPower = resistor1.v * resistor1.i *)
Definition oc_latch_eqFunction_113 : M real unit :=
  fun w => assign_rv 43 (rv w 46 * rv w 45) w.

(* equation index: 114, greaterEqualThreshold1.y = potentialSensor1.phi >= greaterEqualThreshold1.threshold *)
Definition oc_latch_eqFunction_114 : M real unit :=
  fun w => (tmp7 <- relationhysteresis (rv w 38) (rp w 33) 1 RelGreaterEq ;;
            assign_bv 3 tmp7) w.

(* equation index: 122, R1.LossPower = R1.v * R2.i *)
Definition oc_latch_eqFunction_122 : M real unit :=
  fun w => assign_rv 0 (rv w 2 * rv w 5) w.

(* equation index: 123, opAmp.vin = R2.v - combiTimeTable.y[1] *)
Definition oc_latch_eqFunction_123 : M real unit :=
  fun w => assign_rv 27 (rv w 6 - rv w 10) w.

(* equation index: 124, potentialSensor.phi = 0.5 * constantVoltage.V + opAmp.absSlope * opAmp.vin
     / (1.0 + opAmp.absSlope * smooth(0, if opAmp.f * opAmp.vin < 0.0 then (-opAmp.f) * opAmp.vin else opAmp.f * opAmp.vin)) *)
Definition oc_latch_eqFunction_124 : M real unit :=
  fun w =>
    let tmp8 := Less (rv w 24 * rv w 27) (rlit Lit_0) in
    (q <- DIVISION_SIM (rv w 27)
           (rlit Lit_1 + rv w 23 * (if tmp8 then (- rv w 24) * rv w 27 else rv w 24 * rv w 27))
           "1.0 + opAmp.absSlope * smooth(0, if opAmp.f * opAmp.vin < 0.0 then (-opAmp.f) * opAmp.vin else opAmp.f * opAmp.vin)"
           [1; 124]%Z ;;
     assign_rv 36 (rlit Lit_0_5 * rp w 29 + rv w 23 * q)) w.

(* equation index: 125, resistor.v = constantVoltage.V - potentialSensor.phi *)
Definition oc_latch_eqFunction_125 : M real unit :=
  fun w => assign_rv 42 (rp w 29 - rv w 36) w.

(* equation index: 126, resistor.i = resistor.v / resistor.R_actual *)
Definition oc_latch_eqFunction_126 : M real unit :=
  fun w => (q <- DIVISION_SIM (rv w 42) (rv w 40) "resistor.R_actual" [1; 126]%Z ;;
            assign_rv 41 q) w.

(* equation index: 127, resistor.LossPower = resistor.v * resistor.i *)
Definition oc_latch_eqFunction_127 : M real unit :=
  fun w => assign_rv 39 (rv w 42 * rv w 41) w.

(* equation index: 128, nand.u1 = potentialSensor.phi >= greaterEqualThreshold.threshold *)
Definition oc_latch_eqFunction_128 : M real unit :=
  fun w => (tmp9 <- relationhysteresis (rv w 36) (rp w 32) 0 RelGreaterEq ;;
            assign_bv 4 tmp9) w.

(* equation index: 129, nor3.u2 = not (nand.u1 and greaterEqualThreshold1.y) *)
Definition oc_latch_eqFunction_129 : M real unit :=
  fun w => assign_bv 6 (negb (bv w 4 && bv w 3)) w.

(* equation index: 130, nor3.y = not (pre11.y or nor3.u2) *)
Definition oc_latch_eqFunction_130 : M real unit :=
  fun w => assign_bv 7 (negb (bv w 10 || bv w 6)) w.

(* equation index: 131, pre11.u = not (nor3.y or reset) *)
Definition oc_latch_eqFunction_131 : M real unit :=
  fun w => assign_bv 9 (negb (bv w 7 || bv w 11)) w.

(* equation index: 132, R2.LossPower = R2.v * R2.i *)
Definition oc_latch_eqFunction_132 : M real unit :=
  fun w => assign_rv 3 (rv w 6 * rv w 5) w.

(* equation index: 133, constantVoltage.i = (-resistor3.i) - resistor1.i - resistor.i - R2.i *)
Definition oc_latch_eqFunction_133 : M real unit :=
  fun w => assign_rv 11 ((- rv w 52) - rv w 45 - rv w 41 - rv w 5) w.

(** *** Assertions

    The code generator emits one of two bodies for an [assert].  Both
    evaluate the condition and, when it fails, report it: through the info
    stream when [noThrowAsserts] is set, through the assertion interface
    otherwise. *)

(** [GreaterEq] and [LessEq] on [modelica_integer]. *)
Definition GreaterEqZ (a b : Z) : bool := (b <=? a)%Z.
Definition LessEqZ (a b : Z) : bool := (a <=? b)%Z.

Definition violated_format (condition : string) : string :=
  "The following assertion has been violated %sat time %f\n" ++ condition.

Definition violated_args w : list (fmt_arg real) :=
  [ArgString (if initial w then "during initialization " else EmptyString);
   ArgReal (time w)].

(** An assertion of level error: nothing latches it; a failure is thrown by
    [omc_assert_withEquationIndexes], or logged and marked in
    [needToReThrow] when [noThrowAsserts] is set. *)
Definition assert_error (equationIndexes : list Z) (condition : bool)
    (text message : string) (info : FILE_INFO) : M real unit :=
  fun w =>
    if negb condition
    then
      if noThrowAsserts (sinfo w)
      then (emit (infoStreamPrintWithEquationIndexes LOG_ASSERT 0 equationIndexes
                    (violated_format text) (violated_args w)) ;;
            emit (infoStreamPrint LOG_ASSERT 0 "%s" [ArgString message]) ;;
            assign_needToReThrow true) w
      else (emit (omc_assert_warning info (violated_format text) (violated_args w)) ;;
            throw (omc_assert_withEquationIndexes info equationIndexes message [])) w
    else Ok tt w.

(** An assertion of level warning: guarded by its [static int] latch
    [warned w latch], which the first failure sets; a failure is reported
    through the info stream or through [omc_assert_warning] and
    [omc_assert_warning_withEquationIndexes], none of which throws. *)
Definition assert_warning (latch : nat) (equationIndexes : list Z) (condition : bool)
    (text message : string) (info : FILE_INFO) : M real unit :=
  fun w =>
    if negb (warned w latch)
    then
      if negb condition
      then ((fun w =>
               if noThrowAsserts (sinfo w)
               then (emit (infoStreamPrintWithEquationIndexes LOG_ASSERT 0 equationIndexes
                             (violated_format text) (violated_args w)) ;;
                     emit (infoStreamPrint LOG_ASSERT 0 "%s" [ArgString message])) w
               else (emit (omc_assert_warning info (violated_format text) (violated_args w)) ;;
                     emit (omc_assert_warning_withEquationIndexes info equationIndexes
                             message [])) w) ;;
            assign_warned latch true) w
      else Ok tt w
    else Ok tt w.

(** The algorithm-block assertions of [oc_latch.c]. *)

(* equation index: 139 (static int tmp12 is declared and never used)
   assert(1.0 + resistor3.alpha * (resistor3.T - resistor3.T_ref) >= 1e-15, "Temperature outside scope of model!"); *)
Definition oc_latch_eqFunction_139 : M real unit :=
  fun w =>
    assert_error [1; 139]%Z
      (GreaterEq (rlit Lit_1 + rp w 60 * (rp w 57 - rp w 59)) (rlit Lit_1em15))
      "1.0 + resistor3.alpha * (resistor3.T - resistor3.T_ref) >= 1e-15"
      "Temperature outside scope of model!"
      {| filename := "C:/OpenModelica/lib/omlibrary/Modelica 4.0.0/Electrical/Analog/Basic/Resistor.mo";
         lineStart := 15; colStart := 3;
         lineEnd := 16; colEnd := 43; readonly := 0 |} w.

(* equation index: 138 (static int tmp15 is declared and never used)
   assert(1.0 + resistor2.alpha * (resistor2.T - resistor2.T_ref) >= 1e-15, "Temperature outside scope of model!"); *)
Definition oc_latch_eqFunction_138 : M real unit :=
  fun w =>
    assert_error [1; 138]%Z
      (GreaterEq (rlit Lit_1 + rp w 54 * (rp w 51 - rp w 53)) (rlit Lit_1em15))
      "1.0 + resistor2.alpha * (resistor2.T - resistor2.T_ref) >= 1e-15"
      "Temperature outside scope of model!"
      {| filename := "C:/OpenModelica/lib/omlibrary/Modelica 4.0.0/Electrical/Analog/Basic/Resistor.mo";
         lineStart := 15; colStart := 3;
         lineEnd := 16; colEnd := 43; readonly := 0 |} w.

(* equation index: 137 (static int tmp18 is declared and never used)
   assert(1.0 + resistor1.alpha * (resistor1.T - resistor1.T_ref) >= 1e-15, "Temperature outside scope of model!"); *)
Definition oc_latch_eqFunction_137 : M real unit :=
  fun w =>
    assert_error [1; 137]%Z
      (GreaterEq (rlit Lit_1 + rp w 48 * (rp w 45 - rp w 47)) (rlit Lit_1em15))
      "1.0 + resistor1.alpha * (resistor1.T - resistor1.T_ref) >= 1e-15"
      "Temperature outside scope of model!"
      {| filename := "C:/OpenModelica/lib/omlibrary/Modelica 4.0.0/Electrical/Analog/Basic/Resistor.mo";
         lineStart := 15; colStart := 3;
         lineEnd := 16; colEnd := 43; readonly := 0 |} w.

(* equation index: 136 (static int tmp21 is declared and never used)
   assert(1.0 + resistor.alpha * (resistor.T - resistor.T_ref) >= 1e-15, "Temperature outside scope of model!"); *)
Definition oc_latch_eqFunction_136 : M real unit :=
  fun w =>
    assert_error [1; 136]%Z
      (GreaterEq (rlit Lit_1 + rp w 42 * (rp w 39 - rp w 41)) (rlit Lit_1em15))
      "1.0 + resistor.alpha * (resistor.T - resistor.T_ref) >= 1e-15"
      "Temperature outside scope of model!"
      {| filename := "C:/OpenModelica/lib/omlibrary/Modelica 4.0.0/Electrical/Analog/Basic/Resistor.mo";
         lineStart := 15; colStart := 3;
         lineEnd := 16; colEnd := 43; readonly := 0 |} w.

(* equation index: 135 (static int tmp24 is declared and never used)
   assert(1.0 + R2.alpha * (R2.T - R2.T_ref) >= 1e-15, "Temperature outside scope of model!"); *)
Definition oc_latch_eqFunction_135 : M real unit :=
  fun w =>
    assert_error [1; 135]%Z
      (GreaterEq (rlit Lit_1 + rp w 10 * (rp w 7 - rp w 9)) (rlit Lit_1em15))
      "1.0 + R2.alpha * (R2.T - R2.T_ref) >= 1e-15"
      "Temperature outside scope of model!"
      {| filename := "C:/OpenModelica/lib/omlibrary/Modelica 4.0.0/Electrical/Analog/Basic/Resistor.mo";
         lineStart := 15; colStart := 3;
         lineEnd := 16; colEnd := 43; readonly := 0 |} w.

(* equation index: 134 (static int tmp27 is declared and never used)
   assert(1.0 + R1.alpha * (R1.T - R1.T_ref) >= 1e-15, "Temperature outside scope of model!"); *)
Definition oc_latch_eqFunction_134 : M real unit :=
  fun w =>
    assert_error [1; 134]%Z
      (GreaterEq (rlit Lit_1 + rp w 4 * (rp w 1 - rp w 3)) (rlit Lit_1em15))
      "1.0 + R1.alpha * (R1.T - R1.T_ref) >= 1e-15"
      "Temperature outside scope of model!"
      {| filename := "C:/OpenModelica/lib/omlibrary/Modelica 4.0.0/Electrical/Analog/Basic/Resistor.mo";
         lineStart := 15; colStart := 3;
         lineEnd := 16; colEnd := 43; readonly := 0 |} w.


(** The same assertions as initial equations ([oc_latch_06inz.c]). *)

(* equation index: 88 (static int tmp6 is declared and never used)
   assert(1.0 + resistor3.alpha * (resistor3.T - resistor3.T_ref) >= 1e-15, "Temperature outside scope of model!"); *)
Definition oc_latch_eqFunction_88 : M real unit :=
  fun w =>
    assert_error [1; 88]%Z
      (GreaterEq (rlit Lit_1 + rp w 60 * (rp w 57 - rp w 59)) (rlit Lit_1em15))
      "1.0 + resistor3.alpha * (resistor3.T - resistor3.T_ref) >= 1e-15"
      "Temperature outside scope of model!"
      {| filename := "C:/OpenModelica/lib/omlibrary/Modelica 4.0.0/Electrical/Analog/Basic/Resistor.mo";
         lineStart := 15; colStart := 3;
         lineEnd := 16; colEnd := 43; readonly := 0 |} w.

(* equation index: 87 (static int tmp9 is declared and never used)
   assert(1.0 + resistor2.alpha * (resistor2.T - resistor2.T_ref) >= 1e-15, "Temperature outside scope of model!"); *)
Definition oc_latch_eqFunction_87 : M real unit :=
  fun w =>
    assert_error [1; 87]%Z
      (GreaterEq (rlit Lit_1 + rp w 54 * (rp w 51 - rp w 53)) (rlit Lit_1em15))
      "1.0 + resistor2.alpha * (resistor2.T - resistor2.T_ref) >= 1e-15"
      "Temperature outside scope of model!"
      {| filename := "C:/OpenModelica/lib/omlibrary/Modelica 4.0.0/Electrical/Analog/Basic/Resistor.mo";
         lineStart := 15; colStart := 3;
         lineEnd := 16; colEnd := 43; readonly := 0 |} w.

(* equation index: 86 (static int tmp12 is declared and never used)
   assert(1.0 + resistor1.alpha * (resistor1.T - resistor1.T_ref) >= 1e-15, "Temperature outside scope of model!"); *)
Definition oc_latch_eqFunction_86 : M real unit :=
  fun w =>
    assert_error [1; 86]%Z
      (GreaterEq (rlit Lit_1 + rp w 48 * (rp w 45 - rp w 47)) (rlit Lit_1em15))
      "1.0 + resistor1.alpha * (resistor1.T - resistor1.T_ref) >= 1e-15"
      "Temperature outside scope of model!"
      {| filename := "C:/OpenModelica/lib/omlibrary/Modelica 4.0.0/Electrical/Analog/Basic/Resistor.mo";
         lineStart := 15; colStart := 3;
         lineEnd := 16; colEnd := 43; readonly := 0 |} w.

(* equation index: 85 (static int tmp15 is declared and never used)
   assert(1.0 + resistor.alpha * (resistor.T - resistor.T_ref) >= 1e-15, "Temperature outside scope of model!"); *)
Definition oc_latch_eqFunction_85 : M real unit :=
  fun w =>
    assert_error [1; 85]%Z
      (GreaterEq (rlit Lit_1 + rp w 42 * (rp w 39 - rp w 41)) (rlit Lit_1em15))
      "1.0 + resistor.alpha * (resistor.T - resistor.T_ref) >= 1e-15"
      "Temperature outside scope of model!"
      {| filename := "C:/OpenModelica/lib/omlibrary/Modelica 4.0.0/Electrical/Analog/Basic/Resistor.mo";
         lineStart := 15; colStart := 3;
         lineEnd := 16; colEnd := 43; readonly := 0 |} w.

(* equation index: 84 (static int tmp18 is declared and never used)
   assert(1.0 + R2.alpha * (R2.T - R2.T_ref) >= 1e-15, "Temperature outside scope of model!"); *)
Definition oc_latch_eqFunction_84 : M real unit :=
  fun w =>
    assert_error [1; 84]%Z
      (GreaterEq (rlit Lit_1 + rp w 10 * (rp w 7 - rp w 9)) (rlit Lit_1em15))
      "1.0 + R2.alpha * (R2.T - R2.T_ref) >= 1e-15"
      "Temperature outside scope of model!"
      {| filename := "C:/OpenModelica/lib/omlibrary/Modelica 4.0.0/Electrical/Analog/Basic/Resistor.mo";
         lineStart := 15; colStart := 3;
         lineEnd := 16; colEnd := 43; readonly := 0 |} w.

(* equation index: 83 (static int tmp21 is declared and never used)
   assert(1.0 + R1.alpha * (R1.T - R1.T_ref) >= 1e-15, "Temperature outside scope of model!"); *)
Definition oc_latch_eqFunction_83 : M real unit :=
  fun w =>
    assert_error [1; 83]%Z
      (GreaterEq (rlit Lit_1 + rp w 4 * (rp w 1 - rp w 3)) (rlit Lit_1em15))
      "1.0 + R1.alpha * (R1.T - R1.T_ref) >= 1e-15"
      "Temperature outside scope of model!"
      {| filename := "C:/OpenModelica/lib/omlibrary/Modelica 4.0.0/Electrical/Analog/Basic/Resistor.mo";
         lineStart := 15; colStart := 3;
         lineEnd := 16; colEnd := 43; readonly := 0 |} w.


(** The min/max assertions of the bound parameters ([oc_latch_08bnd.c]). *)

(* equation index: 216, latch: static int tmp5
   assert(R1.T_ref >= 0.0, "Variable violating min constraint: 0.0 <= R1.T_ref, has value: " + String(R1.T_ref, "g")); *)
Definition oc_latch_eqFunction_216 : M real unit :=
  fun w =>
    assert_warning 216 [1; 216]%Z
      (GreaterEq (rp w 3) (rlit Lit_0))
      "R1.T_ref >= 0.0"
      ("Variable violating min constraint: 0.0 <= R1.T_ref, has value: " ++
       modelica_real_to_modelica_string_format (rp w 3) "g")
      {| filename := "C:/OpenModelica/lib/omlibrary/Modelica 4.0.0/Electrical/Analog/Basic/Resistor.mo";
         lineStart := 5; colStart := 3;
         lineEnd := 5; colEnd := 64; readonly := 0 |} w.

(* equation index: 217, latch: static int tmp10
   assert(R1.T >= 0.0, "Variable violating min constraint: 0.0 <= R1.T, has value: " + String(R1.T, "g")); *)
Definition oc_latch_eqFunction_217 : M real unit :=
  fun w =>
    assert_warning 217 [1; 217]%Z
      (GreaterEq (rp w 1) (rlit Lit_0))
      "R1.T >= 0.0"
      ("Variable violating min constraint: 0.0 <= R1.T, has value: " ++
       modelica_real_to_modelica_string_format (rp w 1) "g")
      {| filename := "C:/OpenModelica/lib/omlibrary/Modelica 4.0.0/Electrical/Analog/Interfaces/ConditionalHeatPort.mo";
         lineStart := 7; colStart := 3;
         lineEnd := 8; colEnd := 97; readonly := 0 |} w.

(* equation index: 218, latch: static int tmp15
   assert(R1.T_heatPort >= 0.0, "Variable violating min constraint: 0.0 <= R1.T_heatPort, has value: " + String(R1.T_heatPort, "g")); *)
Definition oc_latch_eqFunction_218 : M real unit :=
  fun w =>
    assert_warning 218 [1; 218]%Z
      (GreaterEq (rp w 2) (rlit Lit_0))
      "R1.T_heatPort >= 0.0"
      ("Variable violating min constraint: 0.0 <= R1.T_heatPort, has value: " ++
       modelica_real_to_modelica_string_format (rp w 2) "g")
      {| filename := "C:/OpenModelica/lib/omlibrary/Modelica 4.0.0/Electrical/Analog/Interfaces/ConditionalHeatPort.mo";
         lineStart := 14; colStart := 3;
         lineEnd := 14; colEnd := 54; readonly := 0 |} w.

(* equation index: 219, latch: static int tmp20
   assert(R2.T_ref >= 0.0, "Variable violating min constraint: 0.0 <= R2.T_ref, has value: " + String(R2.T_ref, "g")); *)
Definition oc_latch_eqFunction_219 : M real unit :=
  fun w =>
    assert_warning 219 [1; 219]%Z
      (GreaterEq (rp w 9) (rlit Lit_0))
      "R2.T_ref >= 0.0"
      ("Variable violating min constraint: 0.0 <= R2.T_ref, has value: " ++
       modelica_real_to_modelica_string_format (rp w 9) "g")
      {| filename := "C:/OpenModelica/lib/omlibrary/Modelica 4.0.0/Electrical/Analog/Basic/Resistor.mo";
         lineStart := 5; colStart := 3;
         lineEnd := 5; colEnd := 64; readonly := 0 |} w.

(* equation index: 220, latch: static int tmp25
   assert(R2.T >= 0.0, "Variable violating min constraint: 0.0 <= R2.T, has value: " + String(R2.T, "g")); *)
Definition oc_latch_eqFunction_220 : M real unit :=
  fun w =>
    assert_warning 220 [1; 220]%Z
      (GreaterEq (rp w 7) (rlit Lit_0))
      "R2.T >= 0.0"
      ("Variable violating min constraint: 0.0 <= R2.T, has value: " ++
       modelica_real_to_modelica_string_format (rp w 7) "g")
      {| filename := "C:/OpenModelica/lib/omlibrary/Modelica 4.0.0/Electrical/Analog/Interfaces/ConditionalHeatPort.mo";
         lineStart := 7; colStart := 3;
         lineEnd := 8; colEnd := 97; readonly := 0 |} w.

(* equation index: 221, latch: static int tmp30
   assert(R2.T_heatPort >= 0.0, "Variable violating min constraint: 0.0 <= R2.T_heatPort, has value: " + String(R2.T_heatPort, "g")); *)
Definition oc_latch_eqFunction_221 : M real unit :=
  fun w =>
    assert_warning 221 [1; 221]%Z
      (GreaterEq (rp w 8) (rlit Lit_0))
      "R2.T_heatPort >= 0.0"
      ("Variable violating min constraint: 0.0 <= R2.T_heatPort, has value: " ++
       modelica_real_to_modelica_string_format (rp w 8) "g")
      {| filename := "C:/OpenModelica/lib/omlibrary/Modelica 4.0.0/Electrical/Analog/Interfaces/ConditionalHeatPort.mo";
         lineStart := 14; colStart := 3;
         lineEnd := 14; colEnd := 54; readonly := 0 |} w.

(* equation index: 222, latch: static int tmp35
   assert(resistor.T_ref >= 0.0, "Variable violating min constraint: 0.0 <= resistor.T_ref, has value: " + String(resistor.T_ref, "g")); *)
Definition oc_latch_eqFunction_222 : M real unit :=
  fun w =>
    assert_warning 222 [1; 222]%Z
      (GreaterEq (rp w 41) (rlit Lit_0))
      "resistor.T_ref >= 0.0"
      ("Variable violating min constraint: 0.0 <= resistor.T_ref, has value: " ++
       modelica_real_to_modelica_string_format (rp w 41) "g")
      {| filename := "C:/OpenModelica/lib/omlibrary/Modelica 4.0.0/Electrical/Analog/Basic/Resistor.mo";
         lineStart := 5; colStart := 3;
         lineEnd := 5; colEnd := 64; readonly := 0 |} w.

(* equation index: 223, latch: static int tmp40
   assert(resistor.T >= 0.0, "Variable violating min constraint: 0.0 <= resistor.T, has value: " + String(resistor.T, "g")); *)
Definition oc_latch_eqFunction_223 : M real unit :=
  fun w =>
    assert_warning 223 [1; 223]%Z
      (GreaterEq (rp w 39) (rlit Lit_0))
      "resistor.T >= 0.0"
      ("Variable violating min constraint: 0.0 <= resistor.T, has value: " ++
       modelica_real_to_modelica_string_format (rp w 39) "g")
      {| filename := "C:/OpenModelica/lib/omlibrary/Modelica 4.0.0/Electrical/Analog/Interfaces/ConditionalHeatPort.mo";
         lineStart := 7; colStart := 3;
         lineEnd := 8; colEnd := 97; readonly := 0 |} w.

(* equation index: 224, latch: static int tmp45
   assert(resistor.T_heatPort >= 0.0, "Variable violating min constraint: 0.0 <= resistor.T_heatPort, has value: " + String(resistor.T_heatPort, "g")); *)
Definition oc_latch_eqFunction_224 : M real unit :=
  fun w =>
    assert_warning 224 [1; 224]%Z
      (GreaterEq (rp w 40) (rlit Lit_0))
      "resistor.T_heatPort >= 0.0"
      ("Variable violating min constraint: 0.0 <= resistor.T_heatPort, has value: " ++
       modelica_real_to_modelica_string_format (rp w 40) "g")
      {| filename := "C:/OpenModelica/lib/omlibrary/Modelica 4.0.0/Electrical/Analog/Interfaces/ConditionalHeatPort.mo";
         lineStart := 14; colStart := 3;
         lineEnd := 14; colEnd := 54; readonly := 0 |} w.

(* equation index: 225, latch: static int tmp50
   assert(resistor1.T_ref >= 0.0, "Variable violating min constraint: 0.0 <= resistor1.T_ref, has value: " + String(resistor1.T_ref, "g")); *)
Definition oc_latch_eqFunction_225 : M real unit :=
  fun w =>
    assert_warning 225 [1; 225]%Z
      (GreaterEq (rp w 47) (rlit Lit_0))
      "resistor1.T_ref >= 0.0"
      ("Variable violating min constraint: 0.0 <= resistor1.T_ref, has value: " ++
       modelica_real_to_modelica_string_format (rp w 47) "g")
      {| filename := "C:/OpenModelica/lib/omlibrary/Modelica 4.0.0/Electrical/Analog/Basic/Resistor.mo";
         lineStart := 5; colStart := 3;
         lineEnd := 5; colEnd := 64; readonly := 0 |} w.

(* equation index: 226, latch: static int tmp55
   assert(resistor1.T >= 0.0, "Variable violating min constraint: 0.0 <= resistor1.T, has value: " + String(resistor1.T, "g")); *)
Definition oc_latch_eqFunction_226 : M real unit :=
  fun w =>
    assert_warning 226 [1; 226]%Z
      (GreaterEq (rp w 45) (rlit Lit_0))
      "resistor1.T >= 0.0"
      ("Variable violating min constraint: 0.0 <= resistor1.T, has value: " ++
       modelica_real_to_modelica_string_format (rp w 45) "g")
      {| filename := "C:/OpenModelica/lib/omlibrary/Modelica 4.0.0/Electrical/Analog/Interfaces/ConditionalHeatPort.mo";
         lineStart := 7; colStart := 3;
         lineEnd := 8; colEnd := 97; readonly := 0 |} w.

(* equation index: 227, latch: static int tmp60
   assert(resistor1.T_heatPort >= 0.0, "Variable violating min constraint: 0.0 <= resistor1.T_heatPort, has value: " + String(resistor1.T_heatPort, "g")); *)
Definition oc_latch_eqFunction_227 : M real unit :=
  fun w =>
    assert_warning 227 [1; 227]%Z
      (GreaterEq (rp w 46) (rlit Lit_0))
      "resistor1.T_heatPort >= 0.0"
      ("Variable violating min constraint: 0.0 <= resistor1.T_heatPort, has value: " ++
       modelica_real_to_modelica_string_format (rp w 46) "g")
      {| filename := "C:/OpenModelica/lib/omlibrary/Modelica 4.0.0/Electrical/Analog/Interfaces/ConditionalHeatPort.mo";
         lineStart := 14; colStart := 3;
         lineEnd := 14; colEnd := 54; readonly := 0 |} w.

(* equation index: 228, latch: static int tmp65
   assert(resistor2.T_ref >= 0.0, "Variable violating min constraint: 0.0 <= resistor2.T_ref, has value: " + String(resistor2.T_ref, "g")); *)
Definition oc_latch_eqFunction_228 : M real unit :=
  fun w =>
    assert_warning 228 [1; 228]%Z
      (GreaterEq (rp w 53) (rlit Lit_0))
      "resistor2.T_ref >= 0.0"
      ("Variable violating min constraint: 0.0 <= resistor2.T_ref, has value: " ++
       modelica_real_to_modelica_string_format (rp w 53) "g")
      {| filename := "C:/OpenModelica/lib/omlibrary/Modelica 4.0.0/Electrical/Analog/Basic/Resistor.mo";
         lineStart := 5; colStart := 3;
         lineEnd := 5; colEnd := 64; readonly := 0 |} w.

(* equation index: 229, latch: static int tmp70
   assert(resistor2.T >= 0.0, "Variable violating min constraint: 0.0 <= resistor2.T, has value: " + String(resistor2.T, "g")); *)
Definition oc_latch_eqFunction_229 : M real unit :=
  fun w =>
    assert_warning 229 [1; 229]%Z
      (GreaterEq (rp w 51) (rlit Lit_0))
      "resistor2.T >= 0.0"
      ("Variable violating min constraint: 0.0 <= resistor2.T, has value: " ++
       modelica_real_to_modelica_string_format (rp w 51) "g")
      {| filename := "C:/OpenModelica/lib/omlibrary/Modelica 4.0.0/Electrical/Analog/Interfaces/ConditionalHeatPort.mo";
         lineStart := 7; colStart := 3;
         lineEnd := 8; colEnd := 97; readonly := 0 |} w.

(* equation index: 230, latch: static int tmp75
   assert(resistor2.T_heatPort >= 0.0, "Variable violating min constraint: 0.0 <= resistor2.T_heatPort, has value: " + String(resistor2.T_heatPort, "g")); *)
Definition oc_latch_eqFunction_230 : M real unit :=
  fun w =>
    assert_warning 230 [1; 230]%Z
      (GreaterEq (rp w 52) (rlit Lit_0))
      "resistor2.T_heatPort >= 0.0"
      ("Variable violating min constraint: 0.0 <= resistor2.T_heatPort, has value: " ++
       modelica_real_to_modelica_string_format (rp w 52) "g")
      {| filename := "C:/OpenModelica/lib/omlibrary/Modelica 4.0.0/Electrical/Analog/Interfaces/ConditionalHeatPort.mo";
         lineStart := 14; colStart := 3;
         lineEnd := 14; colEnd := 54; readonly := 0 |} w.

(* equation index: 231, latch: static int tmp80
   assert(resistor3.T_ref >= 0.0, "Variable violating min constraint: 0.0 <= resistor3.T_ref, has value: " + String(resistor3.T_ref, "g")); *)
Definition oc_latch_eqFunction_231 : M real unit :=
  fun w =>
    assert_warning 231 [1; 231]%Z
      (GreaterEq (rp w 59) (rlit Lit_0))
      "resistor3.T_ref >= 0.0"
      ("Variable violating min constraint: 0.0 <= resistor3.T_ref, has value: " ++
       modelica_real_to_modelica_string_format (rp w 59) "g")
      {| filename := "C:/OpenModelica/lib/omlibrary/Modelica 4.0.0/Electrical/Analog/Basic/Resistor.mo";
         lineStart := 5; colStart := 3;
         lineEnd := 5; colEnd := 64; readonly := 0 |} w.

(* equation index: 232, latch: static int tmp85
   assert(resistor3.T >= 0.0, "Variable violating min constraint: 0.0 <= resistor3.T, has value: " + String(resistor3.T, "g")); *)
Definition oc_latch_eqFunction_232 : M real unit :=
  fun w =>
    assert_warning 232 [1; 232]%Z
      (GreaterEq (rp w 57) (rlit Lit_0))
      "resistor3.T >= 0.0"
      ("Variable violating min constraint: 0.0 <= resistor3.T, has value: " ++
       modelica_real_to_modelica_string_format (rp w 57) "g")
      {| filename := "C:/OpenModelica/lib/omlibrary/Modelica 4.0.0/Electrical/Analog/Interfaces/ConditionalHeatPort.mo";
         lineStart := 7; colStart := 3;
         lineEnd := 8; colEnd := 97; readonly := 0 |} w.

(* equation index: 233, latch: static int tmp90
   assert(resistor3.T_heatPort >= 0.0, "Variable violating min constraint: 0.0 <= resistor3.T_heatPort, has value: " + String(resistor3.T_heatPort, "g")); *)
Definition oc_latch_eqFunction_233 : M real unit :=
  fun w =>
    assert_warning 233 [1; 233]%Z
      (GreaterEq (rp w 58) (rlit Lit_0))
      "resistor3.T_heatPort >= 0.0"
      ("Variable violating min constraint: 0.0 <= resistor3.T_heatPort, has value: " ++
       modelica_real_to_modelica_string_format (rp w 58) "g")
      {| filename := "C:/OpenModelica/lib/omlibrary/Modelica 4.0.0/Electrical/Analog/Interfaces/ConditionalHeatPort.mo";
         lineStart := 14; colStart := 3;
         lineEnd := 14; colEnd := 54; readonly := 0 |} w.

(* equation index: 234, latch: static int tmp96
   assert(combiTimeTable.timeEvents >= Modelica.Blocks.Types.TimeEvents.Always and combiTimeTable.timeEvents <= Modelica.Blocks.Types.TimeEvents.NoTimeEvents, "Variable violating min/max constraint: Modelica.Blocks.Types.TimeEvents.Always <= combiTimeTable.timeEvents <= Modelica.Blocks.Types.TimeEvents.NoTimeEvents, has value: " + String(combiTimeTable.timeEvents, "d")); *)
Definition oc_latch_eqFunction_234 : M real unit :=
  fun w =>
    assert_warning 234 [1; 234]%Z
      (GreaterEqZ (ip w 4) 1 && LessEqZ (ip w 4) 3)
      "combiTimeTable.timeEvents >= Modelica.Blocks.Types.TimeEvents.Always and combiTimeTable.timeEvents <= Modelica.Blocks.Types.TimeEvents.NoTimeEvents"
      ("Variable violating min/max constraint: Modelica.Blocks.Types.TimeEvents.Always <= combiTimeTable.timeEvents <= Modelica.Blocks.Types.TimeEvents.NoTimeEvents, has value: " ++
       modelica_integer_to_modelica_string_format (ip w 4) "d")
      {| filename := "C:/OpenModelica/lib/omlibrary/Modelica 4.0.0/Blocks/Sources.mo";
         lineStart := 1600; colStart := 5;
         lineEnd := 1602; colEnd := 131; readonly := 0 |} w.

(* equation index: 235, latch: static int tmp101
   assert(combiTimeTable.timeScale >= 1e-15, "Variable violating min constraint: 1e-15 <= combiTimeTable.timeScale, has value: " + String(combiTimeTable.timeScale, "g")); *)
Definition oc_latch_eqFunction_235 : M real unit :=
  fun w =>
    assert_warning 235 [1; 235]%Z
      (GreaterEq (rp w 28) (rlit Lit_1em15))
      "combiTimeTable.timeScale >= 1e-15"
      ("Variable violating min constraint: 1e-15 <= combiTimeTable.timeScale, has value: " ++
       modelica_real_to_modelica_string_format (rp w 28) "g")
      {| filename := "C:/OpenModelica/lib/omlibrary/Modelica 4.0.0/Blocks/Sources.mo";
         lineStart := 1589; colStart := 5;
         lineEnd := 1591; colEnd := 76; readonly := 0 |} w.

(* equation index: 236, latch: static int tmp107
   assert(combiTimeTable.extrapolation >= Modelica.Blocks.Types.Extrapolation.HoldLastPoint and combiTimeTable.extrapolation <= Modelica.Blocks.Types.Extrapolation.NoExtrapolation, "Variable violating min/max constraint: Modelica.Blocks.Types.Extrapolation.HoldLastPoint <= combiTimeTable.extrapolation <= Modelica.Blocks.Types.Extrapolation.NoExtrapolation, has value: " + String(combiTimeTable.extrapolation, "d")); *)
Definition oc_latch_eqFunction_236 : M real unit :=
  fun w =>
    assert_warning 236 [1; 236]%Z
      (GreaterEqZ (ip w 1) 1 && LessEqZ (ip w 1) 4)
      "combiTimeTable.extrapolation >= Modelica.Blocks.Types.Extrapolation.HoldLastPoint and combiTimeTable.extrapolation <= Modelica.Blocks.Types.Extrapolation.NoExtrapolation"
      ("Variable violating min/max constraint: Modelica.Blocks.Types.Extrapolation.HoldLastPoint <= combiTimeTable.extrapolation <= Modelica.Blocks.Types.Extrapolation.NoExtrapolation, has value: " ++
       modelica_integer_to_modelica_string_format (ip w 1) "d")
      {| filename := "C:/OpenModelica/lib/omlibrary/Modelica 4.0.0/Blocks/Sources.mo";
         lineStart := 1586; colStart := 5;
         lineEnd := 1588; colEnd := 61; readonly := 0 |} w.

(* equation index: 237, latch: static int tmp113
   assert(combiTimeTable.smoothness >= Modelica.Blocks.Types.Smoothness.LinearSegments and combiTimeTable.smoothness <= Modelica.Blocks.Types.Smoothness.ModifiedContinuousDerivative, "Variable violating min/max constraint: Modelica.Blocks.Types.Smoothness.LinearSegments <= combiTimeTable.smoothness <= Modelica.Blocks.Types.Smoothness.ModifiedContinuousDerivative, has value: " + String(combiTimeTable.smoothness, "d")); *)
Definition oc_latch_eqFunction_237 : M real unit :=
  fun w =>
    assert_warning 237 [1; 237]%Z
      (GreaterEqZ (ip w 3) 1 && LessEqZ (ip w 3) 6)
      "combiTimeTable.smoothness >= Modelica.Blocks.Types.Smoothness.LinearSegments and combiTimeTable.smoothness <= Modelica.Blocks.Types.Smoothness.ModifiedContinuousDerivative"
      ("Variable violating min/max constraint: Modelica.Blocks.Types.Smoothness.LinearSegments <= combiTimeTable.smoothness <= Modelica.Blocks.Types.Smoothness.ModifiedContinuousDerivative, has value: " ++
       modelica_integer_to_modelica_string_format (ip w 3) "d")
      {| filename := "C:/OpenModelica/lib/omlibrary/Modelica 4.0.0/Blocks/Sources.mo";
         lineStart := 1583; colStart := 5;
         lineEnd := 1585; colEnd := 61; readonly := 0 |} w.

(* equation index: 238, latch: static int tmp118
   assert(combiTimeTable.nout >= 1, "Variable violating min constraint: 1 <= combiTimeTable.nout, has value: " + String(combiTimeTable.nout, "d")); *)
Definition oc_latch_eqFunction_238 : M real unit :=
  fun w =>
    assert_warning 238 [1; 238]%Z
      (GreaterEqZ (ip w 2) 1)
      "combiTimeTable.nout >= 1"
      ("Variable violating min constraint: 1 <= combiTimeTable.nout, has value: " ++
       modelica_integer_to_modelica_string_format (ip w 2) "d")
      {| filename := "C:/OpenModelica/lib/omlibrary/Modelica 4.0.0/Blocks/Interfaces.mo";
         lineStart := 313; colStart := 5;
         lineEnd := 313; colEnd := 58; readonly := 0 |} w.

(* equation index: 239, latch: static int tmp123
   assert(capacitor.C >= 0.0, "Variable violating min constraint: 0.0 <= capacitor.C, has value: " + String(capacitor.C, "g")); *)
Definition oc_latch_eqFunction_239 : M real unit :=
  fun w =>
    assert_warning 239 [1; 239]%Z
      (GreaterEq (rp w 11) (rlit Lit_0))
      "capacitor.C >= 0.0"
      ("Variable violating min constraint: 0.0 <= capacitor.C, has value: " ++
       modelica_real_to_modelica_string_format (rp w 11) "g")
      {| filename := "C:/OpenModelica/lib/omlibrary/Modelica 4.0.0/Electrical/Analog/Basic/Capacitor.mo";
         lineStart := 4; colStart := 3;
         lineEnd := 4; colEnd := 52; readonly := 0 |} w.


(** *** Initial equations ([oc_latch_06inz.c]) *)

(* equation index: 1, opAmp.VMin.i = 0.0 *)
Definition oc_latch_eqFunction_1 : M real unit :=
  fun w => assign_rv 22 (rlit Lit_0) w.

(* equation index: 2, opAmp1.VMin.i = 0.0 *)
Definition oc_latch_eqFunction_2 : M real unit :=
  fun w => assign_rv 29 (rlit Lit_0) w.

(* equation index: 3, signalVoltage.i = 0.0 *)
Definition oc_latch_eqFunction_3 : M real unit :=
  fun w => assign_rv 54 (rlit Lit_0) w.

(* equation index: 4, opAmp.in_n.i = 0.0 *)
Definition oc_latch_eqFunction_4 : M real unit :=
  fun w => assign_rv 25 (rlit Lit_0) w.

(* equation index: 5, opAmp1.in_p.i = 0.0 *)
Definition oc_latch_eqFunction_5 : M real unit :=
  fun w => assign_rv 33 (rlit Lit_0) w.

(* equation index: 6, capacitor.i = 0.0 *)
Definition oc_latch_eqFunction_6 : M real unit :=
  fun w => assign_rv 7 (rlit Lit_0) w.

(* equation index: 7, opAmp.f = 2.0 / constantVoltage.V *)
Definition oc_latch_eqFunction_7 : M real unit :=
  fun w => (q <- DIVISION_SIM (rlit Lit_2) (rp w 29) "constantVoltage.V" [1; 7]%Z ;;
            assign_rv 24 q) w.

(* equation index: 8, opAmp1.f = 2.0 / constantVoltage.V *)
Definition oc_latch_eqFunction_8 : M real unit :=
  fun w => (q <- DIVISION_SIM (rlit Lit_2) (rp w 29) "constantVoltage.V" [1; 8]%Z ;;
            assign_rv 31 q) w.

(* equation index: 9, resistor3.R_actual = resistor3.R * (1.0 + resistor3.alpha * (resistor3.T - resistor3.T_ref)) *)
Definition oc_latch_eqFunction_9 : M real unit :=
  fun w => assign_rv 51 (rp w 56 * (rlit Lit_1 + rp w 60 * (rp w 57 - rp w 59))) w.

(* equation index: 10, resistor2.R_actual = resistor2.R * (1.0 + resistor2.alpha * (resistor2.T - resistor2.T_ref)) *)
Definition oc_latch_eqFunction_10 : M real unit :=
  fun w => assign_rv 48 (rp w 50 * (rlit Lit_1 + rp w 54 * (rp w 51 - rp w 53))) w.

(* equation index: 11, resistor1.R_actual = resistor1.R * (1.0 + resistor1.alpha * (resistor1.T - resistor1.T_ref)) *)
Definition oc_latch_eqFunction_11 : M real unit :=
  fun w => assign_rv 44 (rp w 44 * (rlit Lit_1 + rp w 48 * (rp w 45 - rp w 47))) w.

(* equation index: 12, resistor.R_actual = resistor.R * (1.0 + resistor.alpha * (resistor.T - resistor.T_ref)) *)
Definition oc_latch_eqFunction_12 : M real unit :=
  fun w => assign_rv 40 (rp w 38 * (rlit Lit_1 + rp w 42 * (rp w 39 - rp w 41))) w.

(* equation index: 13, R2.R_actual = R2.R * (1.0 + R2.alpha * (R2.T - R2.T_ref)) *)
Definition oc_latch_eqFunction_13 : M real unit :=
  fun w => assign_rv 4 (rp w 6 * (rlit Lit_1 + rp w 10 * (rp w 7 - rp w 9))) w.

(* equation index: 14, R1.R_actual = R1.R * (1.0 + R1.alpha * (R1.T - R1.T_ref)) *)
Definition oc_latch_eqFunction_14 : M real unit :=
  fun w => assign_rv 1 (rp w 0 * (rlit Lit_1 + rp w 4 * (rp w 1 - rp w 3))) w.

(* equation index: 15, opAmp.absSlope = if opAmp.Slope < 0.0 then -opAmp.Slope else opAmp.Slope *)
Definition oc_latch_eqFunction_15 : M real unit :=
  fun w =>
    let tmp0 := Less (rp w 34) (rlit Lit_0) in
    assign_rv 23 (if tmp0 then - rp w 34 else rp w 34) w.

(* equation index: 16, opAmp1.absSlope = if opAmp1.Slope < 0.0 then -opAmp1.Slope else opAmp1.Slope *)
Definition oc_latch_eqFunction_16 : M real unit :=
  fun w =>
    let tmp1 := Less (rp w 36) (rlit Lit_0) in
    assign_rv 30 (if tmp1 then - rp w 36 else rp w 36) w.

(* equation index: 38, combiTimeTable.nextTimeEventScaled = Modelica.Blocks.Tables.Internal.getNextTimeEvent(combiTimeTable.tableID, combiTimeTable.timeScaled) *)
Definition oc_latch_eqFunction_38 : M real unit :=
  fun w => (v <- call (omc_Modelica_Blocks_Tables_Internal_getNextTimeEvent
                         (extObjs (sinfo w) 0%nat) (rv w 9)) ;;
            assign_rv 57 v) w.

(* equation index: 39, combiTimeTable.nextTimeEvent = if combiTimeTable.nextTimeEventScaled < 9.999999999999999e+59 then combiTimeTable.nextTimeEventScaled else 9.999999999999999e+59 *)
Definition oc_latch_eqFunction_39 : M real unit :=
  fun w =>
    let tmp2 := Less (rv w 57) (rlit Lit_1e60) in
    assign_rv 56 (if tmp2 then rv w 57 else rlit Lit_1e60) w.

(* equation index: 40, $PRE.combiTimeTable.nextTimeEventScaled = 0.0 *)
Definition oc_latch_eqFunction_40 : M real unit :=
  fun w => assign_rvPre 57 (rlit Lit_0) w.

(* equation index: 41, combiTimeTable.y[1] = Modelica.Blocks.Tables.Internal.getTimeTableValueNoDer(combiTimeTable.tableID, 1, combiTimeTable.timeScaled, combiTimeTable.nextTimeEventScaled, $PRE.combiTimeTable.nextTimeEventScaled) *)
Definition oc_latch_eqFunction_41 : M real unit :=
  fun w => (v <- call (omc_Modelica_Blocks_Tables_Internal_getTimeTableValueNoDer
                         (extObjs (sinfo w) 0%nat) 1 (rv w 9) (rv w 57) (rvPre w 57)) ;;
            assign_rv 10 v) w.

(* equation index: 56, $PRE.pre11.u = pre11.pre_u_start *)
Definition oc_latch_eqFunction_56 : M real unit :=
  fun w => assign_bvPre 9 (bp w 6) w.

(* equation index: 57, pre11.y = $PRE.pre11.u *)
Definition oc_latch_eqFunction_57 : M real unit :=
  fun w => assign_bv 10 (bvPre w 9) w.

(* equation index: 60, $PRE.pre1.u = pre1.pre_u_start *)
Definition oc_latch_eqFunction_60 : M real unit :=
  fun w => assign_bvPre 8 (bp w 5) w.

(* equation index: 61, nor1.u1 = $PRE.pre1.u *)
Definition oc_latch_eqFunction_61 : M real unit :=
  fun w => assign_bv 5 (bvPre w 8) w.

(* equation index: 64, ground.p.v = 0.0 *)
Definition oc_latch_eqFunction_64 : M real unit :=
  fun w => assign_rv 12 (rlit Lit_0) w.

(* equation index: 65, opAmp.in_p.i = 0.0 *)
Definition oc_latch_eqFunction_65 : M real unit :=
  fun w => assign_rv 26 (rlit Lit_0) w.

(* equation index: 66, opAmp.VMax.i = 0.0 *)
Definition oc_latch_eqFunction_66 : M real unit :=
  fun w => assign_rv 21 (rlit Lit_0) w.

(* equation index: 67, ground1.p.v = 0.0 *)
Definition oc_latch_eqFunction_67 : M real unit :=
  fun w => assign_rv 13 (rlit Lit_0) w.

(* equation index: 68, ground2.p.v = 0.0 *)
Definition oc_latch_eqFunction_68 : M real unit :=
  fun w => assign_rv 14 (rlit Lit_0) w.

(* equation index: 69, ground3.p.v = 0.0 *)
Definition oc_latch_eqFunction_69 : M real unit :=
  fun w => assign_rv 16 (rlit Lit_0) w.

(* equation index: 70, ground4.p.v = 0.0 *)
Definition oc_latch_eqFunction_70 : M real unit :=
  fun w => assign_rv 17 (rlit Lit_0) w.

(* equation index: 71, potentialSensor.p.i = 0.0 *)
Definition oc_latch_eqFunction_71 : M real unit :=
  fun w => assign_rv 35 (rlit Lit_0) w.

(* equation index: 72, opAmp1.in_n.i = 0.0 *)
Definition oc_latch_eqFunction_72 : M real unit :=
  fun w => assign_rv 32 (rlit Lit_0) w.

(* equation index: 73, opAmp1.VMax.i = 0.0 *)
Definition oc_latch_eqFunction_73 : M real unit :=
  fun w => assign_rv 28 (rlit Lit_0) w.

(* equation index: 74, ground5.p.v = 0.0 *)
Definition oc_latch_eqFunction_74 : M real unit :=
  fun w => assign_rv 19 (rlit Lit_0) w.

(* equation index: 75, potentialSensor1.p.i = 0.0 *)
Definition oc_latch_eqFunction_75 : M real unit :=
  fun w => assign_rv 37 (rlit Lit_0) w.

(* equation index: 76, ground6.p.v = 0.0 *)
Definition oc_latch_eqFunction_76 : M real unit :=
  fun w => assign_rv 20 (rlit Lit_0) w.

(* equation index: 77, capacitor.n.i = 0.0 *)
Definition oc_latch_eqFunction_77 : M real unit :=
  fun w => assign_rv 8 (rlit Lit_0) w.

(* equation index: 78, signalVoltage.n.i = 0.0 *)
Definition oc_latch_eqFunction_78 : M real unit :=
  fun w => assign_rv 55 (rlit Lit_0) w.

(* equation index: 79, ground5.p.i = 0.0 *)
Definition oc_latch_eqFunction_79 : M real unit :=
  fun w => assign_rv 18 (rlit Lit_0) w.

(* equation index: 80, ground3.p.i = 0.0 *)
Definition oc_latch_eqFunction_80 : M real unit :=
  fun w => assign_rv 15 (rlit Lit_0) w.

(* equation index: 81, $PRE.combiTimeTable.nextTimeEvent = 0.0 *)
Definition oc_latch_eqFunction_81 : M real unit :=
  fun w => assign_rvPre 56 (rlit Lit_0) w.

(* equation index: 82, $whenCondition1 = time >= $PRE.combiTimeTable.nextTimeEvent *)
Definition oc_latch_eqFunction_82 : M real unit :=
  fun w =>
    let tmp3 := GreaterEq (time w) (rvPre w 56) in
    assign_bv 0 tmp3 w.


Definition oc_latch_functionInitialEquations_0 : M real unit :=
  oc_latch_eqFunction_1 ;;
  oc_latch_eqFunction_2 ;;
  oc_latch_eqFunction_3 ;;
  oc_latch_eqFunction_4 ;;
  oc_latch_eqFunction_5 ;;
  oc_latch_eqFunction_6 ;;
  oc_latch_eqFunction_7 ;;
  oc_latch_eqFunction_8 ;;
  oc_latch_eqFunction_9 ;;
  oc_latch_eqFunction_10 ;;
  oc_latch_eqFunction_11 ;;
  oc_latch_eqFunction_12 ;;
  oc_latch_eqFunction_13 ;;
  oc_latch_eqFunction_14 ;;
  oc_latch_eqFunction_15 ;;
  oc_latch_eqFunction_16 ;;
  oc_latch_eqFunction_23 ;;
  oc_latch_eqFunction_122 ;;
  oc_latch_eqFunction_132 ;;
  oc_latch_eqFunction_105 ;;
  oc_latch_eqFunction_33 ;;
  oc_latch_eqFunction_99 ;;
  oc_latch_eqFunction_100 ;;
  oc_latch_eqFunction_91 ;;
  oc_latch_eqFunction_90 ;;
  oc_latch_eqFunction_38 ;;
  oc_latch_eqFunction_39 ;;
  oc_latch_eqFunction_40 ;;
  oc_latch_eqFunction_41 ;;
  oc_latch_eqFunction_109 ;;
  oc_latch_eqFunction_110 ;;
  oc_latch_eqFunction_114 ;;
  oc_latch_eqFunction_111 ;;
  oc_latch_eqFunction_112 ;;
  oc_latch_eqFunction_113 ;;
  oc_latch_eqFunction_123 ;;
  oc_latch_eqFunction_124 ;;
  oc_latch_eqFunction_128 ;;
  oc_latch_eqFunction_129 ;;
  oc_latch_eqFunction_125 ;;
  oc_latch_eqFunction_126 ;;
  oc_latch_eqFunction_127 ;;
  oc_latch_eqFunction_133 ;;
  oc_latch_eqFunction_56 ;;
  oc_latch_eqFunction_57 ;;
  oc_latch_eqFunction_130 ;;
  oc_latch_eqFunction_131 ;;
  oc_latch_eqFunction_60 ;;
  oc_latch_eqFunction_61 ;;
  oc_latch_eqFunction_103 ;;
  oc_latch_eqFunction_104 ;;
  oc_latch_eqFunction_64 ;;
  oc_latch_eqFunction_65 ;;
  oc_latch_eqFunction_66 ;;
  oc_latch_eqFunction_67 ;;
  oc_latch_eqFunction_68 ;;
  oc_latch_eqFunction_69 ;;
  oc_latch_eqFunction_70 ;;
  oc_latch_eqFunction_71 ;;
  oc_latch_eqFunction_72 ;;
  oc_latch_eqFunction_73 ;;
  oc_latch_eqFunction_74 ;;
  oc_latch_eqFunction_75 ;;
  oc_latch_eqFunction_76 ;;
  oc_latch_eqFunction_77 ;;
  oc_latch_eqFunction_78 ;;
  oc_latch_eqFunction_79 ;;
  oc_latch_eqFunction_80 ;;
  oc_latch_eqFunction_81 ;;
  oc_latch_eqFunction_82 ;;
  oc_latch_eqFunction_88 ;;
  oc_latch_eqFunction_87 ;;
  oc_latch_eqFunction_86 ;;
  oc_latch_eqFunction_85 ;;
  oc_latch_eqFunction_84 ;;
  oc_latch_eqFunction_83 ;;
  ret tt.

Definition oc_latch_functionInitialEquations : M real Z :=
  assign_discreteCall true ;;
  oc_latch_functionInitialEquations_0 ;;
  assign_discreteCall false ;;
  ret 0%Z.


(** *** Bound parameters ([oc_latch_08bnd.c]) *)

(* equation index: 140, combiTimeTable.shiftTime = combiTimeTable.startTime *)
Definition oc_latch_eqFunction_140 : M real unit :=
  fun w => assign_rp 16 (rp w 17) w.

(* equation index: 141, combiTimeTable.tableID = Modelica.Blocks.Types.ExternalCombiTimeTable.constructor("NoName", "NoName", combiTimeTable.table, combiTimeTable.startTime, {2}, Modelica.Blocks.Types.Smoothness.ConstantSegments, Modelica.Blocks.Types.Extrapolation.HoldLastPoint, combiTimeTable.shiftTime, Modelica.Blocks.Types.TimeEvents.Always, false) *)
Definition oc_latch_eqFunction_141 : M real unit :=
  fun w =>
    (* real_array_create(&tmp0, &realParameter[22], 2, 3, 2): combiTimeTable.table, 3 x 2 *)
    let tmp0 := map (fun i => rp w (22 + i)) (seq 0 6) in
    (h <- call (omc_Modelica_Blocks_Types_ExternalCombiTimeTable_constructor
                  "NoName" "NoName" tmp0 (rp w 17) [2]%Z 3 1 (rp w 16) 1 false) ;;
     assign_extObj 0 h) w.

(* equation index: 142, capacitor.v = constantVoltage.V *)
Definition oc_latch_eqFunction_142 : M real unit :=
  fun w => assign_rp 13 (rp w 29) w.

(* equation index: 143, resistor2.p.v = constantVoltage.V *)
Definition oc_latch_eqFunction_143 : M real unit :=
  fun w => assign_rp 55 (rp w 29) w.

(* equation index: 144, constantVoltage.p.v = constantVoltage.V *)
Definition oc_latch_eqFunction_144 : M real unit :=
  fun w => assign_rp 30 (rp w 29) w.

(* equation index: 145, opAmp1.VMax.v = constantVoltage.V *)
Definition oc_latch_eqFunction_145 : M real unit :=
  fun w => assign_rp 37 (rp w 29) w.

(* equation index: 146, resistor1.p.v = constantVoltage.V *)
Definition oc_latch_eqFunction_146 : M real unit :=
  fun w => assign_rp 49 (rp w 29) w.

(* equation index: 147, resistor.p.v = constantVoltage.V *)
Definition oc_latch_eqFunction_147 : M real unit :=
  fun w => assign_rp 43 (rp w 29) w.

(* equation index: 148, opAmp.VMax.v = constantVoltage.V *)
Definition oc_latch_eqFunction_148 : M real unit :=
  fun w => assign_rp 35 (rp w 29) w.

(* equation index: 149, R1.p.v = constantVoltage.V *)
Definition oc_latch_eqFunction_149 : M real unit :=
  fun w => assign_rp 5 (rp w 29) w.

(* equation index: 150, capacitor.p.v = constantVoltage.V *)
Definition oc_latch_eqFunction_150 : M real unit :=
  fun w => assign_rp 12 (rp w 29) w.

(* equation index: 151, constantVoltage.v = constantVoltage.V *)
Definition oc_latch_eqFunction_151 : M real unit :=
  fun w => assign_rp 31 (rp w 29) w.

(* equation index: 152, R1.T = R1.T_ref *)
Definition oc_latch_eqFunction_152 : M real unit :=
  fun w => assign_rp 1 (rp w 3) w.

(* equation index: 153, R1.T_heatPort = R1.T *)
Definition oc_latch_eqFunction_153 : M real unit :=
  fun w => assign_rp 2 (rp w 1) w.

(* equation index: 154, R2.T = R2.T_ref *)
Definition oc_latch_eqFunction_154 : M real unit :=
  fun w => assign_rp 7 (rp w 9) w.

(* equation index: 155, R2.T_heatPort = R2.T *)
Definition oc_latch_eqFunction_155 : M real unit :=
  fun w => assign_rp 8 (rp w 7) w.

(* equation index: 156, resistor.T = resistor.T_ref *)
Definition oc_latch_eqFunction_156 : M real unit :=
  fun w => assign_rp 39 (rp w 41) w.

(* equation index: 157, resistor.T_heatPort = resistor.T *)
Definition oc_latch_eqFunction_157 : M real unit :=
  fun w => assign_rp 40 (rp w 39) w.

(* equation index: 158, resistor1.T = resistor1.T_ref *)
Definition oc_latch_eqFunction_158 : M real unit :=
  fun w => assign_rp 45 (rp w 47) w.

(* equation index: 159, resistor1.T_heatPort = resistor1.T *)
Definition oc_latch_eqFunction_159 : M real unit :=
  fun w => assign_rp 46 (rp w 45) w.

(* equation index: 160, resistor2.T = resistor2.T_ref *)
Definition oc_latch_eqFunction_160 : M real unit :=
  fun w => assign_rp 51 (rp w 53) w.

(* equation index: 161, resistor2.T_heatPort = resistor2.T *)
Definition oc_latch_eqFunction_161 : M real unit :=
  fun w => assign_rp 52 (rp w 51) w.

(* equation index: 162, resistor3.T = resistor3.T_ref *)
Definition oc_latch_eqFunction_162 : M real unit :=
  fun w => assign_rp 57 (rp w 59) w.

(* equation index: 163, resistor3.T_heatPort = resistor3.T *)
Definition oc_latch_eqFunction_163 : M real unit :=
  fun w => assign_rp 58 (rp w 57) w.

(* equation index: 171, combiTimeTable.t_maxScaled = Modelica.Blocks.Tables.Internal.getTimeTableTmax(combiTimeTable.tableID) *)
Definition oc_latch_eqFunction_171 : M real unit :=
  fun w => (v <- call (omc_Modelica_Blocks_Tables_Internal_getTimeTableTmax
                         (extObjs (sinfo w) 0%nat)) ;;
            assign_rp 19 v) w.

(* equation index: 172, combiTimeTable.t_minScaled = Modelica.Blocks.Tables.Internal.getTimeTableTmin(combiTimeTable.tableID) *)
Definition oc_latch_eqFunction_172 : M real unit :=
  fun w => (v <- call (omc_Modelica_Blocks_Tables_Internal_getTimeTableTmin
                         (extObjs (sinfo w) 0%nat)) ;;
            assign_rp 21 v) w.

(* equation index: 173, combiTimeTable.t_max = combiTimeTable.t_maxScaled *)
Definition oc_latch_eqFunction_173 : M real unit :=
  fun w => assign_rp 18 (rp w 19) w.

(* equation index: 174, combiTimeTable.t_min = combiTimeTable.t_minScaled *)
Definition oc_latch_eqFunction_174 : M real unit :=
  fun w => assign_rp 20 (rp w 21) w.


Definition oc_latch_updateBoundParameters_0 : M real unit :=
  oc_latch_eqFunction_140 ;;
  oc_latch_eqFunction_141 ;;
  oc_latch_eqFunction_142 ;;
  oc_latch_eqFunction_143 ;;
  oc_latch_eqFunction_144 ;;
  oc_latch_eqFunction_145 ;;
  oc_latch_eqFunction_146 ;;
  oc_latch_eqFunction_147 ;;
  oc_latch_eqFunction_148 ;;
  oc_latch_eqFunction_149 ;;
  oc_latch_eqFunction_150 ;;
  oc_latch_eqFunction_151 ;;
  oc_latch_eqFunction_152 ;;
  oc_latch_eqFunction_153 ;;
  oc_latch_eqFunction_154 ;;
  oc_latch_eqFunction_155 ;;
  oc_latch_eqFunction_156 ;;
  oc_latch_eqFunction_157 ;;
  oc_latch_eqFunction_158 ;;
  oc_latch_eqFunction_159 ;;
  oc_latch_eqFunction_160 ;;
  oc_latch_eqFunction_161 ;;
  oc_latch_eqFunction_162 ;;
  oc_latch_eqFunction_163 ;;
  oc_latch_eqFunction_171 ;;
  oc_latch_eqFunction_172 ;;
  oc_latch_eqFunction_173 ;;
  oc_latch_eqFunction_174 ;;
  oc_latch_eqFunction_76 ;;
  oc_latch_eqFunction_75 ;;
  oc_latch_eqFunction_74 ;;
  oc_latch_eqFunction_16 ;;
  oc_latch_eqFunction_73 ;;
  oc_latch_eqFunction_72 ;;
  oc_latch_eqFunction_71 ;;
  oc_latch_eqFunction_70 ;;
  oc_latch_eqFunction_69 ;;
  oc_latch_eqFunction_68 ;;
  oc_latch_eqFunction_67 ;;
  oc_latch_eqFunction_15 ;;
  oc_latch_eqFunction_66 ;;
  oc_latch_eqFunction_65 ;;
  oc_latch_eqFunction_64 ;;
  oc_latch_eqFunction_14 ;;
  oc_latch_eqFunction_13 ;;
  oc_latch_eqFunction_12 ;;
  oc_latch_eqFunction_11 ;;
  oc_latch_eqFunction_10 ;;
  oc_latch_eqFunction_9 ;;
  oc_latch_eqFunction_8 ;;
  oc_latch_eqFunction_7 ;;
  oc_latch_eqFunction_6 ;;
  oc_latch_eqFunction_5 ;;
  oc_latch_eqFunction_4 ;;
  oc_latch_eqFunction_3 ;;
  oc_latch_eqFunction_2 ;;
  oc_latch_eqFunction_1 ;;
  oc_latch_eqFunction_216 ;;
  oc_latch_eqFunction_217 ;;
  oc_latch_eqFunction_218 ;;
  oc_latch_eqFunction_219 ;;
  oc_latch_eqFunction_220 ;;
  oc_latch_eqFunction_221 ;;
  oc_latch_eqFunction_222 ;;
  oc_latch_eqFunction_223 ;;
  oc_latch_eqFunction_224 ;;
  oc_latch_eqFunction_225 ;;
  oc_latch_eqFunction_226 ;;
  oc_latch_eqFunction_227 ;;
  oc_latch_eqFunction_228 ;;
  oc_latch_eqFunction_229 ;;
  oc_latch_eqFunction_230 ;;
  oc_latch_eqFunction_231 ;;
  oc_latch_eqFunction_232 ;;
  oc_latch_eqFunction_233 ;;
  oc_latch_eqFunction_234 ;;
  oc_latch_eqFunction_235 ;;
  oc_latch_eqFunction_236 ;;
  oc_latch_eqFunction_237 ;;
  oc_latch_eqFunction_238 ;;
  oc_latch_eqFunction_239 ;;
  ret tt.

Definition oc_latch_updateBoundParameters : M real Z :=
  assign_ip 0 2 ;;
  mark_integerParameter_time_unvarying 0 ;;
  assign_ip 2 1 ;;
  mark_integerParameter_time_unvarying 2 ;;
  assign_rv 8 (rlit Lit_m0) ;;
  mark_realVar_time_unvarying 8 ;;
  assign_rv 15 (rlit Lit_m0) ;;
  mark_realVar_time_unvarying 15 ;;
  assign_rv 18 (rlit Lit_m0) ;;
  mark_realVar_time_unvarying 18 ;;
  assign_rv 55 (rlit Lit_m0) ;;
  mark_realVar_time_unvarying 55 ;;
  assign_rp 14 (rlit Lit_0) ;;
  mark_realParameter_time_unvarying 14 ;;
  assign_rp 15 (rlit Lit_0) ;;
  mark_realParameter_time_unvarying 15 ;;
  assign_rp 28 (rlit Lit_1) ;;
  mark_realParameter_time_unvarying 28 ;;
  assign_bp 0 false ;;
  mark_booleanParameter_time_unvarying 0 ;;
  assign_bp 1 false ;;
  mark_booleanParameter_time_unvarying 1 ;;
  assign_bp 2 false ;;
  mark_booleanParameter_time_unvarying 2 ;;
  assign_bp 3 false ;;
  mark_booleanParameter_time_unvarying 3 ;;
  assign_bp 7 false ;;
  mark_booleanParameter_time_unvarying 7 ;;
  assign_bp 8 false ;;
  mark_booleanParameter_time_unvarying 8 ;;
  assign_bp 9 false ;;
  mark_booleanParameter_time_unvarying 9 ;;
  assign_bp 10 false ;;
  mark_booleanParameter_time_unvarying 10 ;;
  assign_ip 1 1 ;;
  mark_integerParameter_time_unvarying 1 ;;
  assign_ip 3 3 ;;
  mark_integerParameter_time_unvarying 3 ;;
  oc_latch_updateBoundParameters_0 ;;
  ret 0%Z.


(** *** The continuous pass ([oc_latch_09alg.c]) *)

Definition functionAlg_system0 : M real unit :=
  oc_latch_eqFunction_89 ;; assign_lastEquationSolved 89 ;;
  oc_latch_eqFunction_90 ;; assign_lastEquationSolved 90 ;;
  oc_latch_eqFunction_91 ;; assign_lastEquationSolved 91 ;;
  oc_latch_eqFunction_98 ;; assign_lastEquationSolved 98 ;;
  oc_latch_eqFunction_99 ;; assign_lastEquationSolved 99 ;;
  oc_latch_eqFunction_100 ;; assign_lastEquationSolved 100 ;;
  oc_latch_eqFunction_101 ;; assign_lastEquationSolved 101 ;;
  oc_latch_eqFunction_102 ;; assign_lastEquationSolved 102 ;;
  oc_latch_eqFunction_103 ;; assign_lastEquationSolved 103 ;;
  oc_latch_eqFunction_104 ;; assign_lastEquationSolved 104 ;;
  oc_latch_eqFunction_105 ;; assign_lastEquationSolved 105 ;;
  oc_latch_eqFunction_107 ;; assign_lastEquationSolved 107 ;;
  oc_latch_eqFunction_109 ;; assign_lastEquationSolved 109 ;;
  oc_latch_eqFunction_110 ;; assign_lastEquationSolved 110 ;;
  oc_latch_eqFunction_111 ;; assign_lastEquationSolved 111 ;;
  oc_latch_eqFunction_112 ;; assign_lastEquationSolved 112 ;;
  oc_latch_eqFunction_113 ;; assign_lastEquationSolved 113 ;;
  oc_latch_eqFunction_114 ;; assign_lastEquationSolved 114 ;;
  oc_latch_eqFunction_121 ;; assign_lastEquationSolved 121 ;;
  oc_latch_eqFunction_122 ;; assign_lastEquationSolved 122 ;;
  oc_latch_eqFunction_123 ;; assign_lastEquationSolved 123 ;;
  oc_latch_eqFunction_124 ;; assign_lastEquationSolved 124 ;;
  oc_latch_eqFunction_125 ;; assign_lastEquationSolved 125 ;;
  oc_latch_eqFunction_126 ;; assign_lastEquationSolved 126 ;;
  oc_latch_eqFunction_127 ;; assign_lastEquationSolved 127 ;;
  oc_latch_eqFunction_128 ;; assign_lastEquationSolved 128 ;;
  oc_latch_eqFunction_129 ;; assign_lastEquationSolved 129 ;;
  oc_latch_eqFunction_130 ;; assign_lastEquationSolved 130 ;;
  oc_latch_eqFunction_131 ;; assign_lastEquationSolved 131 ;;
  oc_latch_eqFunction_132 ;; assign_lastEquationSolved 132 ;;
  oc_latch_eqFunction_133 ;; assign_lastEquationSolved 133 ;;
  oc_latch_eqFunction_134 ;; assign_lastEquationSolved 134 ;;
  oc_latch_eqFunction_135 ;; assign_lastEquationSolved 135 ;;
  oc_latch_eqFunction_136 ;; assign_lastEquationSolved 136 ;;
  oc_latch_eqFunction_137 ;; assign_lastEquationSolved 137 ;;
  oc_latch_eqFunction_138 ;; assign_lastEquationSolved 138 ;;
  oc_latch_eqFunction_139 ;; assign_lastEquationSolved 139 ;;
  ret tt.

(* %v% = pre(%v%) *)
Definition oc_latch_function_savePreSynchronous : M real unit := ret tt.

Definition oc_latch_functionAlgebraics : M real Z :=
  (fun w => Ok tt (on_sinfo (fun s =>
     set_callStatistics
       (set_functionAlgebraics (functionAlgebraics (callStatistics s) + 1)%Z (callStatistics s)) s) w)) ;;
  oc_latch_function_savePreSynchronous ;;
  functionAlg_system0 ;;
  ret 0%Z.

(** *** The discrete pass ([oc_latch.c]) *)

Definition oc_latch_functionLocalKnownVars : M real Z := ret 0%Z.

Definition oc_latch_functionDAE : M real Z :=
  assign_needToIterate false ;;
  assign_discreteCall true ;;
  oc_latch_functionLocalKnownVars ;;
  oc_latch_eqFunction_89 ;;
  oc_latch_eqFunction_90 ;;
  oc_latch_eqFunction_91 ;;
  oc_latch_eqFunction_98 ;;
  oc_latch_eqFunction_99 ;;
  oc_latch_eqFunction_100 ;;
  oc_latch_eqFunction_101 ;;
  oc_latch_eqFunction_102 ;;
  oc_latch_eqFunction_103 ;;
  oc_latch_eqFunction_104 ;;
  oc_latch_eqFunction_105 ;;
  oc_latch_eqFunction_106 ;;
  oc_latch_eqFunction_107 ;;
  oc_latch_eqFunction_108 ;;
  oc_latch_eqFunction_109 ;;
  oc_latch_eqFunction_110 ;;
  oc_latch_eqFunction_111 ;;
  oc_latch_eqFunction_112 ;;
  oc_latch_eqFunction_113 ;;
  oc_latch_eqFunction_114 ;;
  oc_latch_eqFunction_121 ;;
  oc_latch_eqFunction_122 ;;
  oc_latch_eqFunction_123 ;;
  oc_latch_eqFunction_124 ;;
  oc_latch_eqFunction_125 ;;
  oc_latch_eqFunction_126 ;;
  oc_latch_eqFunction_127 ;;
  oc_latch_eqFunction_128 ;;
  oc_latch_eqFunction_129 ;;
  oc_latch_eqFunction_130 ;;
  oc_latch_eqFunction_131 ;;
  oc_latch_eqFunction_132 ;;
  oc_latch_eqFunction_133 ;;
  oc_latch_eqFunction_139 ;;
  oc_latch_eqFunction_138 ;;
  oc_latch_eqFunction_137 ;;
  oc_latch_eqFunction_136 ;;
  oc_latch_eqFunction_135 ;;
  oc_latch_eqFunction_134 ;;
  assign_discreteCall false ;;
  ret 0%Z.

(** *** Events ([oc_latch_05evt.c]) *)

Definition oc_latch_function_ZeroCrossingsEquations : M real Z :=
  (fun w => Ok tt (on_sinfo (fun s =>
         set_callStatistics
           (set_functionZeroCrossingsEquations
              (functionZeroCrossingsEquations (callStatistics s) + 1)%Z (callStatistics s)) s) w)) ;;
  oc_latch_eqFunction_89 ;;
  oc_latch_eqFunction_98 ;;
  oc_latch_eqFunction_105 ;;
  oc_latch_eqFunction_107 ;;
  oc_latch_eqFunction_109 ;;
  oc_latch_eqFunction_110 ;;
  oc_latch_eqFunction_121 ;;
  oc_latch_eqFunction_123 ;;
  oc_latch_eqFunction_124 ;;
  ret 0%Z.


(** [gout] is the caller's indicator array; the timers behind
    [measure_time_flag] are the runtime's and touch nothing here. *)
Definition oc_latch_function_ZeroCrossings (gout : array real) : M real (Z * array real) :=
  (fun w => Ok tt (on_sinfo (fun s =>
     set_callStatistics
       (set_functionZeroCrossings
          (functionZeroCrossings (callStatistics s) + 1)%Z (callStatistics s)) s) w)) ;;
  fun w =>
    let stored := storedRelations (sinfo w) in
    let tmp0 := GreaterEqZC (rv w 36) (rp w 32) (stored 0%nat) in
    let gout := upd gout 0 (rofZ (if tmp0 then 1 else -1)) in
    let tmp1 := GreaterEqZC (rv w 38) (rp w 33) (stored 1%nat) in
    let gout := upd gout 1 (rofZ (if tmp1 then 1 else -1)) in
    let tmp2 := LessEqZC (time w) (rlit Lit_0_1) (stored 2%nat) in
    let tmp3 := GreaterEqZC (time w) (rlit Lit_0_9) (stored 3%nat) in
    let gout := upd gout 2 (rofZ (if tmp2 || tmp3 then 1 else -1)) in
    let tmp4 := GreaterEqZC (time w) (rlit Lit_0_95) (stored 4%nat) in
    let tmp5 := LessEqZC (time w) (rlit Lit_0_96) (stored 5%nat) in
    let gout := upd gout 3 (rofZ (if tmp4 && tmp5 then 1 else -1)) in
    let tmp6 := GreaterEqZC (time w) (rvPre w 56) (stored 6%nat) in
    let gout := upd gout 4 (rofZ (if tmp6 then 1 else -1)) in
    Ok (0%Z, gout) w.

Definition oc_latch_function_updateRelations (evalforZeroCross : bool) : M real Z :=
  fun w =>
    let stored := storedRelations (sinfo w) in
    (if evalforZeroCross
     then
       assign_relation 0 (GreaterEqZC (rv w 36) (rp w 32) (stored 0%nat)) ;;
       assign_relation 1 (GreaterEqZC (rv w 38) (rp w 33) (stored 1%nat)) ;;
       assign_relation 2 (LessEqZC (time w) (rlit Lit_0_1) (stored 2%nat)) ;;
       assign_relation 3 (GreaterEqZC (time w) (rlit Lit_0_9) (stored 3%nat)) ;;
       assign_relation 4 (GreaterEqZC (time w) (rlit Lit_0_95) (stored 4%nat)) ;;
       assign_relation 5 (LessEqZC (time w) (rlit Lit_0_96) (stored 5%nat)) ;;
       assign_relation 6 (GreaterEqZC (time w) (rvPre w 56) (stored 6%nat)) ;;
       ret 0%Z
     else
       assign_relation 0 (rleb (rp w 32) (rv w 36)) ;;
       assign_relation 1 (rleb (rp w 33) (rv w 38)) ;;
       assign_relation 2 (rleb (time w) (rlit Lit_0_1)) ;;
       assign_relation 3 (rleb (rlit Lit_0_9) (time w)) ;;
       assign_relation 4 (rleb (rlit Lit_0_95) (time w)) ;;
       assign_relation 5 (rleb (time w) (rlit Lit_0_96)) ;;
       assign_relation 6 (rleb (rvPre w 56) (time w)) ;;
       ret 0%Z) w.

End Callbacks.

(** ** A runtime to run the callbacks on binary64

    Comparisons with the runtime's relative tolerance, a one-step Newton
    solver (exact for a linear residual up to rounding), and a table that
    holds the value 0.5 and has no further event. *)

Definition tolZC : float := 1e-10%float.

Definition sample_LessZC (a b : float) (direction : bool) : bool :=
  let m := if PrimFloat.ltb (PrimFloat.abs a) (PrimFloat.abs b)
           then PrimFloat.abs b else PrimFloat.abs a in
  let eps := (tolZC * m + tolZC)%float in
  if direction then PrimFloat.leb (a - b) eps else PrimFloat.leb (a - b) (- eps).

Definition sample_GreaterZC (a b : float) (direction : bool) : bool :=
  let m := if PrimFloat.ltb (PrimFloat.abs a) (PrimFloat.abs b)
           then PrimFloat.abs b else PrimFloat.abs a in
  let eps := (tolZC * m + tolZC)%float in
  if direction then PrimFloat.leb (- eps) (a - b) else PrimFloat.leb eps (a - b).

Definition sample_relationhysteresis (initial discreteCall solveContinuous : bool)
    (relationsPre storedRelations : array bool) (exp1 exp2 : float)
    (index : nat) (op : relop) : bool * option bool :=
  if initial
  then let res := match op with
                  | RelGreaterEq => PrimFloat.leb exp2 exp1
                  | RelLessEq => PrimFloat.leb exp1 exp2
                  end in
       (res, Some res)
  else if negb discreteCall || solveContinuous
  then (relationsPre index, None)
  else let res := match op with
                  | RelGreaterEq => negb (sample_LessZC exp1 exp2 (negb (storedRelations index)))
                  | RelLessEq => negb (sample_GreaterZC exp1 exp2 (negb (storedRelations index)))
                  end in
       (res, Some res).

Definition newton_step (sysNumber : nat) (residual : float -> option float)
    (entry : option float) (x0 : float) : Z * float * list float :=
  match residual x0, entry with
  | Some r0, Some a =>
      if PrimFloat.eqb a 0%float then (1%Z, x0, [x0])
      else let x1 := (x0 - r0 / a)%float in (0%Z, x1, [x0; x1])
  | _, _ => (1%Z, x0, [x0])
  end.

#[export] Instance sample_runtime : Runtime float := {|
  division_error := fun _ _ _ => ExtThrow "division by zero";
  division_error_sim := fun noThrow _ t a b msg indexes =>
    if noThrow then ExtRet (a / b)%float
    else ExtThrow "division by zero";
  GreaterEqZC := fun a b d => negb (sample_LessZC a b (negb d));
  LessEqZC := fun a b d => negb (sample_GreaterZC a b (negb d));
  relationhysteresis_rt := sample_relationhysteresis;
  linear_solver := newton_step;
  omc_Modelica_Blocks_Tables_Internal_getNextTimeEvent := fun _ _ => ExtRet 1e60%float;
  omc_Modelica_Blocks_Tables_Internal_getTimeTableValueNoDer :=
    fun _ _ _ _ _ => ExtRet 0.5%float;
  omc_Modelica_Blocks_Tables_Internal_getTimeTableTmax := fun _ => ExtRet 1%float;
  omc_Modelica_Blocks_Tables_Internal_getTimeTableTmin := fun _ => ExtRet 0%float;
  omc_Modelica_Blocks_Types_ExternalCombiTimeTable_constructor :=
    fun _ _ _ _ _ _ _ _ _ _ => ExtRet 1%Z;
  modelica_real_to_modelica_string_format := fun _ _ => "<real>";
  modelica_integer_to_modelica_string_format := fun _ _ => "<integer>"
|}.

(** A world for the sample runtime: every resistor has 10 Ohm, the source
    1 V; [alpha3] is [resistor3.alpha], with [resistor3.T = 2] and
    [resistor3.T_ref = 0]; [asserts] is [noThrowAsserts]; the time is [t]. *)
Definition sample_world (t alpha3 : float) (asserts : bool) : World float :=
  {| data :=
       {| localData0 :=
            {| timeValue := t;
               realVars := fun i =>
                 match i with
                 | 1 | 4 | 40 | 44 | 48 | 51 => 10%float
                 | 23 | 30 => 10000%float
                 | 24 | 31 => 2%float
                 | _ => 0%float
                 end;
               booleanVars := fun _ => false |};
          localData1 :=
            {| timeValue := t;
               realVars := fun _ => 0%float;
               booleanVars := fun _ => false |};
          simulationInfo :=
            {| realVarsPre := fun _ => 0%float;
               booleanVarsPre := fun _ => false;
               realParameter := fun i =>
                 match i with
                 | 0 | 6 | 38 | 44 | 50 | 56 => 10%float
                 | 28 | 29 => 1%float
                 | 34 | 36 => 10000%float
                 | 57 => 2%float
                 | 60 => alpha3
                 | _ => 0%float
                 end;
               integerParameter := fun i =>
                 match i with 0 => 2%Z | 2 => 1%Z | 3 => 3%Z | _ => 1%Z end;
               booleanParameter := fun _ => false;
               relations := fun _ => false;
               relationsPre := fun _ => false;
               storedRelations := fun _ => false;
               extObjs := fun _ => 1%Z;
               initial_ := false;
               discreteCall := false;
               solveContinuous := false;
               needToIterate := false;
               noThrowAsserts := asserts;
               noThrowDivZero := false;
               needToReThrow := false;
               callStatistics :=
                 {| functionODE := 0; functionAlgebraics := 0;
                    functionZeroCrossingsEquations := 0; functionZeroCrossings := 0 |} |};
          modelData :=
            {| realVarsData_time_unvarying := fun _ => false;
               realParameterData_time_unvarying := fun _ => false;
               integerParameterData_time_unvarying := fun _ => false;
               booleanParameterData_time_unvarying := fun _ => false |} |};
     threadData := {| lastEquationSolved := 0 |};
     jacobian :=
       {| seedVars := fun _ => 1%float;
          tmpVars := fun _ => 0%float;
          resultVars := fun _ => 0%float |};
     warned := fun _ => false;
     useStream := fun _ => true;
     log := [] |}.

(** The world the bound-parameter pass leaves, and the world the
    initialization leaves after it: the stores a run starts from. *)
Definition bounded (w : World float) : World float :=
  final (oc_latch_updateBoundParameters w).

Definition started (w : World float) : World float :=
  final (oc_latch_functionInitialEquations (bounded w)).

(** The sample world with the parameters [R1.R = r1] and [R2.R = r2]. *)
Definition resistor_world (r1 r2 : float) : World float :=
  on_sinfo (fun s => set_realParameter (upd (upd (realParameter s) 0 r1) 6 r2) s)
    (sample_world 0 0 false).

(** A runtime over the real numbers: exact quotients, plain comparisons,
    one Newton step, the same table; and the world of the series divider
    ([R1.R_actual = R2.R_actual = 10], [constantVoltage.V = 1], unit seed). *)




(** ** What the properties are stated with *)


(** The world after a residual callback has written the trial value [x]
    to the torn unknown and recomputed its two local constraints. *)
Definition after_residual {real} (w : World real)
    (torn : nat) (x : real) (i1 : nat) (v1 : real) (i2 : nat) (v2 : real) : World real :=
  on_localData0
    (fun d => set_realVars (upd (upd (upd (realVars d) torn x) i1 v1) i2 v2) d) w.

(** A column function that writes [tmpVars[0]], [tmpVars[1]] and
    [resultVars[0]] of the Jacobian it is handed, and nothing else,
    whether it returns or throws. *)
Definition writes_only_side_buffers {real} (column : M real Z) : Prop :=
  forall w : World real,
    let w' := final (column w) in
    data w' = data w /\
    threadData w' = threadData w /\
    warned w' = warned w /\
    useStream w' = useStream w /\
    log w' = log w /\
    seedVars (jacobian w') = seedVars (jacobian w) /\
    (forall i, (2 <= i)%nat -> tmpVars (jacobian w') i = tmpVars (jacobian w) i) /\
    (forall i, (1 <= i)%nat -> resultVars (jacobian w') i = resultVars (jacobian w) i).

(** The world after the assignment [data->localData[0]->realVars[i] = v]. *)
Definition with_rv {real} (i : nat) (v : real) (w : World real) : World real :=
  on_localData0 (fun d => set_realVars (upd (realVars d) i v) d) w.

(** Worlds that differ at most in [data->localData[0]->realVars]. *)
Definition same_but_realVars {real} (w w' : World real) : Prop :=
  exists rvs, w' = on_localData0 (set_realVars rvs) w.

(** The world in which a [type: LINEAR] equation calls the solver: the one
    it was entered in, with the two LOG_DT entries when that stream is
    active. *)
Definition announced {real} (equation : string) (w : World real) : World real :=
  if ACTIVE_STREAM w LOG_DT
  then set_log (log w ++ [infoStreamPrint LOG_DT 1 (solving_format equation)
                            [ArgReal (time w)];
                          messageClose LOG_DT]) w
  else w.

(** What a [type: LINEAR] equation does with the solver's return value:
    [w1] is the world the solver returns in, [x] what it left in [aux_x]. *)
Definition solver_failure_is_fatal {real} {AR : Arith real} {RT : Runtime real}
    (equation : M real unit) (index : Z) (name : string) (sysNumber var : nat) : Prop :=
  forall (w w1 : World real) (retValue : Z) (x : real),
    solve_linear_system sysNumber (rv_old w var) (announced name w) = Ok (retValue, x) w1 ->
    time w1 = time w /\
    ((0 < retValue)%Z ->
       equation w =
         Throw (throwStreamPrintWithEquationIndexes [1; index]%Z
                  (failed_format name) [ArgReal (time w)]) w1) /\
    ((retValue <= 0)%Z ->
       equation w = Ok tt (with_rv var x w1) /\ rv (with_rv var x w1) var = x).


(** The relations as [oc_latch_function_updateRelations] evaluates them
    with hysteresis, and the zero-crossing [i] built from them (in the
    order of [oc_latch_zeroCrossingDescription]). *)
Definition current_relations {real} {AR : Arith real} {RT : Runtime real}
    (w : World real) : array bool :=
  relations (sinfo (final (oc_latch_function_updateRelations true w))).

Definition zero_crossing {real} {AR : Arith real} {RT : Runtime real}
    (w : World real) (i : nat) : bool :=
  let r := current_relations w in
  match i with
  | 0 => r 0%nat                    (* potentialSensor.phi >= greaterEqualThreshold.threshold *)
  | 1 => r 1%nat                    (* potentialSensor1.phi >= greaterEqualThreshold1.threshold *)
  | 2 => r 2%nat || r 3%nat         (* time <= 0.1 or time >= 0.9 *)
  | 3 => r 4%nat && r 5%nat         (* time >= 0.95 and time <= 0.96 *)
  | _ => r 6%nat                    (* time >= pre(combiTimeTable.nextTimeEvent) *)
  end.

(** The world after [callStatistics.functionZeroCrossings++]. *)
Definition count_ZeroCrossings {real} (w : World real) : World real :=
  on_sinfo (fun s => set_callStatistics
     (set_functionZeroCrossings
        (functionZeroCrossings (callStatistics s) + 1)%Z (callStatistics s)) s) w.

(** ** Assertions, spec side *)


(** The temperature assertions [1.0 + alpha * (T - T_ref) >= 1e-15] of the
    six resistors, each with the parameters [alpha], [T], [T_ref] it
    reads: as algorithm equations and as initial equations. *)
Definition algorithm_assertions {real} {AR : Arith real} :
    list (nat * nat * nat * M real unit) :=
  [(60%nat, 57%nat, 59%nat, oc_latch_eqFunction_139);
   (54%nat, 51%nat, 53%nat, oc_latch_eqFunction_138);
   (48%nat, 45%nat, 47%nat, oc_latch_eqFunction_137);
   (42%nat, 39%nat, 41%nat, oc_latch_eqFunction_136);
   (10%nat, 7%nat, 9%nat, oc_latch_eqFunction_135);
   (4%nat, 1%nat, 3%nat, oc_latch_eqFunction_134)].


Definition temperature_in_scope {real} {AR : Arith real} (w : World real) (alpha T T_ref : nat) : bool :=
  GreaterEq (rlit Lit_1 + rp w alpha * (rp w T - rp w T_ref))%r (rlit Lit_1em15).





(** [m] keeps [P], and throws only diagnostics in [E]. *)
Definition preserves {real A} (P : World real -> Prop) (E : Diag real -> Prop)
    (m : M real A) : Prop :=
  forall w, P w ->
    match m w with
    | Ok _ w' => P w'
    | Throw d w' => P w' /\ E d
    end.


(** ** The continuous pass by its values *)

Section ContinuousPassValues.
Context {real : Type} {AR : Arith real} {RT : Runtime real}.
Local Open Scope real_scope.

(** The value of [DIVISION_SIM(a, b, msg, equation)] under the flags
    [noThrowDivZero], [initial()] and the time it is evaluated at. *)
Definition quotient_sim (noThrow init : bool) (t a b : real) (msg : string)
    (equationIndexes : list Z) : ext_result real :=
  if reqb b (rlit Lit_0)
  then division_error_sim noThrow init t a b msg equationIndexes
  else ExtRet (a / b).

(** [relations] after [relationhysteresis] has stored, or not, at [index]. *)
Definition store_opt (a : array bool) (index : nat) (stored : option bool) : array bool :=
  match stored with
  | Some b => upd a index b
  | None => a
  end.

(** The world after an assertion of level error that did not throw. *)
Definition after_assert_error (equationIndexes : list Z) (condition : bool)
    (text message : string) (w : World real) : World real :=
  on_sinfo (fun s => set_needToReThrow (negb condition || needToReThrow s) s)
    (set_log (log w ++
              (if negb condition
               then [infoStreamPrintWithEquationIndexes LOG_ASSERT 0 equationIndexes
                       (violated_format text) (violated_args w);
                     infoStreamPrint LOG_ASSERT 0 "%s" [ArgString message]]
               else []))%list w).

(** The log after the announcement of a [type: LINEAR] equation. *)
Definition announced_log (equation : string) (w : World real) : list (LogEvent real) :=
  (log w ++ (if ACTIVE_STREAM w LOG_DT
             then [infoStreamPrint LOG_DT 1 (solving_format equation) [ArgReal (time w)];
                   messageClose LOG_DT]
             else []))%list.

(** System 98 by its inputs: the quotient of equation 92, the residual,
    the Jacobian entry, the trial values the callback survives and what
    the last of them leaves in the store. *)
Definition quotient92 (noThrow init : bool) (t r48 x : real) : ext_result real :=
  quotient_sim noThrow init t x r48 "resistor2.R_actual" [1; 92]%Z.

Definition residual98_of (noThrow init : bool) (t V r48 r51 : real) (x : real) : option real :=
  match quotient92 noThrow init t r48 x with
  | ExtRet q => Some (V + (- (r51 * q)) - x)
  | ExtThrow _ => None
  end.

Definition entry98_of (r48 r51 : real) : option real :=
  match (if reqb r48 (rlit Lit_0)
         then division_error (rlit Lit_1) r48 "resistor2.R_actual"
         else ExtRet (rlit Lit_1 / r48)) with
  | ExtRet q => Some ((- (r51 * q)) - rlit Lit_1)
  | ExtThrow _ => None
  end.

Fixpoint last_quotient (divide : real -> ext_result real) (trials : list real)
    (acc : option (real * real)) : option (option (real * real)) :=
  match trials with
  | [] => Some acc
  | x :: rest =>
      match divide x with
      | ExtRet q => last_quotient divide rest (Some (x, q))
      | ExtThrow _ => None
      end
  end.

Definition after_trials98 (last : option (real * real)) (w : World real) : World real :=
  match last with
  | None => w
  | Some (x, q) => after_residual w 49 x 52 q 53 (rv w 51 * q)
  end.

(** What equation 98 computes from its inputs: the solution and the last
    trial, unless the solver fails or a trial throws. *)
Definition solve98 (noThrow init : bool) (t V r48 r51 x0 : real) :
    option (real * option (real * real)) :=
  let '(retValue, x, trials) :=
    linear_solver 2 (residual98_of noThrow init t V r48 r51) (entry98_of r48 r51) x0 in
  match last_quotient (quotient92 noThrow init t r48) trials None with
  | Some last => if (retValue >? 0)%Z then None else Some (x, last)
  | None => None
  end.

(** System 121 by its inputs. *)
Definition residual121_of (V r1 r4 : real) (x : real) : option real :=
  Some (V + (- (r4 * x)) - r1 * x).

Definition entry121_of (r1 r4 : real) : option real :=
  Some ((- (r4 * rlit Lit_1)) - r1 * rlit Lit_1).

Definition after_trials121 (last : option real) (w : World real) : World real :=
  match last with
  | None => w
  | Some x => after_residual w 5 x 2 (rv w 1 * x) 6 (rv w 4 * x)
  end.

Definition solve121 (V r1 r4 x0 : real) : option (real * option real) :=
  let '(retValue, x, trials) :=
    linear_solver 3 (residual121_of V r1 r4) (entry121_of r1 r4) x0 in
  if (retValue >? 0)%Z then None
  else Some (x, fold_left (fun _ x => Some x) trials None).

End ContinuousPassValues.

(** ** The callbacks of the linear systems by their outcome *)

Section Outcomes.
Context {real : Type} {AR : Arith real} {RT : Runtime real}.
Local Open Scope real_scope.




(** A residual callback that divides the trial value by
    [realVars[divisor]]: it writes the trial value to the torn unknown
    first; with the quotient [q] it returns having written [q] and
    [realVars[factor] * q] too; when the division throws it throws with
    it, the torn unknown written. *)
Definition residual_divides (f : array real -> array real -> M real (array real))
    (torn i1 i2 divisor factor : nat) (msg : string) (indexes : list Z)
    (residual : World real -> real -> real -> real) : Prop :=
  forall (w : World real) (xloc res : array real),
    f xloc res w =
    match quotient_sim (noThrowDivZero (sinfo w)) (initial w) (time w)
            (xloc 0%nat) (rv w divisor) msg indexes with
    | ExtRet q => Ok (upd res 0 (residual w (xloc 0%nat) (rv w factor * q)))
                     (after_residual w torn (xloc 0%nat) i1 q i2 (rv w factor * q))
    | ExtThrow what => Throw (runtime_error what) (with_rv torn (xloc 0%nat) w)
    end.
End Outcomes.

(** Worlds that differ at most in the log. *)
Definition same_but_log {real} (w w' : World real) : Prop :=
  data w' = data w /\ threadData w' = threadData w /\ jacobian w' = jacobian w /\
  warned w' = warned w /\ useStream w' = useStream w.

(** The pre-value arrays of a world. *)
Definition pre_values {real} (w : World real) : array real * array bool :=
  (realVarsPre (sinfo w), booleanVarsPre (sinfo w)).

(** The world after [callStatistics.functionAlgebraics++]. *)
Definition count_Algebraics {real} (w : World real) : World real :=
  on_sinfo (fun s => set_callStatistics
     (set_functionAlgebraics
        (functionAlgebraics (callStatistics s) + 1)%Z (callStatistics s)) s) w.

(** [m] does not look at what [g] changes: where it returns from [w], it
    returns the same from [g w], in the world changed by [g]. *)
Definition tracks {real A} (g : World real -> World real) (m : M real A) : Prop :=
  forall w a w', m w = Ok a w' -> m (g w) = Ok a (g w').

(** The variables of a world: the current values, the pre-values, the
    parameters and the relations. *)
Definition variable_store {real} (w : World real) :=
  (localData0 (data w), pre_values w,
   (realParameter (sinfo w), integerParameter (sinfo w), booleanParameter (sinfo w)),
   relations (sinfo w)).

(** ** What the further properties are stated with *)

(** [oc_latch_functionODE]: the model has no ODE system. *)
Definition oc_latch_functionODE {real} : M real Z :=
  (fun w => Ok tt (on_sinfo (fun s =>
     set_callStatistics
       (set_functionODE (functionODE (callStatistics s) + 1)%Z (callStatistics s)) s) w)) ;;
  oc_latch_functionLocalKnownVars ;;
  ret 0%Z.

(** What only the bound-parameter pass may write: the parameters, the
    external objects and the assertion latches. *)
Definition parameters {real} (w : World real) :=
  (realParameter (sinfo w), integerParameter (sinfo w), booleanParameter (sinfo w),
   extObjs (sinfo w), warned w).

(** The memory of the event machinery: the pre-values and the relations
    of the last accepted step. *)
Definition event_memory {real} (w : World real) :=
  (realVarsPre (sinfo w), booleanVarsPre (sinfo w),
   relationsPre (sinfo w), storedRelations (sinfo w)).

(** From [P], [m] returns in [Q] or throws in [T]. *)
Definition hoare {real A} (P : World real -> Prop) (m : M real A)
    (Q : A -> World real -> Prop) (T : World real -> Prop) : Prop :=
  forall w, P w ->
    match m w with
    | Ok a w' => Q a w'
    | Throw _ w' => T w'
    end.

(** What [oc_latch_setupDataStruc] assigns to [data->modelData]: the
    names, and the counts the runtime sizes its arrays by.  (The callback
    table, the resource mapping and the embedded XML are the runtime's.) *)
Record MODEL_DATA_SETUP : Type := {
  modelName : string;
  modelFilePrefix : string;
  modelDir : string;
  modelGUID : string;
  runTestsuite : Z;
  nStates : Z;
  nVariablesReal : Z;
  nDiscreteReal : Z;
  nVariablesInteger : Z;
  nVariablesBoolean : Z;
  nVariablesString : Z;
  nParametersReal : Z;
  nParametersInteger : Z;
  nParametersBoolean : Z;
  nParametersString : Z;
  nInputVars : Z;
  nOutputVars : Z;
  nAliasReal : Z;
  nAliasInteger : Z;
  nAliasBoolean : Z;
  nAliasString : Z;
  nZeroCrossings : Z;
  nSamples : Z;
  nRelations : Z;
  nMathEvents : Z;
  nExtObjs : Z;
  modelDataXml_fileName : string;
  modelDataXml_modelInfoXmlLength : Z;
  modelDataXml_nFunctions : Z;
  modelDataXml_nProfileBlocks : Z;
  modelDataXml_nEquations : Z;
  nMixedSystems : Z;
  nLinearSystems : Z;
  nNonLinearSystems : Z;
  nStateSets : Z;
  nJacobians : Z;
  nOptimizeConstraints : Z;
  nOptimizeFinalConstraints : Z;
  nDelayExpressions : Z;
  nBaseClocks : Z;
  nSpatialDistributions : Z;
  nSensitivityVars : Z;
  nSensitivityParamVars : Z;
  nSetcVars : Z;
  ndataReconVars : Z
}.

Definition oc_latch_setupDataStruc : MODEL_DATA_SETUP := {|
  modelName := "oc_latch";
  modelFilePrefix := "oc_latch";
  modelDir := "C:/Users/Trista Arinomo/Desktop";
  modelGUID := "{0bd7ea97-3ec1-4ce3-9bdb-fdce290ea4a0}";
  runTestsuite := 0;
  nStates := 0;
  nVariablesReal := 58;
  nDiscreteReal := 2;
  nVariablesInteger := 0;
  nVariablesBoolean := 12;
  nVariablesString := 0;
  nParametersReal := 61;
  nParametersInteger := 5;
  nParametersBoolean := 11;
  nParametersString := 2;
  nInputVars := 0;
  nOutputVars := 0;
  nAliasReal := 50;
  nAliasInteger := 0;
  nAliasBoolean := 13;
  nAliasString := 0;
  nZeroCrossings := 5;
  nSamples := 0;
  nRelations := 7;
  nMathEvents := 0;
  nExtObjs := 1;
  modelDataXml_fileName := "oc_latch_info.json";
  modelDataXml_modelInfoXmlLength := 0;
  modelDataXml_nFunctions := 6;
  modelDataXml_nProfileBlocks := 0;
  modelDataXml_nEquations := 240;
  nMixedSystems := 0;
  nLinearSystems := 4;
  nNonLinearSystems := 0;
  nStateSets := 0;
  nJacobians := 9;
  nOptimizeConstraints := 0;
  nOptimizeFinalConstraints := 0;
  nDelayExpressions := 0;
  nBaseClocks := 0;
  nSpatialDistributions := 0;
  nSensitivityVars := 0;
  nSensitivityParamVars := 0;
  nSetcVars := 0;
  ndataReconVars := 0
|}.

(** Two arrays that agree from index [n] on. *)
Definition beyond {T} (n : Z) (a b : array T) : Prop :=
  forall i : nat, (n <= Z.of_nat i)%Z -> a i = b i.

(** World [w] differs from [w0] only inside the arrays as
    [oc_latch_setupDataStruc] sizes them. *)
Definition within_sizes {real} (w0 w : World real) : Prop :=
  let n := oc_latch_setupDataStruc in
  beyond (nVariablesReal n) (realVars (localData0 (data w))) (realVars (localData0 (data w0))) /\
  beyond (nVariablesBoolean n) (booleanVars (localData0 (data w)))
         (booleanVars (localData0 (data w0))) /\
  beyond (nVariablesReal n) (realVarsPre (sinfo w)) (realVarsPre (sinfo w0)) /\
  beyond (nVariablesBoolean n) (booleanVarsPre (sinfo w)) (booleanVarsPre (sinfo w0)) /\
  beyond (nParametersReal n) (realParameter (sinfo w)) (realParameter (sinfo w0)) /\
  beyond (nParametersInteger n) (integerParameter (sinfo w)) (integerParameter (sinfo w0)) /\
  beyond (nParametersBoolean n) (booleanParameter (sinfo w)) (booleanParameter (sinfo w0)) /\
  beyond (nRelations n) (relations (sinfo w)) (relations (sinfo w0)) /\
  beyond (nExtObjs n) (extObjs (sinfo w)) (extObjs (sinfo w0)) /\
  beyond (nVariablesReal n) (realVarsData_time_unvarying (modelData (data w)))
         (realVarsData_time_unvarying (modelData (data w0))) /\
  beyond (nParametersReal n) (realParameterData_time_unvarying (modelData (data w)))
         (realParameterData_time_unvarying (modelData (data w0))) /\
  beyond (nParametersInteger n) (integerParameterData_time_unvarying (modelData (data w)))
         (integerParameterData_time_unvarying (modelData (data w0))) /\
  beyond (nParametersBoolean n) (booleanParameterData_time_unvarying (modelData (data w)))
         (booleanParameterData_time_unvarying (modelData (data w0))).

(** A counter that [++] cannot overflow: [callStatistics] counts in C
    [long], which has 32 bits or more. *)
Definition can_count (n : Z) : bool := ((0 <=? n) && (n <? 2147483647))%Z.

(** The six temperature assertions hold on the parameters of [w]. *)
Definition temperatures_in_scope {real} {AR : Arith real} (w : World real) : bool :=
  forallb (fun af => temperature_in_scope w (fst (fst (fst af))) (snd (fst (fst af)))
                       (snd (fst af)))
          algorithm_assertions.

(** The variables [oc_latch_function_ZeroCrossingsEquations] assigns. *)
Definition zero_crossing_variables : list nat :=
  [49; 52; 53; 9; 10; 34; 38; 5; 2; 6; 27; 36]%nat.

(** * Properties *)

(** ** Arrays and real arithmetic *)

Lemma upd_same {T} (a : array T) i v : upd a i v i = v.
Proof. unfold upd. now rewrite Nat.eqb_refl. Qed.

Lemma upd_other {T} (a : array T) i j v : i <> j -> upd a i v j = a j.
Proof. intros H. unfold upd. destruct (Nat.eqb_spec j i); congruence. Qed.


Lemma Reqb_true (a b : R) : a = b -> Reqb a b = true.
Proof. intros H. unfold Reqb. destruct (Req_dec_T a b); [reflexivity | contradiction]. Qed.


Ltac unfold_store := unfold rv, rp, bv, rvPre, bvPre, rv_old, ip, bp, time, seed, tmp, sinfo in *.

(** ** Jacobian columns *)

Ltac column_frame :=
  intros w; destruct w as [d td j wd us lg];
  cbv [oc_latch_functionJacLSJac0_column oc_latch_functionJacLSJac1_column
       oc_latch_functionJacLSJac2_column oc_latch_functionJacLSJac3_column
       oc_latch_eqFunction_20 oc_latch_eqFunction_21 oc_latch_eqFunction_22
       oc_latch_eqFunction_30 oc_latch_eqFunction_31 oc_latch_eqFunction_32
       oc_latch_eqFunction_95 oc_latch_eqFunction_96 oc_latch_eqFunction_97
       oc_latch_eqFunction_118 oc_latch_eqFunction_119 oc_latch_eqFunction_120
       DIVISION bind ret call];
  repeat match goal with
         | |- context [if ?c then _ else _] => destruct c
         | |- context [match ?r with ExtRet _ => _ | ExtThrow _ => _ end] => destruct r
         end;
  cbn; repeat split; intros; try reflexivity;
  repeat (rewrite upd_other by lia); reflexivity.

(** C7. Each of the four Jacobian column functions, whether it returns or
    throws, leaves [data] (realVars, booleanVars, the pre-value arrays, the
    parameters, every other field), [threadData], the assertion latches and
    the log as they were; of the Jacobian it is handed it changes only
    [tmpVars[0]], [tmpVars[1]] and [resultVars[0]]. *)
Theorem jacobian_columns_write_only_side_buffers :
  forall real (AR : Arith real) (RT : Runtime real),
    writes_only_side_buffers oc_latch_functionJacLSJac0_column /\
    writes_only_side_buffers oc_latch_functionJacLSJac1_column /\
    writes_only_side_buffers oc_latch_functionJacLSJac2_column /\
    writes_only_side_buffers oc_latch_functionJacLSJac3_column.
Proof.
  intros real AR RT. repeat apply conj.
  all: column_frame.
Qed.

Ltac column_run :=
  cbv [oc_latch_functionJacLSJac0_column oc_latch_functionJacLSJac1_column
       oc_latch_functionJacLSJac2_column oc_latch_functionJacLSJac3_column
       oc_latch_eqFunction_20 oc_latch_eqFunction_21 oc_latch_eqFunction_22
       oc_latch_eqFunction_30 oc_latch_eqFunction_31 oc_latch_eqFunction_32
       oc_latch_eqFunction_95 oc_latch_eqFunction_96 oc_latch_eqFunction_97
       oc_latch_eqFunction_118 oc_latch_eqFunction_119 oc_latch_eqFunction_120
       DIVISION bind ret call assign_tmpVars assign_resultVars].

Ltac residual_run :=
  cbv [residualFunc121 residualFunc98 residualFunc33 residualFunc23
       oc_latch_eqFunction_115 oc_latch_eqFunction_116
       oc_latch_eqFunction_92 oc_latch_eqFunction_93
       oc_latch_eqFunction_27 oc_latch_eqFunction_28
       oc_latch_eqFunction_17 oc_latch_eqFunction_18
       DIVISION_SIM bind ret call assign_rv after_residual].




(** ** Residual callbacks *)




(** C10. A residual callback writes the primary store, in any arithmetic.
    [residualFunc121] returns in the world where [R2.i] holds the trial
    value and [R1.v], [R2.v] the products recomputed from it.
    [residualFunc98], [residualFunc33] and [residualFunc23] write the
    trial value to their torn unknown and divide it by a resistance: with
    the quotient (the plain one where the resistance is not zero) they
    return in the world where the torn unknown and the two local
    constraints hold their new values; when the division throws they
    throw in the world where the torn unknown already holds the trial
    value.  The values written are there to be read back. *)
Theorem residual_callbacks_write_the_store :
  forall real (AR : Arith real) (RT : Runtime real),
    (forall (w : World real) (xloc res : array real),
       residualFunc121 xloc res w =
         Ok (upd res 0 (rp w 29 + (- (rv w 4 * xloc 0%nat)) - rv w 1 * xloc 0%nat)%r)
            (after_residual w 5 (xloc 0%nat) 2 (rv w 1 * xloc 0%nat)%r
                            6 (rv w 4 * xloc 0%nat)%r)) /\
    residual_divides residualFunc98 49 52 53 48 51 "resistor2.R_actual" [1; 92]%Z
      (fun w x v => (rp w 29 + (- v) - x)%r) /\
    residual_divides residualFunc33 53 52 49 51 48 "resistor3.R_actual" [1; 27]%Z
      (fun w x v => (rp w 29 + (- x) - v)%r) /\
    residual_divides residualFunc23 6 5 2 4 1 "R2.R_actual" [1; 17]%Z
      (fun w x v => (rp w 29 + (- x) - v)%r) /\
    (forall noThrow init t (a b : real) msg indexes,
       reqb b (rlit Lit_0) = false ->
       quotient_sim noThrow init t a b msg indexes = ExtRet (a / b)%r) /\
    (forall (w : World real) torn x i1 v1 i2 v2, torn <> i1 -> torn <> i2 -> i1 <> i2 ->
       rv (after_residual w torn x i1 v1 i2 v2) torn = x /\
       rv (after_residual w torn x i1 v1 i2 v2) i1 = v1 /\
       rv (after_residual w torn x i1 v1 i2 v2) i2 = v2) /\
    (forall (w : World real) torn x, rv (with_rv torn x w) torn = x).
Proof.
  intros real AR RT. repeat apply conj.
  - intros w xloc res. destruct w as [[[t rvs bvs] d1 si md] td j wd us lg]. reflexivity.
  - intros w xloc res. destruct w as [[[t rvs bvs] d1 si md] td j wd us lg].
    unfold quotient_sim. residual_run. unfold with_rv, initial. unfold_store. cbn.
    destruct (reqb (rvs 48%nat) (rlit Lit_0)); [ | reflexivity].
    destruct (division_error_sim _ _ _ _ _ _ _); reflexivity.
  - intros w xloc res. destruct w as [[[t rvs bvs] d1 si md] td j wd us lg].
    unfold quotient_sim. residual_run. unfold with_rv, initial. unfold_store. cbn.
    destruct (reqb (rvs 51%nat) (rlit Lit_0)); [ | reflexivity].
    destruct (division_error_sim _ _ _ _ _ _ _); reflexivity.
  - intros w xloc res. destruct w as [[[t rvs bvs] d1 si md] td j wd us lg].
    unfold quotient_sim. residual_run. unfold with_rv, initial. unfold_store. cbn.
    destruct (reqb (rvs 4%nat) (rlit Lit_0)); [ | reflexivity].
    destruct (division_error_sim _ _ _ _ _ _ _); reflexivity.
  - intros noThrow init t a b msg indexes H. unfold quotient_sim. rewrite H. reflexivity.
  - intros w torn x i1 v1 i2 v2 H1 H2 H3.
    destruct w as [[[t rvs bvs] d1 si md] td j wd us lg]. unfold rv. cbn.
    repeat split.
    + rewrite !upd_other by congruence. apply upd_same.
    + rewrite upd_other by congruence. apply upd_same.
    + apply upd_same.
  - intros w torn x. destruct w as [[[t rvs bvs] d1 si md] td j wd us lg].
    unfold rv. cbn. apply upd_same.
Qed.

(** On binary64.  On the sample world (10 Ohm each) the four callbacks at
    the trial value 0.25 return, and the store holds the trial value and
    the two recomputed values.  On the world started with [R2.R = 0] the
    division of [residualFunc23] throws, and the trial value is in the
    store. *)
Lemma residual_callbacks_write_the_store_witness :
  (exists res' w',
     residualFunc121 (fun _ => 0.25%float) (fun _ => 0%float) (sample_world 0 0 false)
       = Ok res' w' /\
     (rv w' 5, rv w' 2, rv w' 6) = (0.25%float, 2.5%float, 2.5%float)) /\
  (exists res' w',
     residualFunc98 (fun _ => 0.25%float) (fun _ => 0%float) (sample_world 0 0 false)
       = Ok res' w' /\
     (rv w' 49, rv w' 52, rv w' 53) = (0.25%float, 0.025%float, 0.25%float)) /\
  (exists res' w',
     residualFunc33 (fun _ => 0.25%float) (fun _ => 0%float) (sample_world 0 0 false)
       = Ok res' w' /\
     (rv w' 53, rv w' 52, rv w' 49) = (0.25%float, 0.025%float, 0.25%float)) /\
  (exists res' w',
     residualFunc23 (fun _ => 0.25%float) (fun _ => 0%float) (sample_world 0 0 false)
       = Ok res' w' /\
     (rv w' 6, rv w' 5, rv w' 2) = (0.25%float, 0.025%float, 0.25%float)) /\
  (rv (started (resistor_world 7 0)) 4 = 0%float /\
   rv (started (resistor_world 7 0)) 6 = 0%float /\
   exists d w',
     residualFunc23 (fun _ => 0.25%float) (fun _ => 0%float) (started (resistor_world 7 0))
       = Throw d w' /\
     rv w' 6 = 0.25%float).
Proof.
  destruct (residual_callbacks_write_the_store float float_arith sample_runtime)
    as (H121 & H98 & H33 & H23 & _).
  repeat apply conj.
  - eexists _, _. split; [apply H121 | vm_compute; reflexivity].
  - eexists _, _. split; [rewrite H98; vm_compute; reflexivity | vm_compute; reflexivity].
  - eexists _, _. split; [rewrite H33; vm_compute; reflexivity | vm_compute; reflexivity].
  - eexists _, _. split; [rewrite H23; vm_compute; reflexivity | vm_compute; reflexivity].
  - vm_compute; reflexivity.
  - vm_compute; reflexivity.
  - eexists _, _. split; [rewrite H23; vm_compute; reflexivity | vm_compute; reflexivity].
Defined.

(** ** The linear equations and the solver *)

Lemma same_but_realVars_refl {real} (w : World real) : same_but_realVars w w.
Proof.
  exists (realVars (localData0 (data w))).
  now destruct w as [[[t rvs bvs] d1 si md] td j wd us lg].
Qed.

Lemma same_but_realVars_trans {real} (w1 w2 w3 : World real) :
  same_but_realVars w1 w2 -> same_but_realVars w2 w3 -> same_but_realVars w1 w3.
Proof.
  intros [r1 ->] [r2 ->]. exists r2.
  now destruct w1 as [[[t rvs bvs] d1 si md] td j wd us lg].
Qed.

Lemma same_but_realVars_time {real} (w w' : World real) :
  same_but_realVars w w' -> time w' = time w.
Proof. intros [r ->]. reflexivity. Qed.

(** Every registered residual callback, returning or throwing, changes at
    most [realVars]. *)
Lemma residual_callbacks_frame {real} {AR : Arith real} {RT : Runtime real}
    (sysNumber : nat) (xloc res : array real) (w : World real) :
  same_but_realVars w
    (final (residualFunc (oc_latch_initialLinearSystem sysNumber) xloc res w)).
Proof.
  destruct w as [[[t rvs bvs] d1 si md] td j wd us lg].
  destruct sysNumber as [ | [ | [ | [ | n]]]];
    cbn [oc_latch_initialLinearSystem residualFunc];
    residual_run; unfold_store; cbn;
    repeat match goal with
           | |- context [if ?c then _ else _] => destruct c
           | |- context [match ?r with ExtRet _ => _ | ExtThrow _ => _ end] => destruct r
           end; cbn; eexists; reflexivity.
Qed.

Lemma evaluate_trials_frame {real} {AR : Arith real} {RT : Runtime real}
    (sysNumber : nat) (trials : list real) :
  forall w,
    same_but_realVars w
      (final (evaluate_trials (residualFunc (oc_latch_initialLinearSystem sysNumber))
                trials w)).
Proof.
  induction trials as [ | x rest IH]; intros w; cbn [evaluate_trials].
  - apply same_but_realVars_refl.
  - unfold bind.
    pose proof (residual_callbacks_frame sysNumber (fun _ => x) (fun _ => rlit Lit_0) w) as H.
    destruct (residualFunc _ _ _ w) as [r w' | d w']; cbn in H |- *.
    + eapply same_but_realVars_trans; [exact H | apply IH].
    + exact H.
Qed.

Lemma solve_linear_system_frame {real} {AR : Arith real} {RT : Runtime real}
    (sysNumber : nat) (x : real) (w : World real) :
  same_but_realVars w (final (solve_linear_system sysNumber x w)).
Proof.
  unfold solve_linear_system.
  destruct (linear_solver _ _ _ _) as [[retValue x'] trials].
  unfold bind. pose proof (evaluate_trials_frame sysNumber trials w) as H.
  destruct (evaluate_trials _ trials w); exact H.
Qed.

Lemma linear_equation_fatal {real} {AR : Arith real} {RT : Runtime real}
    (index : Z) (name : string) (sysNumber var : nat) :
  solver_failure_is_fatal (linear_equation index name sysNumber var)
    index name sysNumber var.
Proof.
  intros w w1 retValue x Hsolve.
  assert (Ht : time w1 = time w).
  { pose proof (solve_linear_system_frame sysNumber (rv_old w var) (announced name w)) as H.
    rewrite Hsolve in H. cbn in H. apply same_but_realVars_time in H. rewrite H.
    unfold announced. destruct (ACTIVE_STREAM w LOG_DT); reflexivity. }
  split; [exact Ht | ].
  unfold linear_equation, bind.
  assert (Hpre :
    (if ACTIVE_STREAM w LOG_DT
     then match emit (infoStreamPrint LOG_DT 1 (solving_format name) [ArgReal (time w)]) w with
          | Ok _ w' => emit (messageClose LOG_DT) w'
          | Throw d w' => Throw d w'
          end
     else Ok tt w) = Ok tt (announced name w)).
  { unfold announced, emit. destruct (ACTIVE_STREAM w LOG_DT); [ | reflexivity].
    cbn. rewrite <- app_assoc. reflexivity. }
  rewrite Hpre, Hsolve.
  split; intros Hret.
  - replace (retValue >? 0)%Z with true by (symmetry; apply Z.gtb_lt; lia).
    rewrite Ht. reflexivity.
  - replace (retValue >? 0)%Z with false
      by (symmetry; rewrite Z.gtb_ltb; apply Z.ltb_ge; lia).
    split; [reflexivity | ]. unfold with_rv, rv. cbn. apply upd_same.
Qed.

(** C1. For each of the equations 23, 33, 98 and 121: when
    [solve_linear_system] returns in world [w1] with a value greater than
    0, the equation throws through [throwStreamPrintWithEquationIndexes]
    with the indexes [{1, index}], the format "Solving linear system
    <index> failed at time=%.15g. ..." and the current time as its
    argument, in that same world [w1] (nothing is written after the
    solver, the torn unknown included); when it returns 0 or less, the
    equation returns and [aux_x[0]] is in the torn unknown of
    [localData[0]]. *)
Theorem linear_equations_fail_hard :
  forall real (AR : Arith real) (RT : Runtime real),
    solver_failure_is_fatal oc_latch_eqFunction_23 23 "23" 0 6 /\
    solver_failure_is_fatal oc_latch_eqFunction_33 33 "33" 1 53 /\
    solver_failure_is_fatal oc_latch_eqFunction_98 98 "98" 2 49 /\
    solver_failure_is_fatal oc_latch_eqFunction_121 121 "121" 3 5.
Proof.
  intros. repeat apply conj; apply linear_equation_fatal.
Qed.

(** On the sample runtime: with [resistor3.R_actual = -10] the Jacobian of
    system 98 is zero, the solver returns 1 and equation 98 throws; on the
    sample world it returns 0 and equation 98 stores the solution 0.5. *)
Lemma linear_equations_fail_hard_witness :
  let singular := with_rv 51 (-10)%float (sample_world 0.5 0 false) in
  let regular := sample_world 0.5 0 false in
  (oc_latch_eqFunction_98 singular =
     Throw (throwStreamPrintWithEquationIndexes [1; 98]%Z (failed_format "98")
              [ArgReal 0.5%float])
           (final (solve_linear_system 2 (rv_old singular 49) (announced "98" singular)))) /\
  (exists w', oc_latch_eqFunction_98 regular = Ok tt w' /\ rv w' 49 = 0.5%float).
Proof.
  intros singular regular.
  destruct (linear_equations_fail_hard float float_arith sample_runtime) as (_ & _ & H98 & _).
  split.
  - destruct (solve_linear_system 2 (rv_old singular 49) (announced "98" singular))
      as [[retValue x] w1 | d w1] eqn:E; [ | vm_compute in E; discriminate E].
    assert (Hret : retValue = 1%Z) by (vm_compute in E; congruence).
    subst retValue.
    destruct (H98 singular w1 1%Z x E) as (_ & Hfail & _).
    exact (Hfail eq_refl).
  - destruct (solve_linear_system 2 (rv_old regular 49) (announced "98" regular))
      as [[retValue x] w1 | d w1] eqn:E; [ | vm_compute in E; discriminate E].
    assert (Hret : retValue = 0%Z /\ x = 0.5%float) by (vm_compute in E; split; congruence).
    destruct Hret as [-> ->].
    destruct (H98 regular w1 0%Z 0.5%float E) as (_ & _ & Hgood).
    destruct (Hgood (Z.le_refl 0)) as [Hrun Hread].
    eexists. split; [exact Hrun | exact Hread].
Defined.

(** ** When-clauses *)

(** C4. The edge test of equations 106 and 108 holds exactly when
    [$whenCondition1] is true and its pre-value false.  Without the edge
    both calls return in the world they were entered in.  With it,
    equation 106 assigns to [combiTimeTable.nextTimeEventScaled] what
    [getNextTimeEvent] returns (and throws in the unchanged world when
    that throws), and equation 108 assigns to [combiTimeTable.nextTimeEvent]
    the scaled value capped at 9.999999999999999e+59. *)
Theorem when_clauses_fire_on_rising_edge :
  forall real (AR : Arith real) (RT : Runtime real) (w : World real),
    (whenCondition1_edge w = true <-> bv w 0 = true /\ bvPre w 0 = false) /\
    (whenCondition1_edge w = false ->
       oc_latch_eqFunction_106 w = Ok tt w /\ oc_latch_eqFunction_108 w = Ok tt w) /\
    (whenCondition1_edge w = true ->
       (forall v,
          omc_Modelica_Blocks_Tables_Internal_getNextTimeEvent
            (extObjs (sinfo w) 0%nat) (rv w 9) = ExtRet v ->
          oc_latch_eqFunction_106 w = Ok tt (with_rv 57 v w) /\
          rv (with_rv 57 v w) 57 = v) /\
       (forall what,
          omc_Modelica_Blocks_Tables_Internal_getNextTimeEvent
            (extObjs (sinfo w) 0%nat) (rv w 9) = ExtThrow what ->
          oc_latch_eqFunction_106 w = Throw (runtime_error what) w) /\
       (let v := if Less (rv w 57) (rlit Lit_1e60) then rv w 57 else rlit Lit_1e60 in
        oc_latch_eqFunction_108 w = Ok tt (with_rv 56 v w) /\
        rv (with_rv 56 v w) 56 = v)).
Proof.
  intros real AR RT w.
  unfold whenCondition1_edge, oc_latch_eqFunction_106, oc_latch_eqFunction_108.
  repeat apply conj.
  - intros H. apply andb_true_iff in H. destruct H as [H1 H2].
    split; [exact H1 | now apply negb_true_iff].
  - intros [H1 H2]. rewrite H1, H2. reflexivity.
  - intros ->. split; reflexivity.
  - intros ->. repeat apply conj.
    + intros v Hv. unfold bind, call. rewrite Hv. split; reflexivity.
    + intros d Hd. unfold bind, call. rewrite Hd. reflexivity.
    + reflexivity.
    + reflexivity.
Qed.

(** On the sample world there is no edge; with [$whenCondition1] set there
    is one, and the two equations assign 9.999999999999999e+59 and 0. *)
Lemma when_clauses_fire_on_rising_edge_witness :
  let idle := sample_world 0.5 0 false in
  let edge := final (assign_bv 0 true idle) in
  (oc_latch_eqFunction_106 idle = Ok tt idle /\ oc_latch_eqFunction_108 idle = Ok tt idle) /\
  oc_latch_eqFunction_106 edge = Ok tt (with_rv 57 1e60%float edge) /\
  oc_latch_eqFunction_108 edge = Ok tt (with_rv 56 0%float edge).
Proof.
  intros idle edge.
  destruct (when_clauses_fire_on_rising_edge float float_arith sample_runtime idle)
    as (_ & Hidle & _).
  destruct (when_clauses_fire_on_rising_edge float float_arith sample_runtime edge)
    as (_ & _ & Hedge).
  destruct (Hedge eq_refl) as (H106 & _ & H108 & _).
  repeat apply conj.
  - apply (Hidle eq_refl).
  - apply (Hidle eq_refl).
  - apply (H106 1e60%float eq_refl).
  - exact H108.
Defined.

(** ** Zero crossings *)

(** C9. [oc_latch_function_ZeroCrossings] returns 0 having counted the
    call and written exactly [gout[0..4]]: every entry from 5 on is as it
    was, each of the five is 1 or -1, and entry [i] is 1 when the
    zero-crossing [i], built from the relations as
    [oc_latch_function_updateRelations] evaluates them with hysteresis, is
    true, and -1 when it is false. *)
Theorem zero_crossing_indicators :
  forall real (AR : Arith real) (RT : Runtime real) (w : World real) (gout : array real),
    exists gout',
      oc_latch_function_ZeroCrossings gout w = Ok (0%Z, gout') (count_ZeroCrossings w) /\
      (forall i, (5 <= i)%nat -> gout' i = gout i) /\
      (forall i, (i < 5)%nat -> gout' i = rofZ 1 \/ gout' i = rofZ (-1)) /\
      (forall i, (i < 5)%nat -> gout' i = rofZ (if zero_crossing w i then 1 else -1)) /\
      (rofZ 1 <> rofZ (-1) ->
       forall i, (i < 5)%nat -> (gout' i = rofZ 1 <-> zero_crossing w i = true)).
Proof.
  intros real AR RT w gout.
  eexists. split; [reflexivity | ].
  match goal with |- (forall i, _ -> ?g i = _) /\ _ => set (gout' := g) end.
  assert (Hval : forall i, (i < 5)%nat ->
                   gout' i = rofZ (if zero_crossing w i then 1 else -1)).
  { intros i Hi. subst gout'. destruct w as [[[t rvs bvs] d1 si md] td j wd us lg].
    do 5 (destruct i as [ | i]; [reflexivity | ]). lia. }
  repeat apply conj.
  - intros i Hi. subst gout'. do 5 (destruct i as [ | i]; [lia | ]). reflexivity.
  - intros i Hi. rewrite (Hval i Hi). destruct (zero_crossing w i); [left | right]; reflexivity.
  - exact Hval.
  - intros Hne i Hi. rewrite (Hval i Hi).
    destruct (zero_crossing w i); split; intros H; try reflexivity.
    + congruence.
    + discriminate.
Qed.

Lemma float_one_not_minus_one : rofZ (real := float) 1 <> rofZ (-1).
Proof.
  intros H. apply (f_equal (fun x => PrimFloat.ltb x 0%float)) in H.
  vm_compute in H. discriminate H.
Qed.

(** On the sample world at time 0.5 only the last zero-crossing
    ([time >= pre(combiTimeTable.nextTimeEvent)], with the pre-value 0) is
    true. *)
Lemma zero_crossing_indicators_witness :
  let w := sample_world 0.5 0 false in
  exists gout',
    oc_latch_function_ZeroCrossings (fun _ => 0%float) w = Ok (0%Z, gout') (count_ZeroCrossings w) /\
    (gout' 4%nat = 1%float <-> zero_crossing w 4 = true) /\
    map gout' (seq 0 6) = [(-1)%float; (-1)%float; (-1)%float; (-1)%float; 1%float; 0%float].
Proof.
  intros w.
  destruct (zero_crossing_indicators float float_arith sample_runtime w (fun _ => 0%float))
    as (gout' & Hrun & Hrest & _ & Hval & Hiff).
  exists gout'. split; [exact Hrun | ]. split.
  - apply (Hiff float_one_not_minus_one 4%nat). lia.
  - cbn [map seq].
    rewrite (Hval 0%nat), (Hval 1%nat), (Hval 2%nat), (Hval 3%nat), (Hval 4%nat) by lia.
    rewrite (Hrest 5%nat) by lia.
    vm_compute. reflexivity.
Defined.

(** ** Assertions *)






(** ** Passes: what they keep and what they throw *)

Lemma preserves_bind {real A B} (P : World real -> Prop) (E : Diag real -> Prop)
    (m : M real A) (k : A -> M real B) :
  preserves P E m -> (forall a, preserves P E (k a)) -> preserves P E (bind m k).
Proof.
  intros Hm Hk w Hw. unfold bind. specialize (Hm w Hw).
  destruct (m w) as [a w' | d w']; [apply Hk; exact Hm | exact Hm].
Qed.

Lemma preserves_ret {real A} (P : World real -> Prop) (E : Diag real -> Prop) (a : A) :
  preserves P E (ret a).
Proof. intros w Hw. exact Hw. Qed.


(** Reduce readers, setters and projections of the store, nothing else. *)
Ltac store_cbv :=
  cbv beta iota zeta delta
    [timeValue realVars booleanVars functionODE functionAlgebraics
     functionZeroCrossingsEquations functionZeroCrossings realVarsPre booleanVarsPre
     realParameter integerParameter booleanParameter relations relationsPre
     storedRelations extObjs initial_ discreteCall solveContinuous needToIterate
     noThrowAsserts noThrowDivZero needToReThrow callStatistics
     realVarsData_time_unvarying realParameterData_time_unvarying
     integerParameterData_time_unvarying booleanParameterData_time_unvarying localData0
     localData1 simulationInfo modelData lastEquationSolved seedVars tmpVars resultVars
     data threadData jacobian warned useStream log set_realVars set_booleanVars
     set_functionODE set_functionAlgebraics set_functionZeroCrossingsEquations
     set_functionZeroCrossings set_realVarsPre set_booleanVarsPre set_realParameter
     set_integerParameter set_booleanParameter set_relations set_extObjs
     set_discreteCall set_needToIterate set_needToReThrow set_callStatistics
     set_localData0 set_simulationInfo set_modelData set_realVarsData_time_unvarying
     set_realParameterData_time_unvarying set_integerParameterData_time_unvarying
     set_booleanParameterData_time_unvarying set_tmpVars set_resultVars set_data
     set_threadData set_jacobian set_warned set_log sinfo time rv bv rv_old rvPre bvPre
     rp ip bp seed tmp initial ACTIVE_STREAM on_localData0 on_sinfo on_jacobian
     on_modelData].

Ltac store_cbv_in H :=
  cbv beta iota zeta delta
    [timeValue realVars booleanVars functionODE functionAlgebraics
     functionZeroCrossingsEquations functionZeroCrossings realVarsPre booleanVarsPre
     realParameter integerParameter booleanParameter relations relationsPre
     storedRelations extObjs initial_ discreteCall solveContinuous needToIterate
     noThrowAsserts noThrowDivZero needToReThrow callStatistics
     realVarsData_time_unvarying realParameterData_time_unvarying
     integerParameterData_time_unvarying booleanParameterData_time_unvarying localData0
     localData1 simulationInfo modelData lastEquationSolved seedVars tmpVars resultVars
     data threadData jacobian warned useStream log set_realVars set_booleanVars
     set_functionODE set_functionAlgebraics set_functionZeroCrossingsEquations
     set_functionZeroCrossings set_realVarsPre set_booleanVarsPre set_realParameter
     set_integerParameter set_booleanParameter set_relations set_extObjs
     set_discreteCall set_needToIterate set_needToReThrow set_callStatistics
     set_localData0 set_simulationInfo set_modelData set_realVarsData_time_unvarying
     set_realParameterData_time_unvarying set_integerParameterData_time_unvarying
     set_booleanParameterData_time_unvarying set_tmpVars set_resultVars set_data
     set_threadData set_jacobian set_warned set_log sinfo time rv bv rv_old rvPre bvPre
     rp ip bp seed tmp initial ACTIVE_STREAM on_localData0 on_sinfo on_jacobian
     on_modelData] in H.

Ltac head_of t :=
  lazymatch t with
  | ?f _ => head_of f
  | _ => t
  end.

Ltac run_equation :=
  cbv [bind ret call throw emit DIVISION DIVISION_SIM relationhysteresis
       assert_error assert_warning
       assign_rv assign_bv assign_rvPre assign_bvPre assign_rp assign_ip assign_bp
       assign_relation assign_extObj assign_needToReThrow assign_needToIterate
       assign_discreteCall assign_lastEquationSolved assign_warned
       mark_realVar_time_unvarying mark_realParameter_time_unvarying
       mark_integerParameter_time_unvarying mark_booleanParameter_time_unvarying];
  store_cbv;
  repeat match goal with
         | |- context [if ?c then _ else _] => destruct c
         | |- context [match ?r with ExtRet _ => _ | ExtThrow _ => _ end] => destruct r
         | |- context [let '(_, _) := ?r in _] => destruct r
         | |- context [match ?o with Some _ => _ | None => _ end] => destruct o
         end.

(** One generated equation function (not a LINEAR one) keeps [P]: unfold
    it, split on its tests and external outcomes, and look. *)
Ltac equation_preserves :=
  lazymatch goal with
  | |- preserves _ _ ?m => let h := head_of m in unfold h
  end;
  let w := fresh "w" in let Hw := fresh "Hw" in
  intros w Hw;
  destruct w as [[[?t ?rvs ?bvs] ?d1 ?si ?md] ?td ?j ?wd ?us ?lg];
  match goal with si : SIMULATION_INFO _ |- _ => destruct si end;
  store_cbv_in Hw;
  run_equation; store_cbv;
  repeat split; solve [ assumption | eauto | discriminate | congruence ].


(** What a residual callback throws comes from its division. *)
Lemma residual_callbacks_throw {real} {AR : Arith real} {RT : Runtime real}
    (sysNumber : nat) (xloc res : array real) (w : World real) d w' :
  residualFunc (oc_latch_initialLinearSystem sysNumber) xloc res w = Throw d w' ->
  exists what, d = runtime_error what.
Proof.
  destruct w as [[[t rvs bvs] d1 si md] td j wd us lg].
  destruct sysNumber as [ | [ | [ | [ | n]]]];
    cbn [oc_latch_initialLinearSystem residualFunc];
    residual_run; unfold_store; cbn;
    repeat match goal with
           | |- context [if ?c then _ else _] => destruct c
           | |- context [match ?r with ExtRet _ => _ | ExtThrow _ => _ end] => destruct r
           end; cbn; intros H; inversion H; eauto.
Qed.

Lemma evaluate_trials_throw {real} {AR : Arith real} {RT : Runtime real}
    (sysNumber : nat) (trials : list real) :
  forall w d w',
    evaluate_trials (residualFunc (oc_latch_initialLinearSystem sysNumber)) trials w
      = Throw d w' ->
    exists what, d = runtime_error what.
Proof.
  induction trials as [ | x rest IH]; intros w d w'; cbn [evaluate_trials].
  - discriminate.
  - unfold bind.
    destruct (residualFunc _ _ _ w) as [r w1 | d1 w1] eqn:Hres.
    + apply IH.
    + intros H. inversion H; subst. eapply residual_callbacks_throw; exact Hres.
Qed.

Lemma solve_linear_system_throw {real} {AR : Arith real} {RT : Runtime real}
    (sysNumber : nat) (x : real) (w : World real) d w' :
  solve_linear_system sysNumber x w = Throw d w' -> exists what, d = runtime_error what.
Proof.
  unfold solve_linear_system.
  destruct (linear_solver _ _ _ _) as [[retValue x'] trials].
  unfold bind.
  destruct (evaluate_trials _ trials w) as [r w1 | d1 w1] eqn:Hev; [discriminate | ].
  intros H. inversion H; subst. eapply evaluate_trials_throw; exact Hev.
Qed.

(** A [type: LINEAR] equation keeps whatever neither [realVars] nor the
    log can break, and throws the solver failure or what a residual threw. *)
Lemma linear_equation_preserves {real} {AR : Arith real} {RT : Runtime real}
    (P : World real -> Prop) (E : Diag real -> Prop)
    (index : Z) (name : string) (sysNumber var : nat) :
  (forall w rvs, P w -> P (on_localData0 (set_realVars rvs) w)) ->
  (forall w l, P w -> P (set_log l w)) ->
  (forall what, E (runtime_error what)) ->
  (forall indexes format args, E (throwStreamPrintWithEquationIndexes indexes format args)) ->
  preserves P E (linear_equation index name sysNumber var).
Proof.
  intros Hrv Hlog Hrt Hls w Hw.
  assert (Ha : P (announced name w)).
  { unfold announced. destruct (ACTIVE_STREAM w LOG_DT); [apply Hlog | ]; exact Hw. }
  unfold linear_equation, bind.
  assert (Hpre :
    (if ACTIVE_STREAM w LOG_DT
     then match emit (infoStreamPrint LOG_DT 1 (solving_format name) [ArgReal (time w)]) w with
          | Ok _ w' => emit (messageClose LOG_DT) w'
          | Throw d w' => Throw d w'
          end
     else Ok tt w) = Ok tt (announced name w)).
  { unfold announced, emit. destruct (ACTIVE_STREAM w LOG_DT); [ | reflexivity].
    cbn. rewrite <- app_assoc. reflexivity. }
  rewrite Hpre.
  pose proof (solve_linear_system_frame sysNumber (rv_old w var) (announced name w)) as Hf.
  destruct (solve_linear_system sysNumber (rv_old w var) (announced name w))
    as [[retValue x] w1 | d w1] eqn:Hsolve; cbn in Hf; destruct Hf as [rvs ->].
  - destruct (retValue >? 0)%Z.
    + split; [apply Hrv; exact Ha | apply Hls].
    + unfold assign_rv.
      replace (on_localData0 _ (on_localData0 (set_realVars rvs) (announced name w)))
        with (on_localData0 (set_realVars (upd rvs var x)) (announced name w)).
      * apply Hrv; exact Ha.
      * destruct (announced name w) as [[[t r b] d1 si md] td j wd us lg]. reflexivity.
  - split; [apply Hrv; exact Ha | ].
    destruct (solve_linear_system_throw _ _ _ _ _ Hsolve) as [what ->]. apply Hrt.
Qed.

Ltac pass_preserves :=
  repeat (apply preserves_bind;
          [ first [ apply linear_equation_preserves;
                    [ intros [[[? ? ?] ? ? ?] ? ? ? ? ?] ?; cbn; auto
                    | intros [[[? ? ?] ? ? ?] ? ? ? ? ?] ?; cbn; auto
                    | intros; cbn; eauto
                    | intros; cbn; eauto ]
                  | equation_preserves ]
          | intros ? ]);
  try apply preserves_ret.





(** The same with [noThrowAsserts] set: the pass returns,
    [needToReThrow] is set and the failure is in the log. *)
Lemma initialization_with_noThrowAsserts_completes :
  exists w', oc_latch_functionInitialEquations (bounded (sample_world 0.5 infinity true))
               = Ok 0%Z w' /\
             needToReThrow (sinfo w') = true /\
             In (infoStreamPrint LOG_ASSERT 0 "%s"
                   [ArgString "Temperature outside scope of model!"]) (log w').
Proof.
  eexists. split; [vm_compute; reflexivity | ].
  split; [vm_compute; reflexivity | ].
  cbv. repeat (first [left; reflexivity | right]).
Qed.

(** ** The continuous pass *)

Section ContinuousPassLemmas.
Context {real : Type} {AR : Arith real} {RT : Runtime real}.
Implicit Types w : World real.
Local Open Scope real_scope.

Lemma DIVISION_SIM_call (a b : real) msg idx w :
  DIVISION_SIM a b msg idx w =
  call (quotient_sim (noThrowDivZero (sinfo w)) (initial w) (time w) a b msg idx) w.
Proof. unfold DIVISION_SIM, quotient_sim, call. destruct (reqb b _); reflexivity. Qed.

Lemma store_opt_read (a : array bool) i o j :
  store_opt a i o j =
  if Nat.eqb j i then match o with Some b => b | None => a j end else a j.
Proof. destruct o; unfold store_opt, upd; destruct (Nat.eqb j i); reflexivity. Qed.

Lemma relationhysteresis_nf (a b : real) (i : nat) (op : relop) w :
  relationhysteresis a b i op w =
  let r := relationhysteresis_rt (initial_ (sinfo w)) (discreteCall (sinfo w))
             (solveContinuous (sinfo w)) (relationsPre (sinfo w))
             (storedRelations (sinfo w)) a b i op in
  Ok (fst r) (on_sinfo (fun s => set_relations (store_opt (relations s) i (snd r)) s) w).
Proof.
  unfold relationhysteresis. cbv zeta.
  destruct (relationhysteresis_rt _ _ _ _ _ a b i op) as [res [stored | ]]; cbn [fst snd].
  - reflexivity.
  - unfold store_opt.
    destruct w as [[[t rvs bvs] d1 si md] td j wd us lg]. destruct si. reflexivity.
Qed.

Lemma assert_error_nf (indexes : list Z) (condition : bool) text message info w :
  assert_error indexes condition text message info w =
  if negb condition && negb (noThrowAsserts (sinfo w))
  then Throw (omc_assert_withEquationIndexes info indexes message [])
             (set_log (log w ++ [omc_assert_warning info (violated_format text)
                                   (violated_args w)])%list w)
  else Ok tt (after_assert_error indexes condition text message w).
Proof.
  unfold assert_error, after_assert_error.
  destruct w as [[[t rvs bvs] d1 si md] td j wd us lg].
  destruct si as [? ? ? ? ? ? ? ? ? ? ? ? ? nta ? ? ?].
  destruct condition; cbn.
  - rewrite app_nil_r. reflexivity.
  - destruct nta; cbn; unfold bind, emit; cbn.
    + rewrite <- app_assoc. reflexivity.
    + reflexivity.
Qed.

Lemma residualFunc98_step (x : real) (res : array real) w :
  residualFunc98 (fun _ => x) res w =
  match quotient92 (noThrowDivZero (sinfo w)) (initial w) (time w) (rv w 48) x with
  | ExtRet q => Ok (upd res 0 (rp w 29 + (- (rv w 51 * q)) - x))
                   (after_residual w 49 x 52 q 53 (rv w 51 * q))
  | ExtThrow what => Throw (runtime_error what) (with_rv 49 x w)
  end.
Proof.
  destruct w as [[[t rvs bvs] d1 si md] td j wd us lg].
  unfold quotient92, quotient_sim. residual_run. unfold with_rv, initial. unfold_store. cbn.
  destruct (reqb (rvs 48%nat) (rlit Lit_0)); [ | reflexivity].
  destruct (division_error_sim _ _ _ _ _ _ _); reflexivity.
Qed.

Lemma residualFunc121_step (x : real) (res : array real) w :
  residualFunc121 (fun _ => x) res w =
  Ok (upd res 0 (rp w 29 + (- (rv w 4 * x)) - rv w 1 * x))
     (after_residual w 5 x 2 (rv w 1 * x) 6 (rv w 4 * x)).
Proof.
  destruct w as [[[t rvs bvs] d1 si md] td j wd us lg].
  residual_run. unfold_store. cbn. reflexivity.
Qed.

Lemma residual_at98 w :
  residual_at residualFunc98 w =
  residual98_of (noThrowDivZero (sinfo w)) (initial w) (time w) (rp w 29) (rv w 48) (rv w 51).
Proof.
  apply functional_extensionality. intros x.
  unfold residual_at, residual98_of. rewrite residualFunc98_step.
  destruct (quotient92 _ _ _ _ x); [ | reflexivity].
  cbn. reflexivity.
Qed.

Lemma residual_at121 w :
  residual_at residualFunc121 w = residual121_of (rp w 29) (rv w 1) (rv w 4).
Proof.
  apply functional_extensionality. intros x.
  unfold residual_at, residual121_of. rewrite residualFunc121_step. reflexivity.
Qed.

Lemma jacobian_entry98 w :
  jacobian_entry oc_latch_functionJacLSJac2_column w = entry98_of (rv w 48) (rv w 51).
Proof.
  destruct w as [[[t rvs bvs] d1 si md] td j wd us lg].
  unfold jacobian_entry, entry98_of. column_run. unfold_store. cbn.
  destruct (reqb (rvs 48%nat) (rlit Lit_0)); [ | reflexivity].
  destruct (division_error _ _ _); reflexivity.
Qed.

Lemma jacobian_entry121 w :
  jacobian_entry oc_latch_functionJacLSJac3_column w = entry121_of (rv w 1) (rv w 4).
Proof.
  destruct w as [[[t rvs bvs] d1 si md] td j wd us lg].
  unfold jacobian_entry, entry121_of. column_run. unfold_store. cbn. reflexivity.
Qed.

Lemma after_trials98_again (acc : option (real * real)) (x q : real) w :
  after_residual (after_trials98 acc w) 49 x 52 q 53 (rv (after_trials98 acc w) 51 * q) =
  after_trials98 (Some (x, q)) w.
Proof.
  destruct w as [[[t rvs bvs] d1 si md] td j wd us lg].
  destruct acc as [[x0 q0] | ]; [ | reflexivity].
  unfold after_trials98, after_residual. store_cbv.
  do 3 f_equal. apply functional_extensionality. intros i. unfold upd.
  repeat match goal with |- context [Nat.eqb i ?k] => destruct (Nat.eqb i k) end; reflexivity.
Qed.

Lemma after_trials98_inputs (acc : option (real * real)) w :
  noThrowDivZero (sinfo (after_trials98 acc w)) = noThrowDivZero (sinfo w) /\
  initial (after_trials98 acc w) = initial w /\
  time (after_trials98 acc w) = time w /\
  rv (after_trials98 acc w) 48 = rv w 48.
Proof. destruct acc as [[x0 q0] | ]; repeat split; reflexivity. Qed.

Lemma evaluate_trials98 (trials : list real) w :
  forall acc,
    match last_quotient (quotient92 (noThrowDivZero (sinfo w)) (initial w) (time w) (rv w 48))
            trials acc with
    | Some last =>
        evaluate_trials residualFunc98 trials (after_trials98 acc w)
          = Ok tt (after_trials98 last w)
    | None =>
        exists d w', evaluate_trials residualFunc98 trials (after_trials98 acc w) = Throw d w'
    end.
Proof.
  induction trials as [ | x rest IH]; intros acc; cbn [last_quotient evaluate_trials].
  - reflexivity.
  - unfold bind. rewrite residualFunc98_step.
    destruct (after_trials98_inputs acc w) as (-> & -> & -> & ->).
    destruct (quotient92 _ _ _ _ x) as [q | what].
    + rewrite after_trials98_again. apply IH.
    + eexists _, _. reflexivity.
Qed.

Lemma after_trials121_again (acc : option real) (x : real) w :
  after_residual (after_trials121 acc w) 5 x 2 (rv (after_trials121 acc w) 1 * x)
                 6 (rv (after_trials121 acc w) 4 * x) =
  after_trials121 (Some x) w.
Proof.
  destruct w as [[[t rvs bvs] d1 si md] td j wd us lg].
  destruct acc as [x0 | ]; [ | reflexivity].
  unfold after_trials121, after_residual. store_cbv.
  do 3 f_equal. apply functional_extensionality. intros i. unfold upd.
  repeat match goal with |- context [Nat.eqb i ?k] => destruct (Nat.eqb i k) end; reflexivity.
Qed.

Lemma evaluate_trials121 (trials : list real) w :
  forall acc,
    evaluate_trials residualFunc121 trials (after_trials121 acc w)
      = Ok tt (after_trials121 (fold_left (fun _ x => Some x) trials acc) w).
Proof.
  induction trials as [ | x rest IH]; intros acc; cbn [fold_left evaluate_trials].
  - reflexivity.
  - unfold bind. rewrite residualFunc121_step, after_trials121_again. apply IH.
Qed.

Lemma announced_set_log (equation : string) w :
  announced equation w = set_log (announced_log equation w) w.
Proof.
  unfold announced, announced_log.
  destruct w as [d td j wd us lg]. unfold ACTIVE_STREAM. cbn.
  destruct (us LOG_DT); cbn; [reflexivity | rewrite app_nil_r; reflexivity].
Qed.

Lemma linear_equation_announced (index : Z) (name : string) (sysNumber var : nat) w :
  linear_equation index name sysNumber var w =
  match solve_linear_system sysNumber (rv_old w var) (announced name w) with
  | Ok (retValue, x) w1 =>
      if (retValue >? 0)%Z
      then Throw (throwStreamPrintWithEquationIndexes [1; index]%Z
                    (failed_format name) [ArgReal (time w1)]) w1
      else Ok tt (with_rv var x w1)
  | Throw d w1 => Throw d w1
  end.
Proof.
  unfold linear_equation, bind.
  assert (Hpre :
    (if ACTIVE_STREAM w LOG_DT
     then match emit (infoStreamPrint LOG_DT 1 (solving_format name) [ArgReal (time w)]) w with
          | Ok _ w' => emit (messageClose LOG_DT) w'
          | Throw d w' => Throw d w'
          end
     else Ok tt w) = Ok tt (announced name w)).
  { unfold announced, emit. destruct (ACTIVE_STREAM w LOG_DT); [ | reflexivity].
    cbn. rewrite <- app_assoc. reflexivity. }
  rewrite Hpre.
  destruct (solve_linear_system _ _ _) as [[retValue x] w1 | d w1]; [ | reflexivity].
  destruct (retValue >? 0)%Z; reflexivity.
Qed.

Lemma eq98_run w :
  match solve98 (noThrowDivZero (sinfo w)) (initial w) (time w) (rp w 29)
          (rv w 48) (rv w 51) (rv_old w 49) with
  | Some (x, last) =>
      oc_latch_eqFunction_98 w =
        Ok tt (with_rv 49 x (after_trials98 last (set_log (announced_log "98" w) w)))
  | None => exists d w', oc_latch_eqFunction_98 w = Throw d w'
  end.
Proof.
  unfold oc_latch_eqFunction_98. rewrite linear_equation_announced.
  unfold solve_linear_system, solve98. cbn [oc_latch_initialLinearSystem residualFunc
    analyticalJacobianColumn].
  rewrite residual_at98, jacobian_entry98, announced_set_log.
  set (w0 := set_log (announced_log "98" w) w).
  change (noThrowDivZero (sinfo w)) with (noThrowDivZero (sinfo w0)).
  change (initial w) with (initial w0).
  change (time w) with (time w0).
  change (rp w 29) with (rp w0 29).
  change (rv w 48) with (rv w0 48).
  change (rv w 51) with (rv w0 51).
  destruct (linear_solver _ _ _ _) as [[retValue x] trials].
  pose proof (evaluate_trials98 trials w0 None) as H. unfold bind.
  change (after_trials98 None w0) with w0 in H.
  destruct (last_quotient _ trials None) as [last | ].
  - rewrite H. cbn. destruct (retValue >? 0)%Z; [ | reflexivity].
    eexists _, _. reflexivity.
  - destruct H as (d & w' & ->). eexists _, _. reflexivity.
Qed.

Lemma eq121_run w :
  match solve121 (rp w 29) (rv w 1) (rv w 4) (rv_old w 5) with
  | Some (x, last) =>
      oc_latch_eqFunction_121 w =
        Ok tt (with_rv 5 x (after_trials121 last (set_log (announced_log "121" w) w)))
  | None => exists d w', oc_latch_eqFunction_121 w = Throw d w'
  end.
Proof.
  unfold oc_latch_eqFunction_121. rewrite linear_equation_announced.
  unfold solve_linear_system, solve121. cbn [oc_latch_initialLinearSystem residualFunc
    analyticalJacobianColumn].
  rewrite residual_at121, jacobian_entry121, announced_set_log.
  set (w0 := set_log (announced_log "121" w) w).
  change (rp w 29) with (rp w0 29).
  change (rv w 1) with (rv w0 1).
  change (rv w 4) with (rv w0 4).
  destruct (linear_solver _ _ _ _) as [[retValue x] trials].
  pose proof (evaluate_trials121 trials w0 None) as H. unfold bind.
  change (after_trials121 None w0) with w0 in H.
  rewrite H. cbn. destruct (retValue >? 0)%Z; [ | reflexivity].
  eexists _, _. reflexivity.
Qed.
End ContinuousPassLemmas.

Ltac run_cbv :=
  cbv beta iota zeta delta
    [timeValue realVars booleanVars functionODE functionAlgebraics
     functionZeroCrossingsEquations functionZeroCrossings realVarsPre booleanVarsPre
     realParameter integerParameter booleanParameter relations relationsPre
     storedRelations extObjs initial_ discreteCall solveContinuous needToIterate
     noThrowAsserts noThrowDivZero needToReThrow callStatistics
     realVarsData_time_unvarying realParameterData_time_unvarying
     integerParameterData_time_unvarying booleanParameterData_time_unvarying localData0
     localData1 simulationInfo modelData lastEquationSolved seedVars tmpVars resultVars
     data threadData jacobian warned useStream log set_realVars set_booleanVars
     set_functionODE set_functionAlgebraics set_functionZeroCrossingsEquations
     set_functionZeroCrossings set_realVarsPre set_booleanVarsPre set_realParameter
     set_integerParameter set_booleanParameter set_relations set_extObjs
     set_discreteCall set_needToIterate set_needToReThrow set_callStatistics
     set_localData0 set_simulationInfo set_modelData set_realVarsData_time_unvarying
     set_realParameterData_time_unvarying set_integerParameterData_time_unvarying
     set_booleanParameterData_time_unvarying set_tmpVars set_resultVars set_data
     set_threadData set_jacobian set_warned set_log sinfo time rv bv rv_old rvPre bvPre
     rp ip bp seed tmp initial ACTIVE_STREAM on_localData0 on_sinfo on_jacobian
     on_modelData bind ret call throw emit upd Nat.eqb with_rv after_residual
     after_trials98 after_trials121 after_assert_error announced_log violated_args
     assign_rv assign_bv assign_rvPre assign_bvPre assign_rp assign_ip assign_bp
     assign_relation assign_extObj assign_needToReThrow assign_needToIterate
     assign_discreteCall assign_lastEquationSolved assign_warned].

Ltac run_cbv_in H :=
  cbv beta iota zeta delta
    [timeValue realVars booleanVars functionODE functionAlgebraics
     functionZeroCrossingsEquations functionZeroCrossings realVarsPre booleanVarsPre
     realParameter integerParameter booleanParameter relations relationsPre
     storedRelations extObjs initial_ discreteCall solveContinuous needToIterate
     noThrowAsserts noThrowDivZero needToReThrow callStatistics
     realVarsData_time_unvarying realParameterData_time_unvarying
     integerParameterData_time_unvarying booleanParameterData_time_unvarying localData0
     localData1 simulationInfo modelData lastEquationSolved seedVars tmpVars resultVars
     data threadData jacobian warned useStream log set_realVars set_booleanVars
     set_functionODE set_functionAlgebraics set_functionZeroCrossingsEquations
     set_functionZeroCrossings set_realVarsPre set_booleanVarsPre set_realParameter
     set_integerParameter set_booleanParameter set_relations set_extObjs
     set_discreteCall set_needToIterate set_needToReThrow set_callStatistics
     set_localData0 set_simulationInfo set_modelData set_realVarsData_time_unvarying
     set_realParameterData_time_unvarying set_integerParameterData_time_unvarying
     set_booleanParameterData_time_unvarying set_tmpVars set_resultVars set_data
     set_threadData set_jacobian set_warned set_log sinfo time rv bv rv_old rvPre bvPre
     rp ip bp seed tmp initial ACTIVE_STREAM on_localData0 on_sinfo on_jacobian
     on_modelData bind ret call throw emit upd Nat.eqb with_rv after_residual
     after_trials98 after_trials121 after_assert_error announced_log violated_args
     assign_rv assign_bv assign_rvPre assign_bvPre assign_rp assign_ip assign_bp
     assign_relation assign_extObj assign_needToReThrow assign_needToIterate
     assign_discreteCall assign_lastEquationSolved assign_warned] in H.

(** The next thing the pass does, at the head of the goal. *)
Ltac run_step :=
  first
  [ rewrite DIVISION_SIM_call
  | rewrite relationhysteresis_nf
  | rewrite assert_error_nf
  | match goal with
    | E : ?r = ExtRet _ |- context [match ?r with ExtRet _ => _ | ExtThrow _ => _ end] =>
        rewrite E
    | E : ?b = false |- context [if ?b then Throw _ _ else Ok _ _] =>
        rewrite E
    | Hs : solve98 _ _ _ _ _ _ _ = Some (?x, ?last)
      |- context [match oc_latch_eqFunction_98 ?W with Ok _ _ => _ | Throw _ _ => _ end] =>
        let H := fresh in
        pose proof (eq98_run W) as H; run_cbv_in H; rewrite Hs in H; run_cbv_in H;
        rewrite H; clear H
    | Hs : solve121 _ _ _ _ = Some (?x, ?last)
      |- context [match oc_latch_eqFunction_121 ?W with Ok _ _ => _ | Throw _ _ => _ end] =>
        let H := fresh in
        pose proof (eq121_run W) as H; run_cbv_in H; rewrite Hs in H; run_cbv_in H;
        rewrite H; clear H
    end
  | match goal with
    | |- context [match ?r with ExtRet _ => _ | ExtThrow _ => _ end] =>
        destruct r eqn:?; [ | run_cbv; discriminate ]
    | |- context [if ?b then Throw _ _ else Ok _ _] =>
        destruct b eqn:?; [ run_cbv; discriminate | ]
    | |- context [match oc_latch_eqFunction_98 ?W with Ok _ _ => _ | Throw _ _ => _ end] =>
        let H := fresh in
        pose proof (eq98_run W) as H; run_cbv_in H;
        match type of H with
        | match ?s with Some _ => _ | None => _ end =>
            destruct s as [[? [[? ?] | ]] | ] eqn:?; run_cbv_in H;
            [ rewrite H; clear H
            | rewrite H; clear H
            | destruct H as (? & ? & H); rewrite H; run_cbv; discriminate ]
        end
    | |- context [match oc_latch_eqFunction_121 ?W with Ok _ _ => _ | Throw _ _ => _ end] =>
        let H := fresh in
        pose proof (eq121_run W) as H; run_cbv_in H;
        match type of H with
        | match ?s with Some _ => _ | None => _ end =>
            destruct s as [[? [? | ]] | ] eqn:?; run_cbv_in H;
            [ rewrite H; clear H
            | rewrite H; clear H
            | destruct H as (? & ? & H); rewrite H; run_cbv; discriminate ]
        end
    end
  | match goal with
    | |- context [match ?m ?W with Ok _ _ => _ | Throw _ _ => _ end] =>
        let h := head_of m in unfold h
    end ].

Ltac run_pass := run_cbv; repeat (run_step; run_cbv).

(** Two arrays written by the same assignments twice over: the tests on
    the index, outermost first. *)
Ltac same_array :=
  let i := fresh "i" in
  apply functional_extensionality; intros i;
  repeat match goal with
         | |- (if ?c then _ else _) = _ => destruct c; [ reflexivity | ]
         end;
  reflexivity.

Ltac same_relation :=
  repeat (rewrite store_opt_read; cbn [Nat.eqb]);
  repeat match goal with
         | |- context [match ?o with Some _ => _ | None => _ end] => destruct o; cbv iota
         end;
  reflexivity.

Ltac same_relations :=
  let i := fresh "i" in
  apply functional_extensionality; intros i;
  do 7 (destruct i as [ | i]; [ same_relation | ]); same_relation.

Ltac same_flag :=
  repeat match goal with
         | |- context [negb ?c] => destruct c; cbn [negb orb]
         end;
  reflexivity.

Lemma functionAlg_system0_twice {real} {AR : Arith real} {RT : Runtime real}
    (w w1 : World real) :
  functionAlg_system0 w = Ok tt w1 ->
  exists w2, functionAlg_system0 w1 = Ok tt w2 /\ same_but_log w1 w2.
Proof.
  intros H. unfold functionAlg_system0 in H. revert H.
  destruct w as [[[t rvs bvs] d1 si md] td j wd us lg]. destruct si.
  run_pass.
  all: intros Heq; injection Heq as <-.
  all: eexists; split; [unfold functionAlg_system0; run_pass; reflexivity | ].
  all: unfold same_but_log; run_cbv.
  all: split; [ | repeat split; reflexivity].
  all: f_equal; f_equal; [ same_array | same_array | same_relations | same_flag ].
Qed.

Lemma functionAlg_system0_keeps_pre_values {real} {AR : Arith real} {RT : Runtime real}
    (pre : array real * array bool) :
  preserves (fun w => pre_values w = pre) (fun _ => True) functionAlg_system0.
Proof.
  unfold functionAlg_system0, pre_values. pass_preserves.
Qed.

Lemma tracks_bind {real A B} (g : World real -> World real)
    (m : M real A) (k : A -> M real B) :
  tracks g m -> (forall a, tracks g (k a)) -> tracks g (bind m k).
Proof.
  intros Hm Hk w b w2. unfold bind.
  destruct (m w) as [a w1 | d w1] eqn:Hrun; [ | discriminate].
  intros Hrun2. rewrite (Hm _ _ _ Hrun). apply Hk. exact Hrun2.
Qed.

Lemma tracks_ret {real A} (g : World real -> World real) (a : A) : tracks g (ret a).
Proof. intros w a' w' H. inversion H; subst. reflexivity. Qed.

Ltac equation_tracks :=
  lazymatch goal with
  | |- tracks _ ?m => let h := head_of m in unfold h
  end;
  let w := fresh "w" in
  intros w ? ?;
  destruct w as [[[?t ?rvs ?bvs] ?d1 ?si ?md] ?td ?j ?wd ?us ?lg];
  match goal with si : SIMULATION_INFO _ |- _ => destruct si end;
  match goal with cs : CALL_STATISTICS |- _ => destruct cs end;
  cbv [count_Algebraics];
  run_equation; store_cbv;
  let H := fresh in
  intros H; solve [ discriminate H | inversion H; subst; reflexivity ].

Lemma eq98_tracks {real} {AR : Arith real} {RT : Runtime real} : tracks (real := real) count_Algebraics oc_latch_eqFunction_98.
Proof.
  intros w a w' H.
  pose proof (eq98_run w) as H1. pose proof (eq98_run (count_Algebraics w)) as H2.
  destruct w as [[[t rvs bvs] d1 si md] td j wd us lg].
  destruct si as [? ? ? ? ? ? ? ? ? ? ? ? ? ? ? ? cs]. destruct cs.
  cbv [count_Algebraics] in *. run_cbv_in H1. run_cbv_in H2. run_cbv.
  match type of H1 with
  | match ?s with Some _ => _ | None => _ end => destruct s as [[x [[xl q] | ]] | ]
  end.
  - rewrite H1 in H. rewrite H2. inversion H; subst. reflexivity.
  - rewrite H1 in H. rewrite H2. inversion H; subst. reflexivity.
  - destruct H1 as (d & w1 & H1). rewrite H1 in H. discriminate H.
Qed.

Lemma eq121_tracks {real} {AR : Arith real} {RT : Runtime real} : tracks (real := real) count_Algebraics oc_latch_eqFunction_121.
Proof.
  intros w a w' H.
  pose proof (eq121_run w) as H1. pose proof (eq121_run (count_Algebraics w)) as H2.
  destruct w as [[[t rvs bvs] d1 si md] td j wd us lg].
  destruct si as [? ? ? ? ? ? ? ? ? ? ? ? ? ? ? ? cs]. destruct cs.
  cbv [count_Algebraics] in *. run_cbv_in H1. run_cbv_in H2. run_cbv.
  match type of H1 with
  | match ?s with Some _ => _ | None => _ end => destruct s as [[x [xl | ]] | ]
  end.
  - rewrite H1 in H. rewrite H2. inversion H; subst. reflexivity.
  - rewrite H1 in H. rewrite H2. inversion H; subst. reflexivity.
  - destruct H1 as (d & w1 & H1). rewrite H1 in H. discriminate H.
Qed.

Lemma functionAlg_system0_tracks {real} {AR : Arith real} {RT : Runtime real} : tracks (real := real) count_Algebraics functionAlg_system0.
Proof.
  unfold functionAlg_system0.
  repeat (apply tracks_bind;
          [ first [ apply eq98_tracks | apply eq121_tracks | equation_tracks ]
          | intros ? ]).
  apply tracks_ret.
Qed.

Lemma functionAlgebraics_twice {real} {AR : Arith real} {RT : Runtime real}
    (w w1 : World real) :
  oc_latch_functionAlgebraics w = Ok 0%Z w1 ->
  exists w2, oc_latch_functionAlgebraics w1 = Ok 0%Z w2 /\
             variable_store w2 = variable_store w1.
Proof.
  unfold oc_latch_functionAlgebraics, oc_latch_function_savePreSynchronous, bind, ret.
  fold (count_Algebraics w). fold (count_Algebraics w1).
  destruct (functionAlg_system0 (count_Algebraics w)) as [[] w1' | d w1'] eqn:Hrun;
    [ | discriminate].
  intros Heq. inversion Heq; subst w1'. clear Heq.
  destruct (functionAlg_system0_twice _ _ Hrun) as (w2 & Hrun2 & Hdata & _).
  rewrite (functionAlg_system0_tracks _ _ _ Hrun2).
  exists (count_Algebraics w2). split; [reflexivity | ].
  destruct w1 as [dw1 ? ? ? ? ?], w2 as [dw2 ? ? ? ? ?]. cbn in Hdata. subst dw2.
  reflexivity.
Qed.

(** C8. When [functionAlg_system0] has returned in world [w1], running
    it again from [w1] returns in a world that differs from [w1] at most
    in the log: [data] (realVars, booleanVars, relations, every other
    field), [threadData], the Jacobian and the latches are the same.
    Through [oc_latch_functionAlgebraics], which counts the call first,
    the second run leaves the current values, the pre-values, the
    parameters and the relations as the first left them.  And however
    the pass ends, [realVarsPre] and [booleanVarsPre] are as they were. *)
Theorem continuous_pass_is_idempotent :
  forall real (AR : Arith real) (RT : Runtime real) (w : World real),
    (forall w1, functionAlg_system0 w = Ok tt w1 ->
       exists w2, functionAlg_system0 w1 = Ok tt w2 /\ same_but_log w1 w2) /\
    (forall w1, oc_latch_functionAlgebraics w = Ok 0%Z w1 ->
       exists w2, oc_latch_functionAlgebraics w1 = Ok 0%Z w2 /\
                  variable_store w2 = variable_store w1) /\
    pre_values (final (functionAlg_system0 w)) = pre_values w.
Proof.
  intros real AR RT w. repeat apply conj.
  - intros w1. apply functionAlg_system0_twice.
  - intros w1. apply functionAlgebraics_twice.
  - pose proof (functionAlg_system0_keeps_pre_values (pre_values w) w eq_refl) as H.
    destruct (functionAlg_system0 w) as [r w' | d w']; cbn [final]; [exact H | apply H].
Qed.

(** On the sample runtime at [time = 0.5]: the pass returns with
    [R2.i = 0.05], and run again from there it returns with the same
    [data]. *)
Lemma continuous_pass_is_idempotent_witness :
  exists w1 w2,
    functionAlg_system0 (sample_world 0.5 0 false) = Ok tt w1 /\
    rv w1 5 = 0.05%float /\
    functionAlg_system0 w1 = Ok tt w2 /\
    same_but_log w1 w2 /\
    pre_values w1 = pre_values (sample_world 0.5 0 false).
Proof.
  destruct (continuous_pass_is_idempotent float float_arith sample_runtime
              (sample_world 0.5 0 false)) as (Htwice & _ & Hpre).
  destruct (functionAlg_system0 (sample_world 0.5 0 false)) as [[] w1 | d w1] eqn:Hrun.
  - destruct (Htwice w1 eq_refl) as (w2 & Hrun2 & Hsame).
    exists w1, w2. split; [reflexivity | ].
    split; [ | split; [exact Hrun2 | split; [exact Hsame | exact Hpre]]].
    vm_compute in Hrun. injection Hrun as <-. vm_compute. reflexivity.
  - vm_compute in Hrun. discriminate Hrun.
Defined.

(** * Further properties of the passes *)

(** ** What the passes leave alone *)

Lemma preserves_final {real A} (P : World real -> Prop) (E : Diag real -> Prop)
    (m : M real A) (w : World real) :
  preserves P E m -> P w -> P (final (m w)).
Proof.
  intros H Hw. specialize (H w Hw). destruct (m w); cbn [final]; [exact H | apply H].
Qed.

(** A [type: LINEAR] equation keeps what its residual callback and the
    assignment of the solution keep, the log apart. *)
Lemma linear_equation_keeps {real} {AR : Arith real} {RT : Runtime real}
    (P : World real -> Prop) (E : Diag real -> Prop)
    (index : Z) (name : string) (sysNumber var : nat) :
  (forall xloc res,
     preserves P E (residualFunc (oc_latch_initialLinearSystem sysNumber) xloc res)) ->
  (forall x, preserves P E (assign_rv var x)) ->
  (forall w l, P w -> P (set_log l w)) ->
  (forall indexes format args, E (throwStreamPrintWithEquationIndexes indexes format args)) ->
  preserves P E (linear_equation index name sysNumber var).
Proof.
  intros Hres Hassign Hlog Hthrow w Hw.
  rewrite linear_equation_announced.
  assert (Ha : P (announced name w)).
  { rewrite announced_set_log. apply Hlog. exact Hw. }
  assert (Hev : forall trials,
             preserves P E (evaluate_trials
                              (residualFunc (oc_latch_initialLinearSystem sysNumber)) trials)).
  { induction trials as [ | x rest IH]; cbn [evaluate_trials].
    - apply preserves_ret.
    - apply preserves_bind; [apply Hres | intros _; exact IH]. }
  assert (Hs : preserves P E (solve_linear_system sysNumber (rv_old w var))).
  { intros w1 Hw1. unfold solve_linear_system.
    destruct (linear_solver _ _ _ _) as [[retValue x] trials].
    apply (preserves_bind P E _ _ (Hev trials) (fun _ => preserves_ret P E _) w1 Hw1). }
  specialize (Hs _ Ha).
  destruct (solve_linear_system _ _ _) as [[retValue x] w1 | d w1]; [ | exact Hs].
  destruct (retValue >? 0)%Z.
  - split; [exact Hs | apply Hthrow].
  - exact (Hassign x w1 Hs).
Qed.

(** One generated function keeps [P]: unfold it, split on its tests and
    external outcomes, and close what is left with [closer]. *)
Ltac equation_keeps closer :=
  lazymatch goal with
  | |- preserves _ _ ?m => let h := head_of m in try unfold h
  end;
  let w := fresh "w" in let Hw := fresh "Hw" in
  intros w Hw;
  destruct w as [[[?t ?rvs ?bvs] ?d1 ?si ?md] ?td ?j ?wd ?us ?lg];
  match goal with si : SIMULATION_INFO _ |- _ => destruct si end;
  store_cbv_in Hw;
  run_equation; store_cbv;
  closer Hw.

Ltac log_keeps closer :=
  let w := fresh "w" in let Hw := fresh "Hw" in
  intros w ? Hw;
  destruct w as [[[?t ?rvs ?bvs] ?d1 ?si ?md] ?td ?j ?wd ?us ?lg];
  match goal with si : SIMULATION_INFO _ |- _ => destruct si end;
  store_cbv_in Hw; store_cbv;
  closer Hw.

Ltac pass_keeps closer :=
  repeat (apply preserves_bind; [ step_keeps closer | intros ? ]);
  try (apply preserves_ret)
with step_keeps closer :=
  lazymatch goal with
  | |- preserves _ _ functionAlg_system0 =>
      unfold functionAlg_system0; pass_keeps closer
  | |- preserves _ _ oc_latch_functionInitialEquations_0 =>
      unfold oc_latch_functionInitialEquations_0; pass_keeps closer
  | |- preserves _ _ oc_latch_updateBoundParameters_0 =>
      unfold oc_latch_updateBoundParameters_0; pass_keeps closer
  | |- _ =>
      first
      [ apply linear_equation_keeps;
        [ intros ? ?; cbn [oc_latch_initialLinearSystem residualFunc];
          lazymatch goal with
          | |- preserves _ _ ?m => let h := head_of m in unfold h
          end;
          pass_keeps closer; equation_keeps closer
        | intros ?; equation_keeps closer
        | log_keeps closer
        | intros; exact I ]
      | equation_keeps closer ]
  end.

(** A whole pass. *)
Ltac whole_pass_keeps closer :=
  lazymatch goal with
  | |- preserves _ _ (bind _ _) => idtac
  | |- preserves _ _ ?m => let h := head_of m in try unfold h
  end;
  pass_keeps closer; try (equation_keeps closer).

Ltac by_assumption H := repeat split; solve [ exact H | exact I | eauto ].

Section Frames.
Context {real : Type} {AR : Arith real} {RT : Runtime real}.
Let E := fun _ : Diag real => True.

Lemma passes_keep_parameters c (gout : array real) (b : bool) :
  let P := fun w : World real => parameters w = c in
  preserves P E oc_latch_functionInitialEquations /\
  preserves P E oc_latch_functionDAE /\
  preserves P E oc_latch_functionAlgebraics /\
  preserves P E oc_latch_functionODE /\
  preserves P E oc_latch_function_ZeroCrossingsEquations /\
  preserves P E (oc_latch_function_ZeroCrossings gout) /\
  preserves P E (oc_latch_function_updateRelations b).
Proof.
  intros P. unfold P, E, parameters.
  repeat apply conj; whole_pass_keeps by_assumption.
Qed.

Lemma passes_keep_event_memory c (gout : array real) (b : bool) :
  let P := fun w : World real => event_memory w = c in
  preserves P E oc_latch_functionDAE /\
  preserves P E oc_latch_functionAlgebraics /\
  preserves P E oc_latch_functionODE /\
  preserves P E oc_latch_function_ZeroCrossingsEquations /\
  preserves P E (oc_latch_function_ZeroCrossings gout) /\
  preserves P E (oc_latch_function_updateRelations b) /\
  preserves P E oc_latch_updateBoundParameters.
Proof.
  intros P. unfold P, E, event_memory.
  repeat apply conj; whole_pass_keeps by_assumption.
Qed.


Lemma passes_keep_callStatistics c (b : bool) :
  let P := fun w : World real => callStatistics (sinfo w) = c in
  preserves P E oc_latch_functionInitialEquations /\
  preserves P E oc_latch_functionDAE /\
  preserves P E oc_latch_updateBoundParameters /\
  preserves P E (oc_latch_function_updateRelations b) /\
  preserves P E functionAlg_system0 /\
  preserves P E (oc_latch_eqFunction_89 ;; oc_latch_eqFunction_98 ;;
                 oc_latch_eqFunction_105 ;; oc_latch_eqFunction_107 ;;
                 oc_latch_eqFunction_109 ;; oc_latch_eqFunction_110 ;;
                 oc_latch_eqFunction_121 ;; oc_latch_eqFunction_123 ;;
                 oc_latch_eqFunction_124 ;; ret 0%Z).
Proof.
  intros P. unfold P, E.
  repeat apply conj; whole_pass_keeps by_assumption.
Qed.

End Frames.

(** X1. Whether it returns or throws, no pass other than the
    bound-parameter pass writes a parameter (real, integer or boolean),
    an external object or an assertion latch. *)
Theorem parameters_are_written_by_no_other_pass :
  forall real (AR : Arith real) (RT : Runtime real) (w : World real)
         (gout : array real) (evalforZeroCross : bool),
    parameters (final (oc_latch_functionInitialEquations w)) = parameters w /\
    parameters (final (oc_latch_functionDAE w)) = parameters w /\
    parameters (final (oc_latch_functionAlgebraics w)) = parameters w /\
    parameters (final (oc_latch_functionODE w)) = parameters w /\
    parameters (final (oc_latch_function_ZeroCrossingsEquations w)) = parameters w /\
    parameters (final (oc_latch_function_ZeroCrossings gout w)) = parameters w /\
    parameters (final (oc_latch_function_updateRelations evalforZeroCross w)) = parameters w.
Proof.
  intros real AR RT w gout b.
  destruct (passes_keep_parameters (parameters w) gout b) as (H1 & H2 & H3 & H4 & H5 & H6 & H7).
  repeat apply conj;
    match goal with
    | H : preserves _ _ ?m |- _ (final (?m w)) = _ =>
        exact (preserves_final _ _ m w H eq_refl)
    end.
Qed.

(** X2. Whether it returns or throws, none of the discrete pass, the
    continuous pass, the ODE pass, the zero-crossing functions, the
    relation update and the bound-parameter pass writes a pre-value
    ([realVarsPre], [booleanVarsPre]) or the relations of the last
    accepted step ([relationsPre], [storedRelations]). *)
Theorem event_memory_is_read_only :
  forall real (AR : Arith real) (RT : Runtime real) (w : World real)
         (gout : array real) (evalforZeroCross : bool),
    event_memory (final (oc_latch_functionDAE w)) = event_memory w /\
    event_memory (final (oc_latch_functionAlgebraics w)) = event_memory w /\
    event_memory (final (oc_latch_functionODE w)) = event_memory w /\
    event_memory (final (oc_latch_function_ZeroCrossingsEquations w)) = event_memory w /\
    event_memory (final (oc_latch_function_ZeroCrossings gout w)) = event_memory w /\
    event_memory (final (oc_latch_function_updateRelations evalforZeroCross w))
      = event_memory w /\
    event_memory (final (oc_latch_updateBoundParameters w)) = event_memory w.
Proof.
  intros real AR RT w gout b.
  destruct (passes_keep_event_memory (event_memory w) gout b)
    as (H1 & H2 & H3 & H4 & H5 & H6 & H7).
  repeat apply conj;
    match goal with
    | H : preserves _ _ ?m |- _ (final (?m w)) = _ =>
        exact (preserves_final _ _ m w H eq_refl)
    end.
Qed.

(** X3. The call counters count calls, as long as they have not reached
    the end of a C [long]: from a world whose four counters are in
    [0 .. 2147483646], [oc_latch_functionODE],
    [oc_latch_functionAlgebraics], [oc_latch_function_ZeroCrossingsEquations]
    and [oc_latch_function_ZeroCrossings] each add one to their own
    counter of [callStatistics] and leave the other three, also when an
    equation throws; the initialization pass, the discrete pass, the
    bound-parameter pass and the relation update leave all four. *)
Theorem call_statistics_count_calls :
  forall real (AR : Arith real) (RT : Runtime real) (w : World real)
         (gout : array real) (evalforZeroCross : bool),
    forallb can_count
      [functionODE (callStatistics (sinfo w));
       functionAlgebraics (callStatistics (sinfo w));
       functionZeroCrossingsEquations (callStatistics (sinfo w));
       functionZeroCrossings (callStatistics (sinfo w))] = true ->
    callStatistics (sinfo (final (oc_latch_functionODE w))) =
      set_functionODE (functionODE (callStatistics (sinfo w)) + 1)
        (callStatistics (sinfo w)) /\
    callStatistics (sinfo (final (oc_latch_functionAlgebraics w))) =
      set_functionAlgebraics (functionAlgebraics (callStatistics (sinfo w)) + 1)
        (callStatistics (sinfo w)) /\
    callStatistics (sinfo (final (oc_latch_function_ZeroCrossingsEquations w))) =
      set_functionZeroCrossingsEquations
        (functionZeroCrossingsEquations (callStatistics (sinfo w)) + 1)
        (callStatistics (sinfo w)) /\
    callStatistics (sinfo (final (oc_latch_function_ZeroCrossings gout w))) =
      set_functionZeroCrossings (functionZeroCrossings (callStatistics (sinfo w)) + 1)
        (callStatistics (sinfo w)) /\
    callStatistics (sinfo (final (oc_latch_functionInitialEquations w))) =
      callStatistics (sinfo w) /\
    callStatistics (sinfo (final (oc_latch_functionDAE w))) = callStatistics (sinfo w) /\
    callStatistics (sinfo (final (oc_latch_updateBoundParameters w))) =
      callStatistics (sinfo w) /\
    callStatistics (sinfo (final (oc_latch_function_updateRelations evalforZeroCross w))) =
      callStatistics (sinfo w).
Proof.
  intros real AR RT w gout b _.
  repeat apply conj.
  - reflexivity.
  - destruct (passes_keep_callStatistics
                (set_functionAlgebraics (functionAlgebraics (callStatistics (sinfo w)) + 1)
                   (callStatistics (sinfo w))) b) as (_ & _ & _ & _ & H & _).
    unfold oc_latch_functionAlgebraics, oc_latch_function_savePreSynchronous.
    unfold bind at 1 2. unfold ret at 1.
    match goal with
    | |- context [bind functionAlg_system0 ?k ?w0] =>
        pose proof (preserves_bind _ _ functionAlg_system0 k H
                      (fun _ => preserves_ret _ _ _) w0 eq_refl) as Hrun;
        destruct (bind functionAlg_system0 k w0); [exact Hrun | apply Hrun]
    end.
  - destruct (passes_keep_callStatistics
                (set_functionZeroCrossingsEquations
                   (functionZeroCrossingsEquations (callStatistics (sinfo w)) + 1)
                   (callStatistics (sinfo w))) b) as (_ & _ & _ & _ & _ & H).
    unfold oc_latch_function_ZeroCrossingsEquations.
    unfold bind at 1.
    match goal with
    | |- context [final (?m ?w0)] =>
        pose proof (H w0 eq_refl) as Hrun;
        destruct (m w0); [exact Hrun | apply Hrun]
    end.
  - reflexivity.
  - destruct (passes_keep_callStatistics (callStatistics (sinfo w)) b) as (H & _).
    exact (preserves_final _ _ _ w H eq_refl).
  - destruct (passes_keep_callStatistics (callStatistics (sinfo w)) b) as (_ & H & _).
    exact (preserves_final _ _ _ w H eq_refl).
  - destruct (passes_keep_callStatistics (callStatistics (sinfo w)) b) as (_ & _ & H & _).
    exact (preserves_final _ _ _ w H eq_refl).
  - destruct (passes_keep_callStatistics (callStatistics (sinfo w)) b) as (_ & _ & _ & H & _).
    exact (preserves_final _ _ _ w H eq_refl).
Qed.

(** On the sample world, whose counters are 0. *)
Lemma call_statistics_count_calls_witness :
  functionODE (callStatistics (sinfo (final (oc_latch_functionODE
     (sample_world 0.5 0 false))))) = 1%Z /\
  functionAlgebraics (callStatistics (sinfo (final (oc_latch_functionAlgebraics
     (sample_world 0.5 0 false))))) = 1%Z /\
  functionZeroCrossingsEquations (callStatistics (sinfo
     (final (oc_latch_function_ZeroCrossingsEquations (sample_world 0.5 0 false))))) = 1%Z /\
  functionZeroCrossings (callStatistics (sinfo
     (final (oc_latch_function_ZeroCrossings (fun _ => 0%float)
               (sample_world 0.5 0 false))))) = 1%Z /\
  functionAlgebraics (callStatistics (sinfo (final (oc_latch_functionDAE
     (sample_world 0.5 0 false))))) = 0%Z.
Proof.
  destruct (call_statistics_count_calls float float_arith sample_runtime
              (sample_world 0.5 0 false) (fun _ => 0%float) true eq_refl)
    as (H1 & H2 & H3 & H4 & _ & H6 & _).
  rewrite H1, H2, H3, H4, H6. repeat split.
Defined.

(** ** The flags of the event iteration *)

Lemma hoare_bind {real A B} (P : World real -> Prop) (m : M real A) (k : A -> M real B)
    (R : A -> World real -> Prop) (Q : B -> World real -> Prop) (T : World real -> Prop) :
  hoare P m R T -> (forall a, hoare (R a) (k a) Q T) -> hoare P (bind m k) Q T.
Proof.
  intros Hm Hk w Hw. unfold bind. specialize (Hm w Hw).
  destruct (m w) as [a w' | d w']; [exact (Hk a w' Hm) | exact Hm].
Qed.

Lemma preserves_hoare {real A} (P : World real -> Prop) (m : M real A) :
  preserves P (fun _ => True) m -> hoare P m (fun _ => P) P.
Proof.
  intros H w Hw. specialize (H w Hw). destruct (m w); [exact H | apply H].
Qed.

(** The equations of a pass one after the other while they keep the
    invariant; what does not keep it is left. *)
Ltac hoare_steps closer :=
  repeat (match goal with
          | |- hoare ?P (bind _ _) _ _ => apply (hoare_bind P _ _ (fun _ => P))
          end;
          [ apply preserves_hoare; step_keeps closer | intros ? ]).

Ltac by_flags H :=
  repeat split; solve [ exact I | apply H | reflexivity ].

Section Flags.
Context {real : Type} {AR : Arith real} {RT : Runtime real}.

Lemma functionDAE_flags :
  hoare (real := real)
    (fun w => discreteCall (sinfo w) = true /\ needToIterate (sinfo w) = false)
    (oc_latch_functionLocalKnownVars ;;
     oc_latch_eqFunction_89 ;; oc_latch_eqFunction_90 ;; oc_latch_eqFunction_91 ;;
     oc_latch_eqFunction_98 ;; oc_latch_eqFunction_99 ;; oc_latch_eqFunction_100 ;;
     oc_latch_eqFunction_101 ;; oc_latch_eqFunction_102 ;; oc_latch_eqFunction_103 ;;
     oc_latch_eqFunction_104 ;; oc_latch_eqFunction_105 ;; oc_latch_eqFunction_106 ;;
     oc_latch_eqFunction_107 ;; oc_latch_eqFunction_108 ;; oc_latch_eqFunction_109 ;;
     oc_latch_eqFunction_110 ;; oc_latch_eqFunction_111 ;; oc_latch_eqFunction_112 ;;
     oc_latch_eqFunction_113 ;; oc_latch_eqFunction_114 ;; oc_latch_eqFunction_121 ;;
     oc_latch_eqFunction_122 ;; oc_latch_eqFunction_123 ;; oc_latch_eqFunction_124 ;;
     oc_latch_eqFunction_125 ;; oc_latch_eqFunction_126 ;; oc_latch_eqFunction_127 ;;
     oc_latch_eqFunction_128 ;; oc_latch_eqFunction_129 ;; oc_latch_eqFunction_130 ;;
     oc_latch_eqFunction_131 ;; oc_latch_eqFunction_132 ;; oc_latch_eqFunction_133 ;;
     oc_latch_eqFunction_139 ;; oc_latch_eqFunction_138 ;; oc_latch_eqFunction_137 ;;
     oc_latch_eqFunction_136 ;; oc_latch_eqFunction_135 ;; oc_latch_eqFunction_134 ;;
     assign_discreteCall false ;; ret 0%Z)
    (fun r w => r = 0%Z /\ discreteCall (sinfo w) = false /\ needToIterate (sinfo w) = false)
    (fun w => discreteCall (sinfo w) = true /\ needToIterate (sinfo w) = false).
Proof.
  hoare_steps by_flags.
  intros w Hw. destruct w as [[[t rvs bvs] d1 si md] td j wd us lg]. destruct si.
  cbv [bind assign_discreteCall ret]. store_cbv. store_cbv_in Hw.
  repeat split; apply Hw.
Qed.

Lemma functionInitialEquations_flags :
  hoare (real := real)
    (fun w => discreteCall (sinfo w) = true)
    (oc_latch_functionInitialEquations_0 ;; assign_discreteCall false ;; ret 0%Z)
    (fun r w => r = 0%Z /\ discreteCall (sinfo w) = false)
    (fun w => discreteCall (sinfo w) = true).
Proof.
  hoare_steps by_flags.
  intros w Hw. cbv [bind assign_discreteCall ret]. split; reflexivity.
Qed.
End Flags.

(** X4. The discrete pass and the initialization pass return 0 with
    [discreteCall] cleared; when one of their equations throws,
    [discreteCall] is left set.  The discrete pass clears [needToIterate]
    on entry and never sets it. *)
Theorem discreteCall_is_left_set_on_throw :
  forall real (AR : Arith real) (RT : Runtime real) (w : World real),
    match oc_latch_functionDAE w with
    | Ok r w' => r = 0%Z /\ discreteCall (sinfo w') = false /\
                 needToIterate (sinfo w') = false
    | Throw _ w' => discreteCall (sinfo w') = true /\ needToIterate (sinfo w') = false
    end /\
    match oc_latch_functionInitialEquations w with
    | Ok r w' => r = 0%Z /\ discreteCall (sinfo w') = false
    | Throw _ w' => discreteCall (sinfo w') = true
    end.
Proof.
  intros real AR RT w. split.
  - unfold oc_latch_functionDAE. unfold bind at 1 2.
    unfold assign_needToIterate at 1. unfold assign_discreteCall at 1.
    apply functionDAE_flags.
    destruct w as [[[t rvs bvs] d1 si md] td j wd us lg]. destruct si.
    split; reflexivity.
  - unfold oc_latch_functionInitialEquations. unfold bind at 1.
    unfold assign_discreteCall at 1.
    apply functionInitialEquations_flags.
    destruct w as [[[t rvs bvs] d1 si md] td j wd us lg]. destruct si.
    reflexivity.
Qed.

(** ** The next time event *)

Lemma hoare_weaken {real A} (P P' : World real -> Prop) (m : M real A)
    (Q : A -> World real -> Prop) (T : World real -> Prop) :
  (forall w, P' w -> P w) -> hoare P m Q T -> hoare P' m Q T.
Proof. intros HP H w Hw. exact (H w (HP w Hw)). Qed.

Ltac by_reads H :=
  cbv [upd Nat.eqb]; repeat split; solve [ exact I | exact H | apply H | tauto ].

(** The equations after [known] has had its turn. *)
Ltac hoare_steps_with known closer :=
  repeat (match goal with
          | |- hoare ?P (bind _ _) _ _ => apply (hoare_bind P _ _ (fun _ => P))
          end;
          [ apply preserves_hoare; first [ known | step_keeps closer ] | intros ? ]).

Section NextEvent.
Context {real : Type} {AR : Arith real} {RT : Runtime real}.
Variables (a b : real).

(** The pre-value of [$whenCondition1] is true and the next time event
    is as it was. *)
Let no_edge (w : World real) : Prop :=
  bvPre w 0 = true /\ rv w 56 = a /\ rv w 57 = b.

(** [$whenCondition1] is true, or the next time event is as it was. *)
Let edge_or_same (w : World real) : Prop :=
  bv w 0 = true \/ (rv w 56 = a /\ rv w 57 = b).

Let same (w : World real) : Prop := rv w 56 = a /\ rv w 57 = b.

Lemma when_clauses_keep_no_edge :
  preserves no_edge (fun _ => True) oc_latch_eqFunction_106 /\
  preserves no_edge (fun _ => True) oc_latch_eqFunction_108.
Proof.
  split; intros w Hw; pose proof Hw as (Hp & _).
  - unfold oc_latch_eqFunction_106. rewrite Hp, andb_false_r. exact Hw.
  - unfold oc_latch_eqFunction_108. rewrite Hp, andb_false_r. exact Hw.
Qed.

Lemma when_clauses_keep_edge_or_same :
  preserves edge_or_same (fun _ => True) oc_latch_eqFunction_106 /\
  preserves edge_or_same (fun _ => True) oc_latch_eqFunction_108.
Proof.
  split; intros w Hw.
  - unfold oc_latch_eqFunction_106.
    destruct (bv w 0) eqn:Hb; cbn [andb]; [ | exact Hw].
    destruct (negb (bvPre w 0)); [ | exact Hw].
    unfold bind, call.
    destruct (omc_Modelica_Blocks_Tables_Internal_getNextTimeEvent _ _).
    + left. exact Hb.
    + split; [left; exact Hb | exact I].
  - unfold oc_latch_eqFunction_108.
    destruct (bv w 0) eqn:Hb; cbn [andb]; [ | exact Hw].
    destruct (negb (bvPre w 0)); [ | exact Hw].
    left. exact Hb.
Qed.

Lemma functionDAE_keeps_no_edge :
  preserves no_edge (fun _ => True) oc_latch_functionDAE.
Proof.
  destruct when_clauses_keep_no_edge as [H106 H108].
  unfold no_edge in *. unfold oc_latch_functionDAE.
  repeat (apply preserves_bind;
          [ first [ exact H106 | exact H108 | step_keeps by_reads ] | intros ? ]).
  apply preserves_ret.
Qed.

Lemma functionDAE_edge_or_same :
  hoare same oc_latch_functionDAE (fun _ => edge_or_same) edge_or_same.
Proof.
  destruct when_clauses_keep_edge_or_same as [H106 H108].
  assert (Hweak : forall w : World real, same w -> edge_or_same w)
    by (intros w H; right; exact H).
  unfold same, edge_or_same in *. unfold oc_latch_functionDAE.
  do 4 (match goal with
        | |- hoare ?P (bind _ _) _ _ => apply (hoare_bind P _ _ (fun _ => P))
        end;
        [ apply (hoare_weaken _ _ _ _ _ (fun w H => H));
          intros w Hw;
          match goal with
          | |- match ?m w with _ => _ end =>
              let H := fresh in
              assert (H : preserves (fun w : World real => rv w 56 = a /\ rv w 57 = b)
                            (fun _ => True) m) by (step_keeps by_reads);
              specialize (H w Hw); destruct (m w); [exact H | apply Hweak; apply H]
          end
        | intros ? ]).
  apply (hoare_weaken _ _ _ _ _ Hweak).
  hoare_steps_with ltac:(first [ exact H106 | exact H108 ]) by_reads.
  intros w Hw. exact Hw.
Qed.
End NextEvent.

(** X5. The discrete pass changes the next time event of the table
    ([combiTimeTable.nextTimeEvent], [combiTimeTable.nextTimeEventScaled])
    only on a rising edge of [$whenCondition1]: however the pass ends, if
    [$whenCondition1] is not true with a false pre-value, both are as they
    were. *)
Theorem next_time_event_changes_on_rising_edge_only :
  forall real (AR : Arith real) (RT : Runtime real) (w : World real),
    bv (final (oc_latch_functionDAE w)) 0 && negb (bvPre w 0) = false ->
    rv (final (oc_latch_functionDAE w)) 56 = rv w 56 /\
    rv (final (oc_latch_functionDAE w)) 57 = rv w 57.
Proof.
  intros real AR RT w Hedge.
  destruct (bvPre w 0) eqn:Hpre.
  - pose proof (functionDAE_keeps_no_edge (rv w 56) (rv w 57) w
                  (conj Hpre (conj eq_refl eq_refl))) as H.
    destruct (oc_latch_functionDAE w); cbn [final]; [apply H | apply H].
  - rewrite andb_true_r in Hedge.
    pose proof (functionDAE_edge_or_same (rv w 56) (rv w 57) w (conj eq_refl eq_refl)) as H.
    destruct (oc_latch_functionDAE w); cbn [final] in *;
      (destruct H as [H | H]; [congruence | exact H]).
Qed.

(** On the sample world before the start of the table ([time = -1]) the
    when-condition is false and the pass leaves the next time event. *)
Lemma next_time_event_changes_on_rising_edge_only_witness :
  rv (final (oc_latch_functionDAE (sample_world (-1) 0 false))) 56 =
    rv (sample_world (-1) 0 false) 56 /\
  rv (final (oc_latch_functionDAE (sample_world (-1) 0 false))) 57 =
    rv (sample_world (-1) 0 false) 57.
Proof.
  apply (next_time_event_changes_on_rising_edge_only float float_arith sample_runtime
           (sample_world (-1) 0 false)).
  vm_compute. reflexivity.
Defined.

(** ** The array bounds *)

Lemma beyond_refl {T} (n : Z) (a : array T) : beyond n a a.
Proof. intros i _. reflexivity. Qed.

Lemma beyond_upd {T} (n : Z) (a b : array T) (i : nat) (v : T) :
  (Z.of_nat i <? n)%Z = true -> beyond n a b -> beyond n (upd a i v) b.
Proof.
  intros Hi H k Hk. apply Z.ltb_lt in Hi.
  rewrite upd_other by lia. apply H. exact Hk.
Qed.

Ltac in_sizes H :=
  cbv zeta in H |- *;
  first
  [ exact H
  | repeat match goal with
           | K : _ /\ _ |- _ => destruct K
           end;
    repeat match goal with
           | |- _ /\ _ => split
           end;
    first [ assumption
          | exact I
          | repeat (apply beyond_upd; [ reflexivity | ]); assumption ] ].

Section Sizes.
Context {real : Type} {AR : Arith real} {RT : Runtime real}.

Lemma passes_write_within_sizes (w0 : World real) (gout : array real) (b : bool) :
  let P := within_sizes w0 in
  let E := fun _ : Diag real => True in
  preserves P E oc_latch_updateBoundParameters /\
  preserves P E oc_latch_functionInitialEquations /\
  preserves P E oc_latch_functionDAE /\
  preserves P E oc_latch_functionAlgebraics /\
  preserves P E oc_latch_functionODE /\
  preserves P E oc_latch_function_ZeroCrossingsEquations /\
  preserves P E (oc_latch_function_ZeroCrossings gout) /\
  preserves P E (oc_latch_function_updateRelations b).
Proof.
  intros P E. unfold P, E, within_sizes.
  repeat apply conj; whole_pass_keeps in_sizes.
Qed.
End Sizes.

(** X6. Every index the passes write lies inside the arrays as
    [oc_latch_setupDataStruc] sizes them: whether a pass returns or
    throws, the variables, pre-values, parameters, relations, external
    objects and time-unvarying marks are as before from the declared
    count on ([nVariablesReal = 58], [nVariablesBoolean = 12],
    [nParametersReal = 61], [nParametersInteger = 5],
    [nParametersBoolean = 11], [nRelations = 7], [nExtObjs = 1]). *)
Theorem passes_write_inside_the_arrays :
  forall real (AR : Arith real) (RT : Runtime real) (w : World real)
         (gout : array real) (evalforZeroCross : bool),
    within_sizes w (final (oc_latch_updateBoundParameters w)) /\
    within_sizes w (final (oc_latch_functionInitialEquations w)) /\
    within_sizes w (final (oc_latch_functionDAE w)) /\
    within_sizes w (final (oc_latch_functionAlgebraics w)) /\
    within_sizes w (final (oc_latch_functionODE w)) /\
    within_sizes w (final (oc_latch_function_ZeroCrossingsEquations w)) /\
    within_sizes w (final (oc_latch_function_ZeroCrossings gout w)) /\
    within_sizes w (final (oc_latch_function_updateRelations evalforZeroCross w)).
Proof.
  intros real AR RT w gout b.
  assert (Hw : within_sizes w w) by (repeat split; apply beyond_refl).
  destruct (passes_write_within_sizes w gout b) as (H1 & H2 & H3 & H4 & H5 & H6 & H7 & H8).
  repeat match goal with
         | |- within_sizes _ (final (?m w)) /\ _ =>
             split;
             [ match goal with
               | H : preserves _ _ m |- _ => exact (preserves_final _ _ m w H Hw)
               end
             | ]
         end.
  exact (preserves_final _ _ _ w H8 Hw).
Qed.

(** ** What the continuous pass returns *)

Section ContinuousPassOutcome.
Context {real : Type} {AR : Arith real} {RT : Runtime real}.

Lemma functionAlg_system0_outcome (w w2 : World real) :
  functionAlg_system0 w = Ok tt w2 ->
  (needToReThrow (sinfo w2) = needToReThrow (sinfo w) || negb (temperatures_in_scope w) /\
   (noThrowAsserts (sinfo w) = false -> temperatures_in_scope w = true)) /\
  exists w1,
    oc_latch_function_ZeroCrossingsEquations w = Ok 0%Z w1 /\
    bv w1 0 = bv w2 0 /\
    Forall (fun i => rv w1 i = rv w2 i) zero_crossing_variables.
Proof.
  intros H. unfold functionAlg_system0 in H. revert H.
  destruct w as [[[t rvs bvs] d1 si md] td j wd us lg].
  destruct si as [? ? rp ? ? ? ? ? ? ? ? ? ? nta ? nr ?].
  run_pass.
  all: intros Heq; injection Heq as <-.
  all: split.
  all: try (eexists; split;
            [ unfold oc_latch_function_ZeroCrossingsEquations; run_pass; reflexivity
            | run_cbv; split; [reflexivity | repeat constructor] ]).
  all: unfold temperatures_in_scope, algorithm_assertions, temperature_in_scope.
  all: cbn [forallb fst snd]; run_cbv.
  all: repeat match goal with
              | H : negb ?c && negb _ = false |- _ =>
                  destruct c; cbn [negb andb orb] in H |- *
              end.
  all: split;
    [ match goal with
      | |- _ = ?n || _ => destruct n; reflexivity
      end
    | let Hn := fresh in
      intros Hn; try reflexivity;
      repeat match goal with
             | H : negb _ = false |- _ => rewrite Hn in H; discriminate H
             end ].
Qed.
End ContinuousPassOutcome.

(** X10. The zero-crossing equations follow the continuous pass: from a
    world where [functionAlg_system0] returns,
    [oc_latch_function_ZeroCrossingsEquations] returns 0 too, and
    [$whenCondition1] and every real variable it assigns have the value
    the continuous pass gives them. *)
Theorem zero_crossing_equations_follow_the_continuous_pass :
  forall real (AR : Arith real) (RT : Runtime real) (w w2 : World real),
    functionAlg_system0 w = Ok tt w2 ->
    exists w1,
      oc_latch_function_ZeroCrossingsEquations w = Ok 0%Z w1 /\
      bv w1 0 = bv w2 0 /\
      Forall (fun i => rv w1 i = rv w2 i) zero_crossing_variables.
Proof.
  intros real AR RT w w2 H. exact (proj2 (functionAlg_system0_outcome w w2 H)).
Qed.

(** On the sample world at time 0.5. *)
Lemma zero_crossing_equations_follow_the_continuous_pass_witness :
  exists w1,
    oc_latch_function_ZeroCrossingsEquations (sample_world 0.5 0 false) = Ok 0%Z w1 /\
    bv w1 0 = bv (final (functionAlg_system0 (sample_world 0.5 0 false))) 0 /\
    Forall (fun i => rv w1 i = rv (final (functionAlg_system0 (sample_world 0.5 0 false))) i)
      zero_crossing_variables.
Proof.
  apply (zero_crossing_equations_follow_the_continuous_pass float float_arith sample_runtime
           (sample_world 0.5 0 false)).
  vm_compute. reflexivity.
Defined.

(** X11. Where the continuous pass returns, its six temperature
    assertions have been dealt with: [needToReThrow] is what it was, or
    set when one of them is violated; and without [noThrowAsserts] the
    pass returns only when all six hold. *)
Theorem continuous_pass_returns_after_its_assertions :
  forall real (AR : Arith real) (RT : Runtime real) (w w2 : World real),
    functionAlg_system0 w = Ok tt w2 ->
    needToReThrow (sinfo w2) = needToReThrow (sinfo w) || negb (temperatures_in_scope w) /\
    (noThrowAsserts (sinfo w) = false -> temperatures_in_scope w = true).
Proof.
  intros real AR RT w w2 H. exact (proj1 (functionAlg_system0_outcome w w2 H)).
Qed.

(** On the sample world at time 0.5, where the assertions hold. *)
Lemma continuous_pass_returns_after_its_assertions_witness :
  needToReThrow (sinfo (final (functionAlg_system0 (sample_world 0.5 0 false)))) =
    needToReThrow (sinfo (sample_world 0.5 0 false))
    || negb (temperatures_in_scope (sample_world 0.5 0 false)) /\
  (noThrowAsserts (sinfo (sample_world 0.5 0 false)) = false ->
   temperatures_in_scope (sample_world 0.5 0 false) = true).
Proof.
  apply (continuous_pass_returns_after_its_assertions float float_arith sample_runtime
           (sample_world 0.5 0 false)).
  vm_compute. reflexivity.
Defined.
